(** * localdog: fund analysis engine

    A shallow embedding of the analysis core of the repository:
    - [Final]  embeds [src/fund_quant_system_final.py]  (indicators, trend
      decision, confidence, per-fund report, batch analysis);
    - [Simple] embeds [src/fund_quant_system_simple.py] (freshness cache,
      growth-only decision, batch);
    - [Base]   embeds the moving-average rule of [src/fund_quant_system.py].

    Numbers.  Python [int] and [float] values are embedded as exact
    rationals [Q]; results are compared with [==] ([Qeq]).  Rounding of
    binary floating point, infinities and NaN are outside this model.

    Values.  [pyval] covers the JSON scalars that reach the engine (null,
    booleans, numbers, strings).  Python dictionaries with string keys are
    [gmap string pyval].

    Exceptions.  A computation that can raise returns a [result]. *)

From Stdlib Require Import QArith Qabs Qminmax Lqa String List.
From stdpp Require Import gmap strings list fin_maps sorting.

Local Open Scope Q_scope.
Local Open Scope string_scope.

(** ** Python values, exceptions and the operators the engine uses *)

Inductive pyval :=
| VNone
| VBool (b : bool)
| VNum (q : Q)
| VStr (s : string).

Inductive exn :=
| TypeError
| KeyError (key : string)
| ValueError
| ZeroDivisionError
| RequestException.

Inductive result (A : Type) :=
| Ok (a : A)
| Raise (e : exn).

Arguments Ok {A} a.
Arguments Raise {A} e.

Global Instance result_ret : MRet result := λ A a, Ok a.

Global Instance result_bind : MBind result := λ A B k m,
  match m with
  | Ok a => k a
  | Raise e => Raise e
  end.

(** [try: body except Exception: handler] *)
Definition try_except {A} (body : result A) (handler : exn → result A) : result A :=
  match body with
  | Ok a => Ok a
  | Raise e => handler e
  end.

Fixpoint traverse {A B} (f : A → result B) (l : list A) : result (list B) :=
  match l with
  | [] => Ok []
  | x :: l' => y ← f x; ys ← traverse f l'; Ok (y :: ys)
  end.

Abbreviation dict := (gmap string pyval).

(** [d.get(k, dflt)] *)
Definition dict_get (d : dict) (k : string) (dflt : pyval) : pyval :=
  default dflt (d !! k).

(** [d[k]] *)
Definition dict_item (d : dict) (k : string) : result pyval :=
  match d !! k with
  | Some v => Ok v
  | None => Raise (KeyError k)
  end.

Definition Qltb (a b : Q) : bool := negb (Qle_bool b a).

(** The numeric value of a Python object, when it has one ([bool] is a
    subclass of [int]). *)
Definition num_of (v : pyval) : option Q :=
  match v with
  | VNum q => Some q
  | VBool b => Some (if b then 1 else 0)
  | VNone | VStr _ => None
  end.

Definition as_number (v : pyval) : result Q :=
  match num_of v with
  | Some q => Ok q
  | None => Raise TypeError
  end.

(** [a - b] *)
Definition py_sub (a b : pyval) : result Q :=
  x ← as_number a; y ← as_number b; Ok (x - y).

(** [a / b] on numbers *)
Definition py_div (a b : Q) : result Q :=
  if Qeq_bool b 0 then Raise ZeroDivisionError else Ok (a / b).

(** [abs(a)] *)
Definition py_abs (a : pyval) : result Q :=
  x ← as_number a; Ok (Qabs x).

(** [a < b]: numbers compare by value, strings lexicographically, any
    other pairing raises [TypeError]. *)
Definition py_lt (a b : pyval) : result bool :=
  match num_of a, num_of b with
  | Some x, Some y => Ok (Qltb x y)
  | _, _ =>
      match a, b with
      | VStr s, VStr t => Ok (String.ltb s t)
      | _, _ => Raise TypeError
      end
  end.

(** [a > b] *)
Definition py_gt (a b : pyval) : result bool := py_lt b a.

(** [min(a, b)] on numbers: the first argument wins a tie. *)
Definition py_min (a b : Q) : Q := if Qltb b a then b else a.

(** [sum(vs)]: starts from the integer 0 and adds from the left. *)
Fixpoint sum_from (acc : Q) (vs : list pyval) : result Q :=
  match vs with
  | [] => Ok acc
  | v :: vs' => x ← as_number v; sum_from (acc + x) vs'
  end.

Definition py_sum (vs : list pyval) : result Q := sum_from 0 vs.

(** [sum] of a list that holds numbers only *)
Definition qsum (l : list Q) : Q := fold_left Qplus l 0.

(** [l[i:j]] for [0 <= i <= j] *)
Definition slice {A} (l : list A) (i j : nat) : list A := take (j - i) (drop i l).

(** [l[-n:]]; [l[-0:]] is the whole list. *)
Definition last_n {A} (n : nat) (l : list A) : list A :=
  if (n =? 0)%nat then l else drop (length l - n) l.

(** Truth value of an object ([if v:], [not v]) *)
Definition truthy (v : pyval) : bool :=
  match v with
  | VNone => false
  | VBool b => b
  | VNum q => negb (Qeq_bool q 0)
  | VStr s => negb (String.eqb s "")
  end.

Definition is_not_None (v : pyval) : bool :=
  match v with
  | VNone => false
  | _ => true
  end.

(** [d[k] = v] on a dictionary whose iteration order matters: a present
    key keeps its position, a new key goes last. *)
Fixpoint odict_set {A} (k : string) (v : A) (d : list (string * A)) : list (string * A) :=
  match d with
  | [] => [(k, v)]
  | (k', v') :: d' =>
      if String.eqb k' k then (k, v) :: d' else (k', v') :: odict_set k v d'
  end.

(** ** The outside world

    The HTTP session, the clock and the library routines for regular
    expressions, JSON and number formatting are not part of the engine.
    A call of the engine sees them through the two records below. *)

Record response := { status_code : Z; text : string }.

(** Library routines with a fixed meaning: functions of their arguments. *)
Record library := {
  (** [re.match(r".*?({.*}).*", text, re.S)]: [group(1)] of the match, or
      [None] when the text holds no brace-delimited part *)
  re_match_object : string → option string;
  (** [json.loads] on the text of a JSON object *)
  json_loads : string → result dict;
  (** [float(s)] for a string [s]; [None] stands for [ValueError] *)
  float_of_str : string → option Q;
  (** [f"{x:.2f}"] *)
  format_2f : Q → string;
  (** Lines 93-129 of [get_fund_history_nav]: the [(date, nav)] rows that
      the search for [Data_ACWorthTrend], [json.loads], the conversion of
      timestamps to dates, the descending sort and the window of [days]
      days before the clock reading keep; [None] when the pattern is
      missing or one of these steps raises. *)
  nav_history : string → nat → string → option (list (string * pyval))
}.

(** What one call observes of the network and of the clock.  The clock
    readings of one call are represented by one value each; logging and
    printing are not modelled. *)
Record env := {
  (** [self.session.get(url, timeout=10)] *)
  session_get : string → result response;
  (** [time.time()] *)
  time_time : Q;
  (** [datetime.now().isoformat()] *)
  now_iso : string
}.

(** [f"https://fundgz.1234567.com.cn/js/{fund_code}.js"] *)
Definition realtime_url (fund_code : string) : string :=
  "https://fundgz.1234567.com.cn/js/" ++ fund_code ++ ".js".

(** [f"https://fund.eastmoney.com/pingzhongdata/{fund_code}.js"] *)
Definition history_url (fund_code : string) : string :=
  "https://fund.eastmoney.com/pingzhongdata/" ++ fund_code ++ ".js".

(** [float(v)] *)
Definition py_float (L : library) (v : pyval) : result Q :=
  match v with
  | VNum q => Ok q
  | VBool b => Ok (if b then 1 else 0)
  | VStr s =>
      match float_of_str L s with
      | Some q => Ok q
      | None => Raise ValueError
      end
  | VNone => Raise TypeError
  end.

(** [_parse_jsonp], the same in both files *)
Definition _parse_jsonp (L : library) (text : string) : result dict :=
  try_except
    (match re_match_object L text with
     | Some json_str => json_loads L json_str
     | None => Ok ∅
     end)
    (fun _ => Ok ∅).

(** [k in d] *)
Definition dict_has (d : dict) (k : string) : bool := bool_decide (is_Some (d !! k)).

(** Truth value of a dictionary: non-empty *)
Definition dict_truthy (d : dict) : bool := bool_decide (d ≠ ∅).

(** ** fund_quant_system_final.py *)

Module Final.

(** [calculate_ma], nested in [calculate_technical_indicators] *)
Definition calculate_ma (values : list pyval) (period : nat) : result (list Q) :=
  if (length values <? period)%nat then Ok []
  else
    traverse (fun i => s ← py_sum (slice values i (i + period));
                       py_div s (inject_Z (Z.of_nat period)))
             (seq 0 (length values - period + 1)).

(** The [for i in range(1, len(values))] loop of [calculate_rsi]: [prev] is
    [values[i-1]], [rest] is [values[i:]], and [gains], [losses] are the two
    lists the loop appends to. *)
Fixpoint gain_loss_loop (prev : pyval) (rest : list pyval) (gains losses : list Q)
  : result (list Q * list Q) :=
  match rest with
  | [] => Ok (gains, losses)
  | v :: rest' =>
      change ← py_sub v prev;
      if Qltb 0 change
      then gain_loss_loop v rest' (gains ++ [change]) (losses ++ [0])
      else gain_loss_loop v rest' (gains ++ [0]) (losses ++ [Qabs change])
  end.

(** [calculate_rsi], nested in [calculate_technical_indicators] *)
Definition calculate_rsi (values : list pyval) (period : nat) : result Q :=
  if (length values <? period + 1)%nat then Ok 50
  else
    '(gains, losses) ←
       match values with
       | [] => Ok ([], [])
       | v0 :: rest => gain_loss_loop v0 rest [] []
       end;
    if (length gains <? period)%nat then Ok 50
    else
      let p := inject_Z (Z.of_nat period) in
      avg_gain ← py_div (qsum (last_n period gains)) p;
      avg_loss ← py_div (qsum (last_n period losses)) p;
      if Qeq_bool avg_loss 0
      then Ok (if Qltb 0 avg_gain then 100 else 50)
      else
        rs ← py_div avg_gain avg_loss;
        q ← py_div 100 (1 + rs);
        Ok (100 - q).

(** [xs[-1] if xs else None] *)
Definition last_or_None (xs : list Q) : pyval :=
  match last xs with
  | Some x => VNum x
  | None => VNone
  end.

Definition calculate_technical_indicators (history_data : list dict) : result dict :=
  if (length history_data <? 5)%nat then Ok ∅
  else
    navs ← traverse (fun item => dict_item item "nav") history_data;
    let nav_values := rev navs in
    ma5 ← calculate_ma nav_values 5;
    ma10 ← calculate_ma nav_values 10;
    ma20 ← calculate_ma nav_values 20;
    rsi ← calculate_rsi nav_values 14;
    Ok (<["ma5" := last_or_None ma5]>
        (<["ma10" := last_or_None ma10]>
        (<["ma20" := last_or_None ma20]>
        (<["rsi" := VNum rsi]>
        (<["current_nav" := default (VNum 0) (last nav_values)]> ∅))))).

(** [_calculate_confidence] *)
Definition _calculate_confidence (realtime_info indicators : dict) : result Q :=
  let confidence := 0.5 in
  let estimate_growth := dict_get realtime_info "estimate_growth" (VNum 0) in
  a ← py_abs estimate_growth;
  let confidence := if Qltb 2 a then confidence + 0.2 else confidence in
  let rsi := dict_get indicators "rsi" (VNum 50) in
  low ← py_lt rsi (VNum 20);
  extreme ← (if low : bool then Ok true else py_gt rsi (VNum 80));
  let confidence := if extreme : bool then confidence + 0.15 else confidence in
  Ok (py_min confidence 0.95).

(** The moving-average block of [get_trading_advice]: starting from
    [("hold", "趋势不明确")], the pair [(advice, reason)] after the first
    [if]. *)
Definition trend_step (current_nav ma5 ma10 : pyval) : result (string * string) :=
  let advice := "hold" in
  let reason := "趋势不明确" in
  if is_not_None ma5 && is_not_None ma10 then
    up1 ← py_gt current_nav ma5;
    up ← (if up1 : bool then py_gt ma5 ma10 else Ok false);
    if up : bool then Ok ("buy", "价格在短期和长期均线上方，呈上升趋势")
    else
      down1 ← py_lt current_nav ma5;
      down ← (if down1 : bool then py_lt ma5 ma10 else Ok false);
      if down : bool then Ok ("sell", "价格在短期和长期均线下方，呈下降趋势")
      else Ok (advice, reason)
  else Ok (advice, reason).

(** The RSI block of [get_trading_advice]: the pair [(advice, reason)]
    after the second [if]/[elif]. *)
Definition rsi_step (rsi : pyval) (advice reason : string) : result (string * string) :=
  overbought ← py_gt rsi (VNum 70);
  if overbought : bool then
    if String.eqb advice "buy" then Ok ("hold", reason ++ "，但RSI超买，建议观望")
    else if String.eqb advice "hold" then Ok ("sell", "RSI超买，可能存在回调风险")
    else Ok (advice, reason)
  else
    oversold ← py_lt rsi (VNum 30);
    if oversold : bool then
      if String.eqb advice "sell" then Ok ("hold", reason ++ "，但RSI超卖，建议观望")
      else if String.eqb advice "hold" then Ok ("buy", "RSI超卖，可能存在反弹机会")
      else Ok (advice, reason)
    else Ok (advice, reason).

Definition get_trading_advice (fund_code : string) (realtime_info indicators : dict)
  : result dict :=
  let current_nav := dict_get indicators "current_nav" (VNum 0) in
  let ma5 := dict_get indicators "ma5" VNone in
  let ma10 := dict_get indicators "ma10" VNone in
  let rsi := dict_get indicators "rsi" (VNum 50) in
  '(advice, reason) ← trend_step current_nav ma5 ma10;
  '(advice, reason) ← rsi_step rsi advice reason;
  confidence ← _calculate_confidence realtime_info indicators;
  Ok (<["advice" := VStr advice]>
      (<["reason" := VStr reason]>
      (<["confidence" := VNum confidence]> ∅))).

(** The report of [analyze_fund]: a dictionary tagged by its ['status']. *)
Inductive error_text :=
| NoData (fund_code : string)   (* f'基金代码 {fund_code} 不存在或无法获取数据' *)
| OfException (e : exn).        (* str(e) *)

Inductive report :=
| Success (fund_info : dict) (history_data_count : nat)
          (technical_indicators : dict) (trading_advice : dict)
          (analysis_time : string)
| Error (error : error_text) (analysis_time : string).

Section IO.

Variable L : library.

Definition get_fund_realtime_info (w : env) (fund_code : string) : result dict :=
  let url := realtime_url fund_code in
  returned ← try_except
      (response ← session_get w url;
       if (status_code response =? 200)%Z then
         data ← _parse_jsonp L (text response);
         if dict_truthy data && dict_has data "fundcode" then
           nav ← py_float L (dict_get data "dwjz" (VNum 0));
           estimate_value ← py_float L (dict_get data "gsz" (VNum 0));
           estimate_growth ← py_float L (dict_get data "gszzl" (VNum 0));
           Ok (Some
             (<["fund_code" := dict_get data "fundcode" (VStr fund_code)]>
             (<["name" := dict_get data "name" (VStr "")]>
             (<["nav_date" := dict_get data "jzrq" (VStr "")]>
             (<["nav" := VNum nav]>
             (<["estimate_value" := VNum estimate_value]>
             (<["estimate_growth" := VNum estimate_growth]>
             (<["estimate_time" := dict_get data "gztime" (VStr "")]>
             (<["last_update" := VStr (now_iso w)]> ∅)))))))))
         else Ok None
       else Ok None)
      (fun _ => Ok None);
  match returned with
  | Some info => Ok info
  | None =>
      Ok (<["fund_code" := VStr fund_code]>
         (<["name" := VStr ""]>
         (<["nav_date" := VStr ""]>
         (<["nav" := VNum 0]>
         (<["estimate_value" := VNum 0]>
         (<["estimate_growth" := VNum 0]>
         (<["estimate_time" := VStr ""]>
         (<["last_update" := VStr (now_iso w)]> ∅))))))))
  end.

Definition get_fund_history_nav (w : env) (fund_code : string) (days : nat)
  : result (list dict) :=
  let url := history_url fund_code in
  try_except
    (response ← session_get w url;
     if (status_code response =? 200)%Z then
       match nav_history L (text response) days (now_iso w) with
       | Some rows =>
           Ok (map (fun '(date_str, nav_value) =>
                      <["date" := VStr date_str]> (<["nav" := nav_value]> ∅)) rows)
       | None => Ok []
       end
     else Ok [])
    (fun _ => Ok []).

Definition analyze_fund (w : env) (fund_code : string) : result report :=
  try_except
    (realtime_info ← get_fund_realtime_info w fund_code;
     name ← dict_item realtime_info "name";
     if negb (truthy name) then Ok (Error (NoData fund_code) (now_iso w))
     else
       history_data ← get_fund_history_nav w fund_code 180;
       indicators ← calculate_technical_indicators history_data;
       trading_advice ← get_trading_advice fund_code realtime_info indicators;
       Ok (Success realtime_info (length history_data) indicators trading_advice
                   (now_iso w)))
    (fun e => Ok (Error (OfException e) (now_iso w))).

(** The loop of [analyze_multiple_funds]: [world i] is what the [i]-th
    iteration observes of the network and the clock (the pause between
    iterations only lets time pass). *)
Fixpoint analyze_loop (world : nat → env) (i : nat) (fund_codes : list string)
    (results : gmap string report) : result (gmap string report) :=
  match fund_codes with
  | [] => Ok results
  | fund_code :: rest =>
      r ← analyze_fund (world i) fund_code;
      analyze_loop world (S i) rest (<[fund_code := r]> results)
  end.

Definition analyze_multiple_funds (world : nat → env) (fund_codes : list string)
  : result (gmap string report) :=
  analyze_loop world 0 fund_codes ∅.

End IO.

End Final.

(** ** fund_quant_system_simple.py *)

Module Simple.

(** The object state: [self.fund_cache] maps a cache key to the pair
    [(data, timestamp)].  [requests] is a ghost log of the URLs passed to
    [self.session.get], kept to count the fetches. *)
Record state := {
  fund_cache : gmap string (dict * Q);
  requests : list string
}.

(** [self.cache_timeout] *)
Definition cache_timeout : Q := 300.

(** [response.raise_for_status()] *)
Definition raise_for_status (r : response) : result unit :=
  if (400 <=? status_code r)%Z && (status_code r <? 600)%Z
  then Raise RequestException
  else Ok tt.

Section IO.

Variable L : library.

(** [if key in data: data[key] = float(data[key])] *)
Definition convert_field (key : string) (data : dict) : result dict :=
  match data !! key with
  | Some v => x ← py_float L v; Ok (<[key := VNum x]> data)
  | None => Ok data
  end.

(** The statements of the [try] block of [get_fund_realtime_info] that come
    before the cache is written: the request, the status check, the parsing
    and the conversions. *)
Definition fetch (w : env) (url : string) : result dict :=
  response ← session_get w url;
  raise_for_status response;;
  data ← _parse_jsonp L (text response);
  data ← convert_field "gszzl" data;
  convert_field "dwjz" data.

Definition get_fund_realtime_info (w : env) (fund_code : string) (s : state)
  : result dict * state :=
  let cache_key := "realtime_" ++ fund_code in
  let current_time := time_time w in
  let hit :=
    match fund_cache s !! cache_key with
    | Some (cached_data, timestamp) =>
        if Qltb (current_time - timestamp) cache_timeout
        then Some cached_data else None
    | None => None
    end in
  match hit with
  | Some cached_data => (Ok cached_data, s)
  | None =>
      let url := realtime_url fund_code in
      let requested := (requests s ++ [url])%list in
      match fetch w url with
      | Ok data =>
          (Ok data,
           {| fund_cache := <[cache_key := (data, current_time)]> (fund_cache s);
              requests := requested |})
      | Raise _ =>   (* except Exception: return {} *)
          (Ok ∅, {| fund_cache := fund_cache s; requests := requested |})
      end
  end.

Definition calculate_technical_indicators (w : env) (fund_code : string) (s : state)
  : result dict * state :=
  let '(fetched, s') := get_fund_realtime_info w fund_code s in
  (realtime_data ← fetched;
   if negb (dict_truthy realtime_data)
   then Ok (<["error" := VStr "无法获取基金数据"]> ∅)
   else
     let growth_rate := dict_get realtime_data "gszzl" (VNum 0) in
     let fmt := g ← as_number growth_rate; Ok (format_2f L g) in
     '(advice, reason) ← (
       c1 ← py_gt growth_rate (VNum 1.0);
       if c1 : bool then
         f ← fmt; Ok ("sell", "当日涨幅较大(" ++ f ++ "%)，考虑止盈")
       else
         c2 ← py_lt growth_rate (VNum (-1.0));
         if c2 : bool then
           f ← fmt; Ok ("buy", "当日跌幅较大(" ++ f ++ "%)，考虑抄底")
         else
           c3 ← py_gt growth_rate (VNum 0.5);
           if c3 : bool then
             f ← fmt; Ok ("hold", "小幅上涨(" ++ f ++ "%)，继续持有")
           else
             c4 ← py_lt growth_rate (VNum (-0.5));
             if c4 : bool then
               f ← fmt; Ok ("watch", "小幅下跌(" ++ f ++ "%)，观望为主")
             else
               f ← fmt; Ok ("hold", "波动较小(" ++ f ++ "%)，维持现状"));
     Ok (<["advice" := VStr advice]>
         (<["reason" := VStr reason]>
         (<["growth_rate" := growth_rate]>
         (<["fund_name" := dict_get realtime_data "name" (VStr fund_code)]>
         (<["current_value" := dict_get realtime_data "gsz" (VStr "N/A")]>
         (<["last_nav" := dict_get realtime_data "dwjz" (VStr "N/A")]>
         (<["update_time" := dict_get realtime_data "gztime" (VStr "N/A")]> ∅))))))),
   s').

(** [get_fund_history_data]: a stub in this version *)
Definition get_fund_history_data (fund_code : string) (days : nat) : list dict := [].

(** The loop of [analyze_multiple_funds]: [world i] is what the [i]-th
    iteration observes; [results] keeps the insertion order of the
    dictionary.  An exception of an iteration leaves the loop. *)
Fixpoint analyze_loop (world : nat → env) (i : nat) (fund_codes : list string)
    (results : list (string * dict)) (s : state)
  : result (list (string * dict)) * state :=
  match fund_codes with
  | [] => (Ok results, s)
  | fund_code :: rest =>
      match calculate_technical_indicators (world i) fund_code s with
      | (Ok entry, s') =>
          analyze_loop world (S i) rest (odict_set fund_code entry results) s'
      | (Raise e, s') => (Raise e, s')
      end
  end.

Definition analyze_multiple_funds (world : nat → env) (fund_codes : list string)
    (s : state) : result (list (string * dict)) * state :=
  analyze_loop world 0 fund_codes [] s.

End IO.

End Simple.

(** ** fund_quant_system.py *)

Module Base.

(** The history that [get_trading_advice] makes up when it is given none:
    [[base_val * (0.95 + i * 0.01) for i in range(10)]] *)
Definition mock_history (base_val : Q) : list Q :=
  map (fun i => base_val * (0.95 + inject_Z (Z.of_nat i) * 0.01)) (seq 0 10).

(** The history that [analyze_fund] makes up:
    [[valuation * (0.98 + i * 0.005) for i in range(20)]] *)
Definition analysis_history (valuation : Q) : list Q :=
  map (fun i => valuation * (0.98 + inject_Z (Z.of_nat i) * 0.005)) (seq 0 20).

Definition get_trading_advice (fund_code : string) (current_valuation : Q)
    (historical_data : option (list Q)) : dict :=
  let historical_data :=
    match historical_data with
    | None => mock_history current_valuation
    | Some h => h
    end in
  if (length historical_data <? 5)%nat
  then <["advice" := VStr "hold"]> (<["reason" := VStr "历史数据不足"]> ∅)
  else
    let ma5 := qsum (last_n 5 historical_data) / 5 in
    let ma10 :=
      if (10 <=? length historical_data)%nat
      then qsum (last_n 10 historical_data) / 10 else ma5 in
    if Qltb ma5 current_valuation && Qltb ma10 ma5
    then <["advice" := VStr "buy"]> (<["reason" := VStr "价格处于上升趋势"]> ∅)
    else if Qltb current_valuation ma5 && Qltb ma5 ma10
    then <["advice" := VStr "sell"]> (<["reason" := VStr "价格处于下降趋势"]> ∅)
    else <["advice" := VStr "hold"]> (<["reason" := VStr "趋势不明确"]> ∅).

End Base.

(** ** Concrete scenarios *)

(** One row of history, as [get_fund_history_nav] builds it *)
Definition history_row (date_str : string) (nav : Q) : dict :=
  <["date" := VStr date_str]> (<["nav" := VNum nav]> ∅).

(** The nav series 1.00, 1.01, 1.02, 1.03, 1.05, newest first as
    [get_fund_history_nav] returns it *)
Definition five_point_history : list dict :=
  [ history_row "2024-01-05" 1.05; history_row "2024-01-04" 1.03;
    history_row "2024-01-03" 1.02; history_row "2024-01-02" 1.01;
    history_row "2024-01-01" 1.00 ].

Definition realtime_with_growth (g : Q) : dict :=
  <["fund_code" := VStr "000001"]>
  (<["name" := VStr "fund"]>
  (<["nav" := VNum 1.05]>
  (<["estimate_growth" := VNum g]> ∅))).

(** The snapshot of the five-point series *)
Definition five_point_snapshot : dict :=
  <["ma5" := VNum (51100000000 # 50000000000)]>
  (<["ma10" := VNone]>
  (<["ma20" := VNone]>
  (<["rsi" := VNum 50]>
  (<["current_nav" := VNum 1.05]> ∅)))).

Definition hold_advice (confidence : Q) : dict :=
  <["advice" := VStr "hold"]>
  (<["reason" := VStr "趋势不明确"]>
  (<["confidence" := VNum confidence]> ∅)).

(** A snapshot with both moving averages and the nav above them *)
Definition uptrend_snapshot (rsi : Q) : dict :=
  <["ma5" := VNum 1.03]>
  (<["ma10" := VNum 1.01]>
  (<["ma20" := VNone]>
  (<["rsi" := VNum rsi]>
  (<["current_nav" := VNum 1.05]> ∅)))).

(** *** A sample world

    Sample payloads of the valuation service and a [library] that agrees
    with the Python routines on them. *)

(** The double-quote character *)
Definition dq : string := String (Ascii.ascii_of_nat 34) EmptyString.

Definition json_field (k v : string) : string := dq ++ k ++ dq ++ ":" ++ dq ++ v ++ dq.

Definition sample_json (code gszzl : string) : string :=
  "{" ++ json_field "fundcode" code ++ "," ++ json_field "name" "fund"
  ++ "," ++ json_field "jzrq" "2024-01-04" ++ "," ++ json_field "dwjz" "1.0500"
  ++ "," ++ json_field "gsz" "1.0658" ++ "," ++ json_field "gszzl" gszzl
  ++ "," ++ json_field "gztime" "2024-01-05 15:00" ++ "}".

Definition sample_jsonp (code gszzl : string) : string :=
  "jsonpgz(" ++ sample_json code gszzl ++ ");".

Definition sample_data (code gszzl : string) : dict :=
  <["fundcode" := VStr code]>
  (<["name" := VStr "fund"]>
  (<["jzrq" := VStr "2024-01-04"]>
  (<["dwjz" := VStr "1.0500"]>
  (<["gsz" := VStr "1.0658"]>
  (<["gszzl" := VStr gszzl]>
  (<["gztime" := VStr "2024-01-05 15:00"]> ∅)))))).

Definition samples : list (string * string) :=
  [ ("000001", "1.50"); ("110022", "-1.20"); ("519697", "-0.70") ].

Definition sample_floats : list (string * Q) :=
  [ ("1.0500", 1.05); ("1.0658", 1.0658); ("1.50", 1.5); ("-1.20", -1.2);
    ("-0.70", -0.7) ].

(** The accumulated-nav page of the five-point series *)
Definition sample_history_text : string :=
  "var Data_ACWorthTrend = [[1704067200000,1.0],[1704153600000,1.01],[1704240000000,1.02],[1704326400000,1.03],[1704412800000,1.05]];".

Definition sample_history_rows : list (string * pyval) :=
  [ ("2024-01-05", VNum 1.05); ("2024-01-04", VNum 1.03); ("2024-01-03", VNum 1.02);
    ("2024-01-02", VNum 1.01); ("2024-01-01", VNum 1.0) ].

Definition sample_library : library := {|
  re_match_object text :=
    match find (fun '(c, g) => String.eqb text (sample_jsonp c g)) samples with
    | Some (c, g) => Some (sample_json c g)
    | None => None
    end;
  json_loads json_str :=
    match find (fun '(c, g) => String.eqb json_str (sample_json c g)) samples with
    | Some (c, g) => Ok (sample_data c g)
    | None => Raise ValueError
    end;
  float_of_str str :=
    match find (fun '(t, _) => String.eqb str t) sample_floats with
    | Some (_, q) => Some q
    | None => None
    end;
  format_2f q :=
    match find (fun '(_, x) => Qeq_bool q x) sample_floats with
    | Some (t, _) => t
    | None => ""
    end;
  nav_history text _ _ :=
    if String.eqb text sample_history_text then Some sample_history_rows else None
|}.

(** A network that serves the sample payload of every sample fund and no
    history page, read at clock value [now] *)
Definition sample_env (now : Q) : env := {|
  session_get url :=
    match find (fun '(c, _) => String.eqb url (realtime_url c)) samples with
    | Some (c, g) => Ok {| status_code := 200; text := sample_jsonp c g |}
    | None => Raise RequestException
    end;
  time_time := now;
  now_iso := "2024-01-05T15:00:00"
|}.

(** A network that is down *)
Definition offline_env (now : Q) : env := {|
  session_get _ := Raise RequestException;
  time_time := now;
  now_iso := "2024-01-05T15:00:00"
|}.

Definition empty_state : Simple.state :=
  {| Simple.fund_cache := ∅; Simple.requests := [] |}.

(** A network that serves the realtime payload of every sample fund and
    the history page of every sample fund but "110022", whose history
    request fails *)
Definition batch_env : env := {|
  session_get url :=
    match find (fun '(c, _) => String.eqb url (realtime_url c)) samples with
    | Some (c, g) => Ok {| status_code := 200; text := sample_jsonp c g |}
    | None =>
        if String.eqb url (history_url "000001") || String.eqb url (history_url "519697")
        then Ok {| status_code := 200; text := sample_history_text |}
        else Raise RequestException
    end;
  time_time := 1000;
  now_iso := "2024-01-05T15:00:00"
|}.

(** What [get_fund_realtime_info] of the final system returns when it has
    no data *)
Definition no_data_info (w : env) (fund_code : string) : dict :=
  <["fund_code" := VStr fund_code]>
  (<["name" := VStr ""]>
  (<["nav_date" := VStr ""]>
  (<["nav" := VNum 0]>
  (<["estimate_value" := VNum 0]>
  (<["estimate_growth" := VNum 0]>
  (<["estimate_time" := VStr ""]>
  (<["last_update" := VStr (now_iso w)]> ∅))))))).

(** The realtime fetch of the final system fails: the request raises, the
    status is not 200, the parsed payload has no ['fundcode'] (in
    particular when it does not parse), or one of its three numbers does
    not convert. *)
Definition realtime_fetch_fails (L : library) (w : env) (fund_code : string) : Prop :=
  match session_get w (realtime_url fund_code) with
  | Raise _ => True
  | Ok response =>
      status_code response ≠ 200%Z ∨
      ∃ data,
        _parse_jsonp L (text response) = Ok data ∧
        (data !! "fundcode" = None ∨
         (∃ e, py_float L (dict_get data "dwjz" (VNum 0)) = Raise e) ∨
         (∃ e, py_float L (dict_get data "gsz" (VNum 0)) = Raise e) ∨
         (∃ e, py_float L (dict_get data "gszzl" (VNum 0)) = Raise e))
  end.

(** The report entry ['fund_info'] of a sample fund *)
Definition sample_fund_info (code : string) (growth : Q) : dict :=
  <["fund_code" := VStr code]>
  (<["name" := VStr "fund"]>
  (<["nav_date" := VStr "2024-01-04"]>
  (<["nav" := VNum 1.05]>
  (<["estimate_value" := VNum 1.0658]>
  (<["estimate_growth" := VNum growth]>
  (<["estimate_time" := VStr "2024-01-05 15:00"]>
  (<["last_update" := VStr "2024-01-05T15:00:00"]> ∅))))))).

Definition sample_batch : list string := [ "000001"; "110022"; "519697" ].

(** The payload of a sample fund after the conversions of
    [get_fund_realtime_info] *)
Definition sample_realtime (code gszzl : string) (growth : Q) : dict :=
  <["dwjz" := VNum 1.05]> (<["gszzl" := VNum growth]> (sample_data code gszzl)).

(** The object state after one successful fetch for [code] at time [now] *)
Definition state_after_fetch (code gszzl : string) (growth now : Q) : Simple.state :=
  {| Simple.fund_cache :=
       {[ "realtime_" ++ code := (sample_realtime code gszzl growth, now) ]};
     Simple.requests := [realtime_url code] |}.

(** The entry that the growth-only decision returns for "519697" *)
Definition sample_watch_entry : dict :=
  <["advice" := VStr "watch"]>
  (<["reason" := VStr "小幅下跌(-0.70%)，观望为主"]>
  (<["growth_rate" := VNum (-0.7)]>
  (<["fund_name" := VStr "fund"]>
  (<["current_value" := VStr "1.0658"]>
  (<["last_nav" := VNum 1.05]>
  (<["update_time" := VStr "2024-01-05 15:00"]> ∅)))))).

(** The cache holds an entry for [key] whose age at the clock reading of
    [w] is less than the time-to-live. *)
Definition cache_fresh (w : env) (s : Simple.state) (key : string) : Prop :=
  ∃ cached timestamp,
    Simple.fund_cache s !! key = Some (cached, timestamp) ∧
    time_time w - timestamp < Simple.cache_timeout.

(** A moving-average slot of a snapshot: absent or a number *)
Definition absent_or_number (v : pyval) : Prop :=
  v = VNone ∨ ∃ q, num_of v = Some q.

(** ** The momentum oscillator as the specification words it

    Over the consecutive nav deltas, positive deltas are the gains and the
    absolute values of negative deltas are the losses, the other bucket
    being zero at each step; the averages are the means of the last [p]
    gains and losses. *)

Fixpoint deltas (navs : list Q) : list Q :=
  match navs with
  | a :: (b :: _) as tl => (b - a) :: deltas tl
  | _ => []
  end.

Definition gain (d : Q) : Q := if Qltb 0 d then d else 0.

Definition loss (d : Q) : Q := if Qltb d 0 then Qabs d else 0.

Definition mean_last (p : nat) (l : list Q) : Q :=
  qsum (last_n p l) / inject_Z (Z.of_nat p).

Definition avg_gain (p : nat) (navs : list Q) : Q := mean_last p (map gain (deltas navs)).

Definition avg_loss (p : nat) (navs : list Q) : Q := mean_last p (map loss (deltas navs)).

Definition momentum_spec (p : nat) (navs : list Q) : Q :=
  if (length navs <? p + 1)%nat then 50
  else if Qeq_bool (avg_loss p navs) 0
  then (if Qltb 0 (avg_gain p navs) then 100 else 50)
  else 100 - 100 / (1 + avg_gain p navs / avg_loss p navs).

(** The loss bucket as the loop of [calculate_rsi] fills it *)
Definition loop_loss (d : Q) : Q := if Qltb 0 d then 0 else Qabs d.

(** ** The confidence score as the specification words it

    Base 0.5, plus 0.2 when the absolute same-day growth exceeds 2, plus
    0.15 when the momentum is below 20 or above 80, capped at 0.95. *)
Definition confidence_spec (growth momentum : Q) : Q :=
  Qmin (0.5
        + (if Qltb 2 (Qabs growth) then 0.2 else 0)
        + (if Qltb momentum 20 || Qltb 80 momentum then 0.15 else 0))
       0.95.

(** ** Vocabulary of the further properties *)

(** The rows of [history_data] carry the numeric navs [navs], in the same
    order (newest first, as [get_fund_history_nav] returns them). *)
Definition rows_of (navs : list Q) (history_data : list dict) : Prop :=
  Forall2 (fun row q => row !! "nav" = Some (VNum q)) history_data navs.

(** The slot [key] of a snapshot holds the mean of the [p] newest navs when
    there are at least [p] of them, and [None] otherwise. *)
Definition window_mean_slot (snapshot : dict) (key : string) (p : nat) (navs : list Q)
  : Prop :=
  if decide (p ≤ length navs)%nat
  then ∃ m, snapshot !! key = Some (VNum m) ∧
            m == qsum (take p navs) / inject_Z (Z.of_nat p)
  else snapshot !! key = Some VNone.

(** A history of 15 rows whose navs rise from 1 to 15, newest first *)
Definition rising_navs : list Q := [15; 14; 13; 12; 11; 10; 9; 8; 7; 6; 5; 4; 3; 2; 1].

Definition rising_history : list dict :=
  [ history_row "2024-01-15" 15; history_row "2024-01-14" 14;
    history_row "2024-01-13" 13; history_row "2024-01-12" 12;
    history_row "2024-01-11" 11; history_row "2024-01-10" 10;
    history_row "2024-01-09" 9; history_row "2024-01-08" 8;
    history_row "2024-01-07" 7; history_row "2024-01-06" 6;
    history_row "2024-01-05" 5; history_row "2024-01-04" 4;
    history_row "2024-01-03" 3; history_row "2024-01-02" 2;
    history_row "2024-01-01" 1 ].

(** A history of 5 rows whose middle row has a null nav *)
Definition null_nav_history : list dict :=
  [ history_row "2024-01-05" 1.05; history_row "2024-01-04" 1.03;
    <["date" := VStr "2024-01-03"]> (<["nav" := VNone]> ∅);
    history_row "2024-01-02" 1.01; history_row "2024-01-01" 1.00 ].

(** A payload as [get_fund_realtime_info] of the simple system stores it:
    its ['gszzl'] and ['dwjz'] entries, when present, are numbers. *)
Definition converted (data : dict) : Prop :=
  (∀ v, data !! "gszzl" = Some v → ∃ q, v = VNum q) ∧
  (∀ v, data !! "dwjz" = Some v → ∃ q, v = VNum q).

Definition cache_converted (s : Simple.state) : Prop :=
  ∀ key data timestamp,
    Simple.fund_cache s !! key = Some (data, timestamp) → converted data.

(** A network that answers every request with a page that holds no JSON
    object *)
Definition garbled_env (now : Q) : env := {|
  session_get _ := Ok {| status_code := 200; text := "<html>busy</html>" |};
  time_time := now;
  now_iso := "2024-01-05T15:00:00"
|}.

(** The four signals of the simple system *)
Definition simple_signal (s : string) : Prop :=
  s = "buy" ∨ s = "sell" ∨ s = "hold" ∨ s = "watch".


(** The two-entry result of the base system's [get_trading_advice] *)
Definition base_advice (advice reason : string) : dict :=
  <["advice" := VStr advice]> (<["reason" := VStr reason]> ∅).

(** ** Properties *)

Lemma Qltb_iff (a b : Q) : Qltb a b = true ↔ a < b.
Proof.
  unfold Qltb. rewrite negb_true_iff, <- not_true_iff_false, Qle_bool_iff.
  split; [apply Qnot_le_lt | apply Qlt_not_le].
Qed.

Lemma Qltb_false_iff (a b : Q) : Qltb a b = false ↔ b <= a.
Proof.
  unfold Qltb. rewrite negb_false_iff. apply Qle_bool_iff.
Qed.

Lemma py_lt_num (a b : pyval) (x y : Q) :
  num_of a = Some x → num_of b = Some y → py_lt a b = Ok (Qltb x y).
Proof. unfold py_lt. intros -> ->. reflexivity. Qed.

Lemma py_gt_num (a b : pyval) (x y : Q) :
  num_of a = Some x → num_of b = Some y → py_gt a b = Ok (Qltb y x).
Proof. unfold py_gt. intros Ha Hb. apply py_lt_num; assumption. Qed.

(** C1, as stated, fails: the snapshot returned for a history of four
    points has no momentum entry, so its momentum is not 50. *)
Lemma short_history_momentum_missing :
  ¬ (∃ snapshot r,
       Final.calculate_technical_indicators (take 4 five_point_history) = Ok snapshot ∧
       snapshot !! "rsi" = Some (VNum r) ∧ r == 50).
Proof.
  intros (snapshot & r & Hcalc & Hrsi & _).
  assert (Hempty : Final.calculate_technical_indicators (take 4 five_point_history)
                   = Ok ∅) by reflexivity.
  rewrite Hempty in Hcalc. injection Hcalc as <-.
  rewrite lookup_empty in Hrsi. discriminate Hrsi.
Qed.

(** C1, amended.  A history with fewer than 5 points yields the empty
    snapshot without raising: it has no entry for any of the three moving
    averages and none for the momentum.  The value 50 is not in the
    snapshot: it is the default that the decision and the confidence put in
    place of the missing momentum ([indicators.get('rsi', 50)]), so that both
    give what they give on the snapshot extended with a momentum of 50. *)
Theorem short_history_snapshot (history_data : list dict) :
  (length history_data < 5)%nat →
  ∃ snapshot,
    Final.calculate_technical_indicators history_data = Ok snapshot ∧
    snapshot = ∅ ∧
    snapshot !! "ma5" = None ∧
    snapshot !! "ma10" = None ∧
    snapshot !! "ma20" = None ∧
    snapshot !! "rsi" = None ∧
    (∀ fund_code realtime_info,
       Final.get_trading_advice fund_code realtime_info snapshot
       = Final.get_trading_advice fund_code realtime_info
           (<["rsi" := VNum 50]> snapshot)) ∧
    (∀ realtime_info,
       Final._calculate_confidence realtime_info snapshot
       = Final._calculate_confidence realtime_info (<["rsi" := VNum 50]> snapshot)).
Proof.
  intros Hlen. exists ∅.
  unfold Final.calculate_technical_indicators.
  apply Nat.ltb_lt in Hlen. rewrite Hlen.
  repeat split.
Qed.

Lemma short_history_snapshot_witness :
  ∃ snapshot,
    Final.calculate_technical_indicators (take 4 five_point_history) = Ok snapshot ∧
    snapshot !! "ma5" = None ∧
    snapshot !! "ma10" = None ∧
    snapshot !! "ma20" = None ∧
    snapshot !! "rsi" = None.
Proof.
  destruct (short_history_snapshot (take 4 five_point_history))
    as (snapshot & Hcalc & _ & H5 & H10 & H20 & Hrsi & _).
  - simpl. lia.
  - exists snapshot. repeat split; assumption.
Defined.

Lemma five_point_indicators :
  Final.calculate_technical_indicators five_point_history = Ok five_point_snapshot.
Proof. vm_compute. reflexivity. Qed.

Lemma five_point_advice :
  Final.get_trading_advice "000001" (realtime_with_growth 0.3) five_point_snapshot
  = Ok (hold_advice 0.5).
Proof. vm_compute. reflexivity. Qed.

(** C2, as stated, fails: on the five-point series the momentum is 50, at
    most 70, and yet the final signal is not "buy". *)
Lemma five_point_scenario_not_buy :
  ¬ (∀ ind adv r,
       Final.calculate_technical_indicators five_point_history = Ok ind →
       dict_get ind "rsi" (VNum 50) = VNum r → r <= 70 →
       Final.get_trading_advice "000001" (realtime_with_growth 0.3) ind = Ok adv →
       adv !! "advice" = Some (VStr "buy")).
Proof.
  intros H.
  assert (Hrsi : dict_get five_point_snapshot "rsi" (VNum 50) = VNum 50)
    by (vm_compute; reflexivity).
  assert (Hle : 50 <= 70) by lra.
  specialize (H _ _ 50 five_point_indicators Hrsi Hle five_point_advice).
  vm_compute in H. discriminate H.
Qed.

(** C2, amended.  On the series 1.00, 1.01, 1.02, 1.03, 1.05 with same-day
    growth 0.3 the short moving average is present and equals 1.022, the
    mid moving average is absent, so the moving-average comparison is not
    engaged and the base signal is "hold"; the momentum is 50, no override
    applies and the final signal is "hold". *)
Theorem five_point_scenario :
  ∃ ind adv m,
    Final.calculate_technical_indicators five_point_history = Ok ind ∧
    ind !! "ma5" = Some (VNum m) ∧ m == 1.022 ∧
    ind !! "ma10" = Some VNone ∧
    ind !! "rsi" = Some (VNum 50) ∧
    ind !! "current_nav" = Some (VNum 1.05) ∧
    Final.trend_step (VNum 1.05) (VNum m) VNone = Ok ("hold", "趋势不明确") ∧
    Final.get_trading_advice "000001" (realtime_with_growth 0.3) ind = Ok adv ∧
    adv !! "advice" = Some (VStr "hold") ∧
    adv !! "reason" = Some (VStr "趋势不明确").
Proof.
  exists five_point_snapshot, (hold_advice 0.5), (51100000000 # 50000000000).
  split; [exact five_point_indicators|].
  split; [vm_compute; reflexivity|].
  split; [vm_compute; reflexivity|].
  split; [vm_compute; reflexivity|].
  split; [vm_compute; reflexivity|].
  split; [vm_compute; reflexivity|].
  split; [vm_compute; reflexivity|].
  split; [exact five_point_advice|].
  split; vm_compute; reflexivity.
Qed.

(** *** The momentum oscillator *)

Lemma gain_loss_loop_num (rest : list Q) : ∀ (a : Q) (gains losses : list Q),
  Final.gain_loss_loop (VNum a) (map VNum rest) gains losses
  = Ok ((gains ++ map gain (deltas (a :: rest)))%list,
        (losses ++ map loop_loss (deltas (a :: rest)))%list).
Proof.
  induction rest as [|b rest IH]; intros a gains losses.
  - simpl. rewrite !app_nil_r. reflexivity.
  - change (deltas (a :: b :: rest)) with ((b - a) :: deltas (b :: rest)).
    simpl map. simpl Final.gain_loss_loop.
    unfold gain at 1, loop_loss at 1.
    destruct (Qltb 0 (b - a)); rewrite IH, <- !app_assoc; reflexivity.
Qed.

Lemma loop_loss_spec (d : Q) : loop_loss d == loss d.
Proof.
  unfold loop_loss, loss.
  destruct (Qltb 0 d) eqn:Hpos, (Qltb d 0) eqn:Hneg; try reflexivity.
  - apply Qltb_iff in Hpos, Hneg. lra.
  - apply Qltb_false_iff in Hpos, Hneg.
    assert (Hd : d == 0) by lra. rewrite Hd. reflexivity.
Qed.

Lemma gain_nonneg (d : Q) : 0 <= gain d.
Proof.
  unfold gain. destruct (Qltb 0 d) eqn:Hpos; [|lra].
  apply Qltb_iff in Hpos. lra.
Qed.

Lemma loss_nonneg (d : Q) : 0 <= loss d.
Proof.
  unfold loss. destruct (Qltb d 0); [apply Qabs_nonneg | lra].
Qed.

Lemma fold_left_Qplus_proper (l l' : list Q) :
  Forall2 Qeq l l' → ∀ a a', a == a' → fold_left Qplus l a == fold_left Qplus l' a'.
Proof.
  induction 1 as [|x y l l' Hxy _ IH]; intros a a' Ha; simpl.
  - exact Ha.
  - apply IH. rewrite Ha, Hxy. reflexivity.
Qed.

Lemma fold_left_Qplus_nonneg (l : list Q) :
  Forall (Qle 0) l → ∀ a, 0 <= a → 0 <= fold_left Qplus l a.
Proof.
  induction 1 as [|x l Hx _ IH]; intros a Ha; simpl.
  - exact Ha.
  - apply IH. lra.
Qed.

Lemma last_n_Forall2 {A} (R : A → A → Prop) (n : nat) (l l' : list A) :
  Forall2 R l l' → Forall2 R (last_n n l) (last_n n l').
Proof.
  intros H. unfold last_n. destruct (n =? 0)%nat; [exact H|].
  rewrite (Forall2_length _ _ _ H). apply Forall2_drop, H.
Qed.

Lemma last_n_Forall {A} (P : A → Prop) (n : nat) (l : list A) :
  Forall P l → Forall P (last_n n l).
Proof.
  intros H. unfold last_n. destruct (n =? 0)%nat; [exact H|].
  apply Forall_drop, H.
Qed.

Lemma mean_last_proper (p : nat) (l l' : list Q) :
  Forall2 Qeq l l' → mean_last p l == mean_last p l'.
Proof.
  intros H. unfold mean_last, qsum.
  rewrite (fold_left_Qplus_proper _ _ (last_n_Forall2 Qeq p _ _ H) 0 0 (Qeq_refl 0)).
  reflexivity.
Qed.

Lemma Qdiv_nonneg (x y : Q) : 0 <= x → 0 <= y → 0 <= x / y.
Proof.
  intros Hx Hy. unfold Qdiv.
  apply Qmult_le_0_compat; [exact Hx | apply Qinv_le_0_compat, Hy].
Qed.

Lemma mean_last_nonneg (p : nat) (l : list Q) :
  Forall (Qle 0) l → 0 <= mean_last p l.
Proof.
  intros H. unfold mean_last, qsum. apply Qdiv_nonneg.
  - apply fold_left_Qplus_nonneg; [apply last_n_Forall, H | lra].
  - change 0 with (inject_Z 0). rewrite <- Zle_Qle. lia.
Qed.

Lemma avg_gain_nonneg (p : nat) (navs : list Q) : 0 <= avg_gain p navs.
Proof.
  apply mean_last_nonneg, Forall_forall. intros x Hx.
  apply list_elem_of_In, in_map_iff in Hx as (d & <- & _). apply gain_nonneg.
Qed.

Lemma avg_loss_nonneg (p : nat) (navs : list Q) : 0 <= avg_loss p navs.
Proof.
  apply mean_last_nonneg, Forall_forall. intros x Hx.
  apply list_elem_of_In, in_map_iff in Hx as (d & <- & _). apply loss_nonneg.
Qed.

Lemma loop_loss_avg (p : nat) (navs : list Q) :
  mean_last p (map loop_loss (deltas navs)) == avg_loss p navs.
Proof.
  apply mean_last_proper. induction (deltas navs) as [|d ds IH]; simpl.
  - constructor.
  - constructor; [apply loop_loss_spec | exact IH].
Qed.

Lemma deltas_length (a : Q) (rest : list Q) : length (deltas (a :: rest)) = length rest.
Proof.
  revert a. induction rest as [|b rest IH]; intros a; [reflexivity|].
  change (deltas (a :: b :: rest)) with ((b - a) :: deltas (b :: rest)).
  cbn [length]. rewrite IH. reflexivity.
Qed.

Lemma py_div_ok (a b : Q) : ¬ b == 0 → py_div a b = Ok (a / b).
Proof.
  intros Hb. unfold py_div.
  destruct (Qeq_bool b 0) eqn:E; [|reflexivity].
  apply Qeq_bool_iff in E. contradiction.
Qed.

Lemma fourteen_nonzero : ¬ inject_Z (Z.of_nat 14) == 0.
Proof. intros H. vm_compute in H. discriminate H. Qed.

(** C3. On every numeric series [calculate_rsi] with window 14 returns the
    momentum of the specification: 50 below 15 points; otherwise, with the
    means of the last 14 gains and losses, 100 or 50 when the average loss
    is zero (according to whether the average gain is positive) and
    100 - 100 / (1 + avg_gain / avg_loss) when it is not. *)
Theorem momentum_formula (navs : list Q) :
  ∃ rsi, Final.calculate_rsi (map VNum navs) 14 = Ok rsi ∧ rsi == momentum_spec 14 navs.
Proof.
  unfold Final.calculate_rsi, momentum_spec. rewrite length_map.
  destruct (length navs <? 14 + 1)%nat eqn:Hlen.
  { exists 50. split; reflexivity. }
  apply Nat.ltb_ge in Hlen.
  destruct navs as [|a rest]; [simpl in Hlen; lia|].
  cbn [length] in Hlen. cbn [map].
  rewrite gain_loss_loop_num. cbn [app mbind result_bind].
  rewrite length_map, deltas_length.
  destruct (length rest <? 14)%nat eqn:Hrest; [apply Nat.ltb_lt in Hrest; lia|].
  rewrite !(py_div_ok _ _ fourteen_nonzero). cbn [mbind result_bind].
  change (qsum (last_n 14 (map gain (deltas (a :: rest)))) / inject_Z (Z.of_nat 14))
    with (avg_gain 14 (a :: rest)).
  change (qsum (last_n 14 (map loop_loss (deltas (a :: rest)))) / inject_Z (Z.of_nat 14))
    with (mean_last 14 (map loop_loss (deltas (a :: rest)))).
  pose proof (loop_loss_avg 14 (a :: rest)) as Hloss.
  pose proof (avg_gain_nonneg 14 (a :: rest)) as Hg.
  pose proof (avg_loss_nonneg 14 (a :: rest)) as Hl.
  set (G := avg_gain 14 (a :: rest)) in *.
  set (S := avg_loss 14 (a :: rest)) in *.
  set (S' := mean_last 14 (map loop_loss (deltas (a :: rest)))) in *.
  rewrite <- (Qeqb_comp _ _ Hloss 0 0 (Qeq_refl 0)).
  destruct (Qeq_bool S' 0) eqn:Hz.
  { eexists. split; reflexivity. }
  assert (HS' : ¬ S' == 0).
  { intros E. apply Qeq_bool_iff in E. congruence. }
  rewrite (py_div_ok _ _ HS'). cbn [mbind result_bind].
  assert (Hden : ¬ 1 + G / S' == 0).
  { assert (0 <= G / S') by (apply Qdiv_nonneg; [exact Hg | rewrite Hloss; exact Hl]).
    lra. }
  rewrite (py_div_ok _ _ Hden). cbn [mbind result_bind].
  eexists. split; [reflexivity|]. rewrite Hloss. reflexivity.
Qed.

(** *** Decision and confidence *)

Lemma py_min_Qmin (a b : Q) : py_min a b == Qmin a b.
Proof.
  unfold py_min. destruct (Qltb b a) eqn:E.
  - apply Qltb_iff in E. symmetry. apply Q.min_r. lra.
  - apply Qltb_false_iff in E. symmetry. apply Q.min_l. exact E.
Qed.

Lemma calculate_confidence_num (realtime_info indicators : dict) (g r : Q) :
  num_of (dict_get realtime_info "estimate_growth" (VNum 0)) = Some g →
  num_of (dict_get indicators "rsi" (VNum 50)) = Some r →
  ∃ c, Final._calculate_confidence realtime_info indicators = Ok c ∧
       c == confidence_spec g r.
Proof.
  intros Hg Hr. unfold Final._calculate_confidence, py_abs, as_number.
  rewrite Hg. cbn [mbind result_bind].
  rewrite (py_lt_num _ (VNum 20) r 20 Hr eq_refl). cbn [mbind result_bind].
  rewrite (py_gt_num _ (VNum 80) r 80 Hr eq_refl).
  unfold confidence_spec.
  destruct (Qltb 2 (Qabs g)), (Qltb r 20); cbn [mbind result_bind orb];
    try destruct (Qltb 80 r); cbn [mbind result_bind];
    eexists; (split; [reflexivity|]); rewrite py_min_Qmin; reflexivity.
Qed.
Lemma rsi_step_num (rsi : pyval) (r : Q) (advice reason : string) :
  num_of rsi = Some r →
  Final.rsi_step rsi advice reason =
    Ok (if Qltb 70 r then
          if String.eqb advice "buy" then ("hold", reason ++ "，但RSI超买，建议观望")
          else if String.eqb advice "hold" then ("sell", "RSI超买，可能存在回调风险")
          else (advice, reason)
        else if Qltb r 30 then
          if String.eqb advice "sell" then ("hold", reason ++ "，但RSI超卖，建议观望")
          else if String.eqb advice "hold" then ("buy", "RSI超卖，可能存在反弹机会")
          else (advice, reason)
        else (advice, reason)).
Proof.
  intros Hr. unfold Final.rsi_step.
  rewrite (py_gt_num _ (VNum 70) r 70 Hr eq_refl). cbn [mbind result_bind].
  destruct (Qltb 70 r).
  - destruct (String.eqb advice "buy"); [reflexivity|].
    destruct (String.eqb advice "hold"); reflexivity.
  - rewrite (py_lt_num _ (VNum 30) r 30 Hr eq_refl). cbn [mbind result_bind].
    destruct (Qltb r 30); [|reflexivity].
    destruct (String.eqb advice "sell"); [reflexivity|].
    destruct (String.eqb advice "hold"); reflexivity.
Qed.

(** C4. After the moving-average block has produced the base signal, the
    momentum override gives: above 70, "buy" becomes "hold" and "hold"
    becomes "sell"; below 30, "sell" becomes "hold" and "hold" becomes
    "buy"; "buy" stays "buy" below 30 and "sell" stays "sell" above 70. *)
Theorem momentum_override (fund_code : string) (realtime_info indicators : dict)
    (base reason : string) (r g : Q) :
  Final.trend_step (dict_get indicators "current_nav" (VNum 0))
                   (dict_get indicators "ma5" VNone)
                   (dict_get indicators "ma10" VNone) = Ok (base, reason) →
  num_of (dict_get indicators "rsi" (VNum 50)) = Some r →
  num_of (dict_get realtime_info "estimate_growth" (VNum 0)) = Some g →
  ∃ adv final,
    Final.get_trading_advice fund_code realtime_info indicators = Ok adv ∧
    adv !! "advice" = Some (VStr final) ∧
    (70 < r → base = "buy" → final = "hold") ∧
    (70 < r → base = "hold" → final = "sell") ∧
    (r < 30 → base = "sell" → final = "hold") ∧
    (r < 30 → base = "hold" → final = "buy") ∧
    (r < 30 → base = "buy" → final = "buy") ∧
    (70 < r → base = "sell" → final = "sell").
Proof.
  intros Htrend Hr Hg.
  destruct (calculate_confidence_num realtime_info indicators g r Hg Hr) as (c & Hc & _).
  unfold Final.get_trading_advice. rewrite Htrend. cbn [mbind result_bind].
  rewrite (rsi_step_num _ r base reason Hr).
  match goal with |- context [Ok ?p ≫= _] => destruct p as [final reason'] eqn:Hstep end.
  cbn [mbind result_bind]. rewrite Hc. cbn [mbind result_bind].
  eexists. exists final. split; [reflexivity|].
  split; [apply lookup_insert_eq|].
  assert (Hhigh : 70 < r → Qltb 70 r = true) by apply Qltb_iff.
  assert (Hlow : r < 30 → Qltb 70 r = false ∧ Qltb r 30 = true).
  { intros Hlt. split; [apply Qltb_false_iff; lra | apply Qltb_iff, Hlt]. }
  repeat split; intros Hcmp ->.
  1, 2, 6: rewrite (Hhigh Hcmp) in Hstep; cbn in Hstep; congruence.
  all: destruct (Hlow Hcmp) as [E1 E2]; rewrite E1, E2 in Hstep; cbn in Hstep;
    congruence.
Qed.

Lemma momentum_override_witness :
  ∃ adv final,
    Final.get_trading_advice "000001" (realtime_with_growth 0.3) (uptrend_snapshot 75)
    = Ok adv ∧
    adv !! "advice" = Some (VStr final) ∧
    (70 < 75 → "buy" = "buy" → final = "hold") ∧
    (70 < 75 → "buy" = "hold" → final = "sell") ∧
    (75 < 30 → "buy" = "sell" → final = "hold") ∧
    (75 < 30 → "buy" = "hold" → final = "buy") ∧
    (75 < 30 → "buy" = "buy" → final = "buy") ∧
    (70 < 75 → "buy" = "sell" → final = "sell").
Proof.
  apply (momentum_override "000001" (realtime_with_growth 0.3) (uptrend_snapshot 75)
           "buy" "价格在短期和长期均线上方，呈上升趋势" 75 0.3).
  - vm_compute. reflexivity.
  - vm_compute. reflexivity.
  - vm_compute. reflexivity.
Defined.

Lemma confidence_spec_bounds (g r : Q) :
  0.5 <= confidence_spec g r ∧ confidence_spec g r <= 0.95.
Proof.
  unfold confidence_spec.
  destruct (Qltb 2 (Qabs g)), (Qltb r 20 || Qltb 80 r);
    split; vm_compute; discriminate.
Qed.

(** C6. The confidence is 0.5, plus 0.2 when the absolute same-day growth
    exceeds 2, plus 0.15 when the momentum is below 20 or above 80, capped
    at 0.95; it lies within [0.5, 0.95]; and the advice and the reason are
    those computed from the indicators by the two decision blocks, to which
    the confidence is only attached. *)
Theorem confidence_score (fund_code : string) (realtime_info indicators : dict)
    (g r : Q) :
  num_of (dict_get realtime_info "estimate_growth" (VNum 0)) = Some g →
  num_of (dict_get indicators "rsi" (VNum 50)) = Some r →
  ∃ c,
    Final._calculate_confidence realtime_info indicators = Ok c ∧
    c == confidence_spec g r ∧
    0.5 <= c ∧ c <= 0.95 ∧
    (∀ base reason0 advice reason,
       Final.trend_step (dict_get indicators "current_nav" (VNum 0))
                        (dict_get indicators "ma5" VNone)
                        (dict_get indicators "ma10" VNone) = Ok (base, reason0) →
       Final.rsi_step (dict_get indicators "rsi" (VNum 50)) base reason0
       = Ok (advice, reason) →
       Final.get_trading_advice fund_code realtime_info indicators
       = Ok (<["advice" := VStr advice]>
            (<["reason" := VStr reason]>
            (<["confidence" := VNum c]> ∅)))) ∧
    (∀ realtime_info' adv adv',
       Final.get_trading_advice fund_code realtime_info indicators = Ok adv →
       Final.get_trading_advice fund_code realtime_info' indicators = Ok adv' →
       adv' !! "advice" = adv !! "advice" ∧ adv' !! "reason" = adv !! "reason").
Proof.
  intros Hg Hr.
  destruct (calculate_confidence_num realtime_info indicators g r Hg Hr) as (c & Hc & Hspec).
  exists c. split; [exact Hc|]. split; [exact Hspec|].
  destruct (confidence_spec_bounds g r) as [Hlo Hhi].
  split; [rewrite Hspec; exact Hlo|]. split; [rewrite Hspec; exact Hhi|].
  split.
  - intros base reason0 advice reason Htrend Hstep.
    unfold Final.get_trading_advice.
    rewrite Htrend. cbn [mbind result_bind].
    rewrite Hstep. cbn [mbind result_bind].
    rewrite Hc. reflexivity.
  - intros realtime_info' adv adv'. unfold Final.get_trading_advice.
    destruct (Final.trend_step _ _ _) as [[base reason0]|e]; [|discriminate].
    cbn [mbind result_bind].
    destruct (Final.rsi_step _ _ _) as [[advice reason]|e]; [|discriminate].
    cbn [mbind result_bind].
    destruct (Final._calculate_confidence realtime_info indicators); [|discriminate].
    destruct (Final._calculate_confidence realtime_info' indicators); [|discriminate].
    cbn [mbind result_bind]. intros [= <-] [= <-].
    split.
    + rewrite !lookup_insert_eq. reflexivity.
    + rewrite !(lookup_insert_ne _ "advice" "reason") by discriminate.
      rewrite !lookup_insert_eq. reflexivity.
Qed.

Lemma confidence_score_witness :
  ∃ c,
    Final._calculate_confidence (realtime_with_growth 2.5) (uptrend_snapshot 85) = Ok c ∧
    c == confidence_spec 2.5 85 ∧ c == 0.85 ∧ 0.5 <= c ∧ c <= 0.95.
Proof.
  destruct (confidence_score "000001" (realtime_with_growth 2.5) (uptrend_snapshot 85)
              2.5 85) as (c & Hc & Hspec & Hlo & Hhi & _).
  - vm_compute. reflexivity.
  - vm_compute. reflexivity.
  - exists c. repeat split; try assumption.
    rewrite Hspec. vm_compute. reflexivity.
Defined.

Lemma trend_step_range (current_nav ma5 ma10 : pyval) (base reason : string) :
  Final.trend_step current_nav ma5 ma10 = Ok (base, reason) →
  base = "buy" ∨ base = "sell" ∨ base = "hold".
Proof.
  unfold Final.trend_step.
  destruct (is_not_None ma5 && is_not_None ma10); [|intros [= <- _]; auto].
  destruct (py_gt current_nav ma5) as [[]|]; cbn [mbind result_bind]; try discriminate.
  - destruct (py_gt ma5 ma10) as [[]|]; cbn [mbind result_bind]; try discriminate.
    + intros [= <- _]; auto.
    + destruct (py_lt current_nav ma5) as [[]|]; cbn [mbind result_bind]; try discriminate.
      * destruct (py_lt ma5 ma10) as [[]|]; cbn [mbind result_bind]; try discriminate;
          intros [= <- _]; auto.
      * intros [= <- _]; auto.
  - destruct (py_lt current_nav ma5) as [[]|]; cbn [mbind result_bind]; try discriminate.
    + destruct (py_lt ma5 ma10) as [[]|]; cbn [mbind result_bind]; try discriminate;
        intros [= <- _]; auto.
    + intros [= <- _]; auto.
Qed.

Lemma rsi_step_range (rsi : pyval) (base reason advice reason' : string) :
  base = "buy" ∨ base = "sell" ∨ base = "hold" →
  Final.rsi_step rsi base reason = Ok (advice, reason') →
  advice = "buy" ∨ advice = "sell" ∨ advice = "hold".
Proof.
  intros Hbase. unfold Final.rsi_step.
  destruct (py_gt rsi (VNum 70)) as [[]|]; cbn [mbind result_bind]; try discriminate.
  - destruct Hbase as [-> | [-> | ->]]; cbn; intros [= <- _]; auto.
  - destruct (py_lt rsi (VNum 30)) as [[]|]; cbn [mbind result_bind]; try discriminate;
      destruct Hbase as [-> | [-> | ->]]; cbn; intros [= <- _]; auto.
Qed.

Lemma trend_step_total (current_nav ma5 ma10 : pyval) (cur : Q) :
  num_of current_nav = Some cur →
  absent_or_number ma5 → absent_or_number ma10 →
  ∃ base reason, Final.trend_step current_nav ma5 ma10 = Ok (base, reason).
Proof.
  intros Hcur H5 H10. unfold Final.trend_step.
  destruct H5 as [->|[a Ha]]; [eexists; eexists; reflexivity|].
  destruct H10 as [->|[b Hb]].
  { rewrite andb_false_r. eexists. eexists. reflexivity. }
  destruct (is_not_None ma5 && is_not_None ma10); [|eexists; eexists; reflexivity].
  rewrite (py_gt_num _ _ _ _ Hcur Ha), (py_gt_num _ _ _ _ Ha Hb),
          (py_lt_num _ _ _ _ Hcur Ha), (py_lt_num _ _ _ _ Ha Hb).
  destruct (Qltb a cur), (Qltb b a), (Qltb cur a), (Qltb a b);
    cbn [mbind result_bind]; eexists; eexists; reflexivity.
Qed.

(** *** The growth-only decision *)

(** C5. The growth-only decision classifies the same-day growth by the
    first threshold that matches, in this order: above 1.0 "sell"
    (take-profit), below -1.0 "buy" (dip-buy), above 0.5 "hold", below -0.5
    "watch", otherwise "hold"; growth 1.5 gives "sell" and growth -1.2
    gives "buy". *)
Theorem growth_only_classification (L : library) (w : env) (fund_code : string)
    (s s' : Simple.state) (realtime_data : dict) (g : Q) :
  Simple.get_fund_realtime_info L w fund_code s = (Ok realtime_data, s') →
  realtime_data ≠ ∅ →
  num_of (dict_get realtime_data "gszzl" (VNum 0)) = Some g →
  ∃ out advice reason,
    Simple.calculate_technical_indicators L w fund_code s = (Ok out, s') ∧
    out !! "advice" = Some (VStr advice) ∧
    out !! "reason" = Some (VStr reason) ∧
    (1.0 < g →
       advice = "sell" ∧ reason = "当日涨幅较大(" ++ format_2f L g ++ "%)，考虑止盈") ∧
    (¬ 1.0 < g → g < -1.0 →
       advice = "buy" ∧ reason = "当日跌幅较大(" ++ format_2f L g ++ "%)，考虑抄底") ∧
    (¬ 1.0 < g → ¬ g < -1.0 → 0.5 < g → advice = "hold") ∧
    (¬ 1.0 < g → ¬ g < -1.0 → ¬ 0.5 < g → g < -0.5 → advice = "watch") ∧
    (¬ 1.0 < g → ¬ g < -1.0 → ¬ 0.5 < g → ¬ g < -0.5 → advice = "hold") ∧
    (g == 1.5 → advice = "sell") ∧
    (g == -1.2 → advice = "buy").
Proof.
  intros Hget Hne Hg.
  unfold Simple.calculate_technical_indicators. rewrite Hget.
  cbn [mbind result_bind].
  assert (Htruthy : dict_truthy realtime_data = true)
    by (apply bool_decide_eq_true; exact Hne).
  rewrite Htruthy. cbn [negb].
  rewrite (py_gt_num _ (VNum 1.0) g 1.0 Hg eq_refl).
  rewrite (py_lt_num _ (VNum (-1.0)) g (-1.0) Hg eq_refl).
  rewrite (py_gt_num _ (VNum 0.5) g 0.5 Hg eq_refl).
  rewrite (py_lt_num _ (VNum (-0.5)) g (-0.5) Hg eq_refl).
  unfold as_number. rewrite Hg. cbn [mbind result_bind].
  destruct (Qltb 1.0 g) eqn:H1; cbn [mbind result_bind];
    [|destruct (Qltb g (-1.0)) eqn:H2; cbn [mbind result_bind];
      [|destruct (Qltb 0.5 g) eqn:H3; cbn [mbind result_bind];
        [|destruct (Qltb g (-0.5)) eqn:H4; cbn [mbind result_bind]]]].
  all: eexists; eexists; eexists.
  all: split; [reflexivity|].
  all: split; [apply lookup_insert_eq|].
  all: split; [rewrite lookup_insert_ne by discriminate; apply lookup_insert_eq|].
  all: repeat match goal with
       | H : Qltb _ _ = true |- _ => apply Qltb_iff in H
       | H : Qltb _ _ = false |- _ => apply Qltb_false_iff in H
       end.
  all: repeat split; try reflexivity; intros; try reflexivity; exfalso; lra.
Qed.

Lemma growth_only_classification_witness :
  ∃ out,
    Simple.calculate_technical_indicators sample_library (sample_env 1000) "000001"
      empty_state
    = (Ok out, state_after_fetch "000001" "1.50" 1.5 1000) ∧
    out !! "advice" = Some (VStr "sell").
Proof.
  destruct (growth_only_classification sample_library (sample_env 1000) "000001"
              empty_state (state_after_fetch "000001" "1.50" 1.5 1000)
              (sample_realtime "000001" "1.50" 1.5) 1.5)
    as (out & advice & reason & Hcalc & Hadv & _ & Hsell & _).
  - vm_compute. reflexivity.
  - intros H. apply (f_equal (fun d : dict => d !! "gszzl")) in H.
    vm_compute in H. discriminate H.
  - vm_compute. reflexivity.
  - exists out. split; [exact Hcalc|].
    rewrite Hadv. destruct Hsell as [-> _]; [reflexivity | reflexivity].
Defined.

(** *** The freshness cache *)

Lemma cache_hit (L : library) (w : env) (fund_code : string) (s : Simple.state)
    (cached : dict) (timestamp : Q) :
  Simple.fund_cache s !! ("realtime_" ++ fund_code) = Some (cached, timestamp) →
  time_time w - timestamp < Simple.cache_timeout →
  Simple.get_fund_realtime_info L w fund_code s = (Ok cached, s).
Proof.
  intros Hlook Hage. unfold Simple.get_fund_realtime_info. rewrite Hlook.
  apply Qltb_iff in Hage. rewrite Hage. reflexivity.
Qed.

Lemma cache_miss (L : library) (w : env) (fund_code : string) (s : Simple.state) :
  ¬ cache_fresh w s ("realtime_" ++ fund_code) →
  Simple.get_fund_realtime_info L w fund_code s =
    let requested := (Simple.requests s ++ [realtime_url fund_code])%list in
    match Simple.fetch L w (realtime_url fund_code) with
    | Ok data =>
        (Ok data,
         {| Simple.fund_cache :=
              <["realtime_" ++ fund_code := (data, time_time w)]> (Simple.fund_cache s);
            Simple.requests := requested |})
    | Raise _ =>
        (Ok ∅, {| Simple.fund_cache := Simple.fund_cache s;
                  Simple.requests := requested |})
    end.
Proof.
  intros Hstale. unfold Simple.get_fund_realtime_info.
  destruct (Simple.fund_cache s !! ("realtime_" ++ fund_code)) as [[cached ts]|] eqn:Hlook;
    [|reflexivity].
  destruct (Qltb (time_time w - ts) Simple.cache_timeout) eqn:Hage; [|reflexivity].
  exfalso. apply Hstale. exists cached, ts. split; [exact Hlook|].
  apply Qltb_iff, Hage.
Qed.

(** C7. A lookup that finds an entry younger than the time-to-live returns
    the stored payload without a request; hence two lookups for the same
    fund within the window, the first of which fetches, make exactly one
    request; a lookup on an expired entry makes a new request and stores
    the fetched payload with the current clock reading. *)
Theorem cache_within_ttl (L : library) (fund_code : string) :
  let key := "realtime_" ++ fund_code in
  let url := realtime_url fund_code in
  (∀ w s cached timestamp,
     Simple.fund_cache s !! key = Some (cached, timestamp) →
     time_time w - timestamp < Simple.cache_timeout →
     Simple.get_fund_realtime_info L w fund_code s = (Ok cached, s)) ∧
  (∀ w1 w2 s data,
     ¬ cache_fresh w1 s key →
     Simple.fetch L w1 url = Ok data →
     time_time w2 - time_time w1 < Simple.cache_timeout →
     ∃ s1 s2,
       Simple.get_fund_realtime_info L w1 fund_code s = (Ok data, s1) ∧
       Simple.get_fund_realtime_info L w2 fund_code s1 = (Ok data, s2) ∧
       Simple.requests s2 = (Simple.requests s ++ [url])%list) ∧
  (∀ w s cached timestamp,
     Simple.fund_cache s !! key = Some (cached, timestamp) →
     Simple.cache_timeout <= time_time w - timestamp →
     ∃ r s',
       Simple.get_fund_realtime_info L w fund_code s = (r, s') ∧
       Simple.requests s' = (Simple.requests s ++ [url])%list ∧
       (∀ data, Simple.fetch L w url = Ok data →
          r = Ok data ∧
          Simple.fund_cache s' = <[key := (data, time_time w)]> (Simple.fund_cache s))).
Proof.
  intros key url. split; [|split].
  - intros w s cached timestamp. apply cache_hit.
  - intros w1 w2 s data Hstale Hfetch Hwindow.
    pose proof (cache_miss L w1 fund_code s Hstale) as Hfirst.
    fold url in Hfirst. rewrite Hfetch in Hfirst. cbv zeta in Hfirst.
    eexists. eexists. split; [exact Hfirst|]. split.
    + apply cache_hit with (timestamp := time_time w1); [|exact Hwindow].
      cbn [Simple.fund_cache]. apply lookup_insert_eq.
    + reflexivity.
  - intros w s cached timestamp Hlook Hage.
    assert (Hstale : ¬ cache_fresh w s key).
    { intros (c & ts & Hl & Hlt). rewrite Hlook in Hl.
      injection Hl as _ <-. apply Qle_not_lt in Hage. contradiction. }
    pose proof (cache_miss L w fund_code s Hstale) as Hcall. fold url in Hcall.
    destruct (Simple.fetch L w url) as [data|e] eqn:Hfetch; cbv zeta in Hcall.
    + eexists. eexists. split; [exact Hcall|]. split; [reflexivity|].
      intros data' [= <-]. split; reflexivity.
    + eexists. eexists. split; [exact Hcall|]. split; [reflexivity|].
      intros data' Hok. discriminate Hok.
Qed.

Lemma cache_within_ttl_witness :
  ∃ s1 s2,
    Simple.get_fund_realtime_info sample_library (sample_env 1000) "000001" empty_state
    = (Ok (sample_realtime "000001" "1.50" 1.5), s1) ∧
    Simple.get_fund_realtime_info sample_library (offline_env 1200) "000001" s1
    = (Ok (sample_realtime "000001" "1.50" 1.5), s2) ∧
    Simple.requests s2 = [realtime_url "000001"].
Proof.
  apply (proj1 (proj2 (cache_within_ttl sample_library "000001"))
           (sample_env 1000) (offline_env 1200) empty_state
           (sample_realtime "000001" "1.50" 1.5)).
  - intros (c & ts & H & _). vm_compute in H. discriminate H.
  - vm_compute. reflexivity.
  - vm_compute. reflexivity.
Defined.

(** C8, as stated, fails: a failed fetch is not raised to the caller of the
    lookup. *)
Lemma fetch_failure_not_raised :
  ¬ (∀ (L : library) (w : env) (fund_code : string) (s : Simple.state) (e : exn),
       Simple.fetch L w (realtime_url fund_code) = Raise e →
       fst (Simple.get_fund_realtime_info L w fund_code s) = Raise e).
Proof.
  intros H.
  specialize (H sample_library (offline_env 1000) "000001" empty_state
                RequestException eq_refl).
  vm_compute in H. discriminate H.
Qed.

(** C8, amended.  When the refresh of a missing or expired entry fails with
    an exception, the lookup does not raise: it returns the empty payload,
    which [calculate_technical_indicators] reports as an error entry; the
    cache is left as it was, so an expired entry is kept. *)
Theorem fetch_failure_contained (L : library) (w : env) (fund_code : string)
    (s : Simple.state) (e : exn) :
  ¬ cache_fresh w s ("realtime_" ++ fund_code) →
  Simple.fetch L w (realtime_url fund_code) = Raise e →
  ∃ s',
    Simple.get_fund_realtime_info L w fund_code s = (Ok ∅, s') ∧
    Simple.fund_cache s' = Simple.fund_cache s ∧
    Simple.requests s' = (Simple.requests s ++ [realtime_url fund_code])%list ∧
    Simple.calculate_technical_indicators L w fund_code s
    = (Ok {[ "error" := VStr "无法获取基金数据" ]}, s').
Proof.
  intros Hstale Hfetch.
  pose proof (cache_miss L w fund_code s Hstale) as Hcall.
  rewrite Hfetch in Hcall. cbv zeta in Hcall.
  eexists. split; [exact Hcall|]. split; [reflexivity|]. split; [reflexivity|].
  unfold Simple.calculate_technical_indicators. rewrite Hcall.
  cbn [mbind result_bind].
  assert (Hempty : dict_truthy ∅ = false).
  { apply bool_decide_eq_false. intros H. apply H. reflexivity. }
  rewrite Hempty. reflexivity.
Qed.

Lemma fetch_failure_contained_witness :
  ∃ s',
    Simple.get_fund_realtime_info sample_library (offline_env 1400) "000001"
      (state_after_fetch "000001" "1.50" 1.5 1000) = (Ok ∅, s') ∧
    Simple.fund_cache s' !! "realtime_000001"
    = Some (sample_realtime "000001" "1.50" 1.5, 1000).
Proof.
  destruct (fetch_failure_contained sample_library (offline_env 1400) "000001"
              (state_after_fetch "000001" "1.50" 1.5 1000) RequestException)
    as (s' & Hcall & Hcache & _).
  - intros (c & ts & H & Hage).
    cbn [Simple.fund_cache state_after_fetch] in H.
    rewrite lookup_singleton_eq in H. injection H as _ <-.
    vm_compute in Hage. discriminate Hage.
  - reflexivity.
  - exists s'. split; [exact Hcall|]. rewrite Hcache. apply lookup_singleton_eq.
Defined.

(** A payload without a JSON object does not raise: the empty dictionary is
    returned and written to the cache with the current clock reading. *)
Remark unparsable_payload_is_cached (L : library) (w : env) (fund_code : string)
    (s : Simple.state) (resp : response) :
  ¬ cache_fresh w s ("realtime_" ++ fund_code) →
  session_get w (realtime_url fund_code) = Ok resp →
  Simple.raise_for_status resp = Ok tt →
  re_match_object L (text resp) = None →
  Simple.get_fund_realtime_info L w fund_code s =
    (Ok ∅,
     {| Simple.fund_cache :=
          <["realtime_" ++ fund_code := (∅, time_time w)]> (Simple.fund_cache s);
        Simple.requests := (Simple.requests s ++ [realtime_url fund_code])%list |}).
Proof.
  intros Hstale Hget Hstatus Hmatch.
  rewrite (cache_miss L w fund_code s Hstale).
  unfold Simple.fetch. rewrite Hget. cbn [mbind result_bind].
  rewrite Hstatus. cbn [mbind result_bind].
  unfold _parse_jsonp. rewrite Hmatch. reflexivity.
Qed.

(** *** The batch analysis *)

Lemma try_except_total {A} (body : result A) (handler : exn → result A) :
  (∀ e, ∃ a, handler e = Ok a) → ∃ a, try_except body handler = Ok a.
Proof.
  intros Hh. destruct body as [a|e]; [exists a; reflexivity | apply Hh].
Qed.

Lemma realtime_info_total (L : library) (w : env) (fund_code : string) :
  ∃ info, Final.get_fund_realtime_info L w fund_code = Ok info.
Proof.
  unfold Final.get_fund_realtime_info.
  match goal with
  | |- context [try_except ?b ?h] =>
      destruct (try_except_total b h) as [returned Hr]; [intros e; eexists; reflexivity|];
      rewrite Hr
  end.
  cbn [mbind result_bind]. destruct returned; eexists; reflexivity.
Qed.

Lemma realtime_failure_no_data (L : library) (w : env) (fund_code : string) :
  realtime_fetch_fails L w fund_code →
  Final.get_fund_realtime_info L w fund_code = Ok (no_data_info w fund_code).
Proof.
  unfold realtime_fetch_fails, Final.get_fund_realtime_info.
  destruct (session_get w (realtime_url fund_code)) as [resp|e]; [|reflexivity].
  cbn [mbind result_bind].
  destruct (Z.eqb_spec (status_code resp) 200) as [Heq|Hne]; [|reflexivity].
  intros [Hbad|(data & -> & Hdata)]; [contradiction|].
  cbn [mbind result_bind].
  destruct (dict_truthy data && dict_has data "fundcode") eqn:Hcond; [|reflexivity].
  destruct Hdata as [Hnone|Hfloat].
  - apply andb_true_iff in Hcond as [_ Hhas].
    apply bool_decide_eq_true in Hhas. rewrite Hnone in Hhas.
    destruct Hhas as [? Hhas]. discriminate Hhas.
  - destruct (py_float L (dict_get data "dwjz" (VNum 0))) as [nav|e1];
      [|reflexivity].
    destruct (py_float L (dict_get data "gsz" (VNum 0))) as [ev|e2];
      [|reflexivity].
    destruct (py_float L (dict_get data "gszzl" (VNum 0))) as [eg|e3];
      [|reflexivity].
    destruct Hfloat as [[e He]|[[e He]|[e He]]]; discriminate He.
Qed.

Lemma history_total (L : library) (w : env) (fund_code : string) (days : nat) :
  ∃ history_data, Final.get_fund_history_nav L w fund_code days = Ok history_data.
Proof.
  unfold Final.get_fund_history_nav. apply try_except_total.
  intros e. eexists. reflexivity.
Qed.

Lemma history_failure_empty (L : library) (w : env) (fund_code : string) (days : nat)
    (e : exn) :
  session_get w (history_url fund_code) = Raise e →
  Final.get_fund_history_nav L w fund_code days = Ok [].
Proof.
  intros H. unfold Final.get_fund_history_nav.
  rewrite H. reflexivity.
Qed.

Lemma analyze_fund_total (L : library) (w : env) (fund_code : string) :
  ∃ r, Final.analyze_fund L w fund_code = Ok r.
Proof.
  unfold Final.analyze_fund. apply try_except_total.
  intros e. eexists. reflexivity.
Qed.

Lemma analyze_fund_no_data (L : library) (w : env) (fund_code : string) :
  realtime_fetch_fails L w fund_code →
  Final.analyze_fund L w fund_code = Ok (Final.Error (Final.NoData fund_code) (now_iso w)).
Proof.
  intros Hfail. unfold Final.analyze_fund.
  rewrite (realtime_failure_no_data L w fund_code Hfail).
  reflexivity.
Qed.

Lemma analyze_fund_unnamed (L : library) (w : env) (fund_code : string)
    (info : dict) (name : pyval) :
  Final.get_fund_realtime_info L w fund_code = Ok info →
  info !! "name" = Some name → truthy name = false →
  Final.analyze_fund L w fund_code = Ok (Final.Error (Final.NoData fund_code) (now_iso w)).
Proof.
  intros Hinfo Hname Hfalsy. unfold Final.analyze_fund.
  rewrite Hinfo. cbn [mbind result_bind].
  unfold dict_item. rewrite Hname. cbn [mbind result_bind]. rewrite Hfalsy.
  reflexivity.
Qed.

Lemma realtime_info_shape (L : library) (w : env) (fund_code : string) (info : dict) :
  Final.get_fund_realtime_info L w fund_code = Ok info →
  (∃ name, info !! "name" = Some name) ∧
  (∃ g, info !! "estimate_growth" = Some (VNum g)).
Proof.
  unfold Final.get_fund_realtime_info.
  destruct (session_get w _) as [resp|e]; cbn [mbind result_bind try_except];
    [|intros [= <-]; split; eexists; reflexivity].
  destruct (status_code resp =? 200)%Z; cbn [mbind result_bind try_except];
    [|intros [= <-]; split; eexists; reflexivity].
  destruct (_parse_jsonp L (text resp)) as [data|e]; cbn [mbind result_bind try_except];
    [|intros [= <-]; split; eexists; reflexivity].
  destruct (dict_truthy data && dict_has data "fundcode");
    cbn [mbind result_bind try_except];
    [|intros [= <-]; split; eexists; reflexivity].
  destruct (py_float L (dict_get data "dwjz" (VNum 0))) as [nav|e];
    cbn [mbind result_bind try_except];
    [|intros [= <-]; split; eexists; reflexivity].
  destruct (py_float L (dict_get data "gsz" (VNum 0))) as [ev|e];
    cbn [mbind result_bind try_except];
    [|intros [= <-]; split; eexists; reflexivity].
  destruct (py_float L (dict_get data "gszzl" (VNum 0))) as [eg|e];
    cbn [mbind result_bind try_except];
    intros [= <-]; split; eexists; reflexivity.
Qed.

Lemma get_trading_advice_range (fund_code : string) (realtime_info indicators adv : dict) :
  Final.get_trading_advice fund_code realtime_info indicators = Ok adv →
  ∃ signal, adv !! "advice" = Some (VStr signal) ∧
            (signal = "buy" ∨ signal = "sell" ∨ signal = "hold").
Proof.
  unfold Final.get_trading_advice.
  destruct (Final.trend_step _ _ _) as [[base reason0]|e] eqn:Htrend; [|discriminate].
  cbn [mbind result_bind].
  destruct (Final.rsi_step _ _ _) as [[advice reason]|e] eqn:Hstep; [|discriminate].
  cbn [mbind result_bind].
  destruct (Final._calculate_confidence _ _) as [c|e]; [|discriminate].
  cbn [mbind result_bind]. intros [= <-].
  exists advice. split; [apply lookup_insert_eq|].
  eapply rsi_step_range; [eapply trend_step_range, Htrend | exact Hstep].
Qed.

Lemma advice_without_history (fund_code : string) (realtime_info : dict) (g : Q) :
  realtime_info !! "estimate_growth" = Some (VNum g) →
  ∃ c, Final.get_trading_advice fund_code realtime_info ∅ = Ok (hold_advice c).
Proof.
  intros Hg.
  destruct (calculate_confidence_num realtime_info ∅ g 50) as (c & Hc & _).
  - unfold dict_get. rewrite Hg. reflexivity.
  - reflexivity.
  - exists c. unfold Final.get_trading_advice.
    change (Final.trend_step (dict_get ∅ "current_nav" (VNum 0)) (dict_get ∅ "ma5" VNone)
              (dict_get ∅ "ma10" VNone)) with (Ok ("hold", "趋势不明确") : result _).
    cbn [mbind result_bind].
    change (Final.rsi_step (dict_get ∅ "rsi" (VNum 50)) "hold" "趋势不明确")
      with (Ok ("hold", "趋势不明确") : result _).
    cbn [mbind result_bind]. rewrite Hc. reflexivity.
Qed.

Lemma analyze_fund_history_failure (L : library) (w : env) (fund_code : string)
    (info : dict) (name : pyval) (e : exn) :
  Final.get_fund_realtime_info L w fund_code = Ok info →
  info !! "name" = Some name → truthy name = true →
  session_get w (history_url fund_code) = Raise e →
  ∃ c, Final.analyze_fund L w fund_code
       = Ok (Final.Success info 0 ∅ (hold_advice c) (now_iso w)).
Proof.
  intros Hinfo Hname Htruthy Hhist.
  destruct (realtime_info_shape L w fund_code info Hinfo) as [_ [g Hg]].
  destruct (advice_without_history fund_code info g Hg) as [c Hadv].
  exists c. unfold Final.analyze_fund. rewrite Hinfo. cbn [mbind result_bind].
  unfold dict_item. rewrite Hname. cbn [mbind result_bind]. rewrite Htruthy. cbn [negb].
  rewrite (history_failure_empty L w fund_code 180 e Hhist). cbn [mbind result_bind].
  change (Final.calculate_technical_indicators []) with (Ok ∅ : result dict).
  cbn [mbind result_bind]. rewrite Hadv. reflexivity.
Qed.

Lemma analyze_fund_exception (L : library) (w : env) (fund_code : string)
    (info : dict) (name : pyval) (history_data : list dict) (e : exn) :
  Final.get_fund_realtime_info L w fund_code = Ok info →
  info !! "name" = Some name → truthy name = true →
  Final.get_fund_history_nav L w fund_code 180 = Ok history_data →
  Final.calculate_technical_indicators history_data = Raise e →
  Final.analyze_fund L w fund_code
  = Ok (Final.Error (Final.OfException e) (now_iso w)).
Proof.
  intros Hinfo Hname Htruthy Hhist Hraise.
  unfold Final.analyze_fund. rewrite Hinfo. cbn [mbind result_bind].
  unfold dict_item. rewrite Hname. cbn [mbind result_bind]. rewrite Htruthy. cbn [negb].
  rewrite Hhist. cbn [mbind result_bind]. rewrite Hraise. reflexivity.
Qed.

Lemma analyze_fund_range (L : library) (w : env) (fund_code : string) (r : Final.report) :
  Final.analyze_fund L w fund_code = Ok r →
  (∃ err t, r = Final.Error err t) ∨
  (∃ info n ind adv t signal,
     r = Final.Success info n ind adv t ∧
     adv !! "advice" = Some (VStr signal) ∧
     (signal = "buy" ∨ signal = "sell" ∨ signal = "hold")).
Proof.
  unfold Final.analyze_fund.
  destruct (Final.get_fund_realtime_info L w fund_code) as [info|e];
    cbn [mbind result_bind try_except]; [|intros [= <-]; left; eauto].
  destruct (dict_item info "name") as [name|e];
    cbn [mbind result_bind try_except]; [|intros [= <-]; left; eauto].
  destruct (negb (truthy name)); cbn [mbind result_bind try_except];
    [intros [= <-]; left; eauto|].
  destruct (Final.get_fund_history_nav L w fund_code 180) as [history_data|e];
    cbn [mbind result_bind try_except]; [|intros [= <-]; left; eauto].
  destruct (Final.calculate_technical_indicators history_data) as [ind|e];
    cbn [mbind result_bind try_except]; [|intros [= <-]; left; eauto].
  destruct (Final.get_trading_advice fund_code info ind) as [adv|e] eqn:Hadv;
    cbn [mbind result_bind try_except]; [|intros [= <-]; left; eauto].
  intros [= <-]. right.
  destruct (get_trading_advice_range _ _ _ _ Hadv) as (signal & Hs & Hrange).
  eauto 10.
Qed.

Lemma analyze_loop_spec (L : library) (world : nat → env) (fund_codes : list string) :
  ∀ (i : nat) (results : gmap string Final.report),
  ∃ results',
    Final.analyze_loop L world i fund_codes results = Ok results' ∧
    (∀ c, is_Some (results' !! c) ↔ c ∈ fund_codes ∨ is_Some (results !! c)) ∧
    (∀ c, c ∉ fund_codes → results' !! c = results !! c) ∧
    (∀ j c, fund_codes !! j = Some c →
            (∀ k, (j < k)%nat → fund_codes !! k ≠ Some c) →
            ∃ r, Final.analyze_fund L (world (i + j)%nat) c = Ok r ∧
                 results' !! c = Some r).
Proof.
  induction fund_codes as [|c0 rest IH]; intros i results.
  - exists results. split; [reflexivity|]. split; [|split].
    + intros c. rewrite elem_of_nil. tauto.
    + reflexivity.
    + intros j c Hj. discriminate Hj.
  - destruct (analyze_fund_total L (world i) c0) as [r0 Hr0].
    destruct (IH (S i) (<[c0 := r0]> results)) as (results' & Hloop & Hdom & Hother & Hentry).
    exists results'. split; [|split; [|split]].
    + cbn [Final.analyze_loop]. rewrite Hr0. cbn [mbind result_bind]. exact Hloop.
    + intros c. rewrite Hdom, elem_of_cons.
      destruct (decide (c0 = c)) as [<-|Hne].
      * rewrite lookup_insert_eq. split; [intros _; left; left; reflexivity|].
        intros _. right. eauto.
      * rewrite lookup_insert_ne by exact Hne. split.
        -- intros [H|H]; auto.
        -- intros [[H|H]|H]; auto. congruence.
    + intros c Hc. apply not_elem_of_cons in Hc as [Hne Hrest].
      rewrite (Hother c Hrest). apply lookup_insert_ne. congruence.
    + intros [|j] c Hj Hlast.
      * injection Hj as <-. rewrite Nat.add_0_r. exists r0. split; [exact Hr0|].
        rewrite Hother; [apply lookup_insert_eq|].
        intros Hin. apply list_elem_of_lookup in Hin as [k Hk].
        apply (Hlast (S k)); [lia | exact Hk].
      * destruct (Hentry j c Hj) as (r & Hr & Hres).
        { intros k Hk. apply (Hlast (S k)). lia. }
        exists r. split; [|exact Hres].
        replace (i + S j)%nat with (S i + j)%nat by lia. exact Hr.
Qed.

Lemma traverse_ok_elem {A B} (f : A → result B) (l : list A) (ys : list B) :
  traverse f l = Ok ys → ∀ x, x ∈ l → ∃ y, f x = Ok y.
Proof.
  revert ys. induction l as [|a l IH]; intros ys H x Hx.
  - apply elem_of_nil in Hx. contradiction.
  - cbn [traverse] in H.
    destruct (f a) as [y|e] eqn:Hfa; [|discriminate H]. cbn [mbind result_bind] in H.
    destruct (traverse f l) as [ys'|e] eqn:Htl; [|discriminate H].
    apply elem_of_cons in Hx as [->|Hx]; [eauto|].
    exact (IH ys' eq_refl x Hx).
Qed.

Lemma sum_from_ok (vs : list pyval) : ∀ (acc s : Q),
  sum_from acc vs = Ok s → Forall (fun v => is_Some (num_of v)) vs.
Proof.
  induction vs as [|v vs IH]; intros acc s H; [constructor|].
  cbn [sum_from] in H. unfold as_number in H.
  destruct (num_of v) as [x|] eqn:Hv; [|discriminate H].
  cbn [mbind result_bind] in H. constructor; [eauto | exact (IH _ _ H)].
Qed.

Lemma calculate_ma_last_numeric (values : list pyval) (period : nat) (ma : list Q)
    (v : pyval) :
  (0 < period ≤ length values)%nat →
  Final.calculate_ma values period = Ok ma →
  last values = Some v →
  is_Some (num_of v).
Proof.
  intros [Hpos Hlen] Hma Hlast. unfold Final.calculate_ma in Hma.
  destruct (length values <? period)%nat eqn:Hlt; [apply Nat.ltb_lt in Hlt; lia|].
  destruct (traverse_ok_elem _ _ _ Hma (length values - period)%nat) as [y Hy].
  { apply elem_of_seq. lia. }
  destruct (py_sum _) as [s|e] eqn:Hsum; [|discriminate Hy].
  apply sum_from_ok in Hsum.
  rewrite last_lookup in Hlast.
  apply (Forall_lookup_1 _ _ (period - 1)%nat v Hsum).
  unfold slice. rewrite lookup_take_lt by lia. rewrite lookup_drop.
  rewrite <- Hlast. f_equal. lia.
Qed.

Lemma last_or_None_slot (xs : list Q) : absent_or_number (Final.last_or_None xs).
Proof.
  unfold Final.last_or_None, absent_or_number.
  destruct (last xs) as [x|]; [right; exists x; reflexivity | left; reflexivity].
Qed.

Lemma indicators_numeric (history_data : list dict) (ind : dict) :
  Final.calculate_technical_indicators history_data = Ok ind →
  is_Some (num_of (dict_get ind "current_nav" (VNum 0))) ∧
  absent_or_number (dict_get ind "ma5" VNone) ∧
  absent_or_number (dict_get ind "ma10" VNone) ∧
  is_Some (num_of (dict_get ind "rsi" (VNum 50))).
Proof.
  unfold Final.calculate_technical_indicators.
  destruct (length history_data <? 5)%nat eqn:Hlen.
  { intros [= <-]. repeat split; try (left; reflexivity); eexists; reflexivity. }
  apply Nat.ltb_ge in Hlen.
  destruct (traverse _ history_data) as [navs|e] eqn:Hnavs; [|discriminate].
  cbn [mbind result_bind].
  destruct (Final.calculate_ma (rev navs) 5) as [ma5|e] eqn:H5; [|discriminate].
  cbn [mbind result_bind].
  destruct (Final.calculate_ma (rev navs) 10) as [ma10|e]; [|discriminate].
  cbn [mbind result_bind].
  destruct (Final.calculate_ma (rev navs) 20) as [ma20|e]; [|discriminate].
  cbn [mbind result_bind].
  destruct (Final.calculate_rsi (rev navs) 14) as [rsi|e]; [|discriminate].
  cbn [mbind result_bind]. intros [= <-].
  split; [|split; [|split]].
  - change (dict_get _ "current_nav" (VNum 0))
      with (default (VNum 0) (last (rev navs))).
    destruct (last (rev navs)) as [v|] eqn:Hlast; [|eexists; reflexivity].
    apply (calculate_ma_last_numeric (rev navs) 5 ma5 v); [|exact H5|exact Hlast].
    rewrite length_rev.
    assert (length navs = length history_data); [|lia].
    clear -Hnavs. revert navs Hnavs.
    induction history_data as [|item items IH]; intros navs H.
    + injection H as <-. reflexivity.
    + cbn [traverse] in H. destruct (dict_item item "nav"); [|discriminate H].
      cbn [mbind result_bind] in H.
      destruct (traverse _ items) as [ys|]; [|discriminate H].
      injection H as <-. cbn [length]. rewrite (IH ys eq_refl). reflexivity.
  - apply last_or_None_slot.
  - apply last_or_None_slot.
  - eexists. reflexivity.
Qed.

Lemma advice_total_on_engine_outputs (L : library) (w : env) (fund_code : string)
    (info : dict) (history_data : list dict) (ind : dict) :
  Final.get_fund_realtime_info L w fund_code = Ok info →
  Final.calculate_technical_indicators history_data = Ok ind →
  ∃ adv, Final.get_trading_advice fund_code info ind = Ok adv.
Proof.
  intros Hinfo Hind.
  destruct (realtime_info_shape L w fund_code info Hinfo) as [_ [g Hg]].
  destruct (indicators_numeric history_data ind Hind) as ([cur Hcur] & H5 & H10 & [r Hr]).
  destruct (trend_step_total _ _ _ cur Hcur H5 H10) as (base & reason & Htrend).
  destruct (calculate_confidence_num info ind g r) as (c & Hc & _);
    [unfold dict_get; rewrite Hg; reflexivity | exact Hr |].
  unfold Final.get_trading_advice. rewrite Htrend. cbn [mbind result_bind].
  rewrite (rsi_step_num _ r base reason Hr).
  match goal with |- context [Ok ?p ≫= _] => destruct p end.
  cbn [mbind result_bind]. rewrite Hc. eexists. reflexivity.
Qed.

Lemma analyze_fund_success (L : library) (w : env) (fund_code : string)
    (info : dict) (name : pyval) (history_data : list dict) (ind : dict) :
  Final.get_fund_realtime_info L w fund_code = Ok info →
  info !! "name" = Some name → truthy name = true →
  Final.get_fund_history_nav L w fund_code 180 = Ok history_data →
  Final.calculate_technical_indicators history_data = Ok ind →
  ∃ adv,
    Final.get_trading_advice fund_code info ind = Ok adv ∧
    Final.analyze_fund L w fund_code
    = Ok (Final.Success info (length history_data) ind adv (now_iso w)).
Proof.
  intros Hinfo Hname Htruthy Hhist Hind.
  destruct (advice_total_on_engine_outputs L w fund_code info history_data ind Hinfo Hind)
    as [adv Hadv].
  exists adv. split; [exact Hadv|].
  unfold Final.analyze_fund. rewrite Hinfo. cbn [mbind result_bind].
  unfold dict_item. rewrite Hname. cbn [mbind result_bind]. rewrite Htruthy. cbn [negb].
  rewrite Hhist. cbn [mbind result_bind]. rewrite Hind. cbn [mbind result_bind].
  rewrite Hadv. reflexivity.
Qed.

Lemma sample_realtime_110022 :
  Final.get_fund_realtime_info sample_library batch_env "110022"
  = Ok (sample_fund_info "110022" (-1.2)).
Proof. vm_compute. reflexivity. Qed.

Lemma sample_batch_second_is_last (k : nat) :
  (1 < k)%nat → sample_batch !! k ≠ Some "110022".
Proof.
  intros Hk. destruct k as [|[|[|k]]]; try lia; discriminate.
Qed.

(** C9, as stated, fails: the history request of the second fund of the
    sample batch fails, and its entry is not an error marker. *)
Lemma history_failure_not_marked :
  ¬ (∀ (L : library) (world : nat → env) (fund_codes : list string)
       (results : gmap string Final.report) (i : nat) (c : string) (e : exn),
       Final.analyze_multiple_funds L world fund_codes = Ok results →
       fund_codes !! i = Some c →
       session_get (world i) (history_url c) = Raise e →
       ∃ err t, results !! c = Some (Final.Error err t)).
Proof.
  intros H.
  destruct (analyze_loop_spec sample_library (fun _ => batch_env) sample_batch 0 ∅)
    as (results & Hres & _ & _ & Hentry).
  destruct (Hentry 1%nat "110022" eq_refl sample_batch_second_is_last) as (r & Hr & Hlook).
  destruct (analyze_fund_history_failure sample_library batch_env "110022"
              (sample_fund_info "110022" (-1.2)) (VStr "fund") RequestException
              sample_realtime_110022 eq_refl eq_refl eq_refl) as [c Hc].
  cbn [Nat.add] in Hr. rewrite Hc in Hr. injection Hr as <-.
  destruct (H sample_library (fun _ => batch_env) sample_batch results 1%nat "110022"
              RequestException Hres eq_refl eq_refl) as (err & t & Herr).
  rewrite Hlook in Herr. discriminate Herr.
Qed.

(** C9, amended.  The batch analysis never raises and returns a mapping
    with an entry for exactly the input ids; the entry of an id is the
    report of analysing that fund on its own, at its last position in the
    batch.  A report is an error marker or a success with a "buy", "sell"
    or "hold" advice.  A failed realtime fetch, a payload without a fund
    name and an exception raised by the analysis give an error marker; a
    fund whose fetches and analysis succeed gets a success report; a failed
    history request is not an error:
    the history is taken as empty and the report is a success with advice
    "hold". *)
Theorem batch_analysis (L : library) (world : nat → env) (fund_codes : list string) :
  ∃ results,
    Final.analyze_multiple_funds L world fund_codes = Ok results ∧
    (∀ c, c ∈ fund_codes ↔ is_Some (results !! c)) ∧
    (∀ i c,
       fund_codes !! i = Some c →
       (∀ k, (i < k)%nat → fund_codes !! k ≠ Some c) →
       ∃ r,
         Final.analyze_fund L (world i) c = Ok r ∧
         results !! c = Some r ∧
         ((∃ err t, r = Final.Error err t) ∨
          (∃ info n ind adv t signal,
             r = Final.Success info n ind adv t ∧
             adv !! "advice" = Some (VStr signal) ∧
             (signal = "buy" ∨ signal = "sell" ∨ signal = "hold"))) ∧
         (realtime_fetch_fails L (world i) c →
            r = Final.Error (Final.NoData c) (now_iso (world i))) ∧
         (∀ info name,
            Final.get_fund_realtime_info L (world i) c = Ok info →
            info !! "name" = Some name → truthy name = false →
            r = Final.Error (Final.NoData c) (now_iso (world i))) ∧
         (∀ info name history_data e,
            Final.get_fund_realtime_info L (world i) c = Ok info →
            info !! "name" = Some name → truthy name = true →
            Final.get_fund_history_nav L (world i) c 180 = Ok history_data →
            Final.calculate_technical_indicators history_data = Raise e →
            r = Final.Error (Final.OfException e) (now_iso (world i))) ∧
         (∀ info name history_data ind,
            Final.get_fund_realtime_info L (world i) c = Ok info →
            info !! "name" = Some name → truthy name = true →
            Final.get_fund_history_nav L (world i) c 180 = Ok history_data →
            Final.calculate_technical_indicators history_data = Ok ind →
            ∃ adv,
              Final.get_trading_advice c info ind = Ok adv ∧
              r = Final.Success info (length history_data) ind adv
                    (now_iso (world i))) ∧
         (∀ info name e,
            Final.get_fund_realtime_info L (world i) c = Ok info →
            info !! "name" = Some name → truthy name = true →
            session_get (world i) (history_url c) = Raise e →
            ∃ confidence,
              r = Final.Success info 0 ∅ (hold_advice confidence) (now_iso (world i)))).
Proof.
  destruct (analyze_loop_spec L world fund_codes 0 ∅)
    as (results & Hres & Hdom & _ & Hentry).
  exists results. split; [exact Hres|]. split.
  - intros c. rewrite Hdom, lookup_empty. split; [auto|].
    intros [H|H]; [exact H | destruct H as [? H]; discriminate H].
  - intros i c Hi Hlast.
    destruct (Hentry i c Hi Hlast) as (r & Hr & Hlook). cbn [Nat.add] in Hr.
    exists r. split; [exact Hr|]. split; [exact Hlook|].
    split; [exact (analyze_fund_range L (world i) c r Hr)|].
    split; [|split; [|split; [|split]]].
    + intros Hfail. rewrite (analyze_fund_no_data L (world i) c Hfail) in Hr.
      injection Hr as <-. reflexivity.
    + intros info name Hinfo Hname Hfalsy.
      rewrite (analyze_fund_unnamed L (world i) c info name Hinfo Hname Hfalsy) in Hr.
      injection Hr as <-. reflexivity.
    + intros info name history_data e Hinfo Hname Htruthy Hhist Hraise.
      rewrite (analyze_fund_exception L (world i) c info name history_data e
                 Hinfo Hname Htruthy Hhist Hraise) in Hr.
      injection Hr as <-. reflexivity.
    + intros info name history_data ind Hinfo Hname Htruthy Hhist Hind.
      destruct (analyze_fund_success L (world i) c info name history_data ind
                  Hinfo Hname Htruthy Hhist Hind) as (adv & Hadv & Hs).
      rewrite Hs in Hr. injection Hr as <-. exists adv. split; [exact Hadv | reflexivity].
    + intros info name e Hinfo Hname Htruthy Hhist.
      destruct (analyze_fund_history_failure L (world i) c info name e
                  Hinfo Hname Htruthy Hhist) as [confidence Hc].
      rewrite Hc in Hr. injection Hr as <-. exists confidence. reflexivity.
Qed.

Lemma batch_analysis_witness :
  ∃ results confidence,
    Final.analyze_multiple_funds sample_library (fun _ => batch_env) sample_batch
    = Ok results ∧
    (∀ c, c ∈ sample_batch ↔ is_Some (results !! c)) ∧
    results !! "110022"
    = Some (Final.Success (sample_fund_info "110022" (-1.2)) 0 ∅
              (hold_advice confidence) "2024-01-05T15:00:00").
Proof.
  destruct (batch_analysis sample_library (fun _ => batch_env) sample_batch)
    as (results & Hres & Hdom & Hentry).
  destruct (Hentry 1%nat "110022" eq_refl sample_batch_second_is_last)
    as (r & _ & Hlook & _ & _ & _ & _ & _ & Hhist).
  destruct (Hhist (sample_fund_info "110022" (-1.2)) (VStr "fund") RequestException
              sample_realtime_110022 eq_refl eq_refl eq_refl) as [confidence ->].
  exists results, confidence. split; [exact Hres|]. split; [exact Hdom | exact Hlook].
Defined.

(** *** The range of the signals *)

Lemma sample_watch :
  Simple.calculate_technical_indicators sample_library (sample_env 1000) "519697"
    empty_state
  = (Ok sample_watch_entry, state_after_fetch "519697" "-0.70" (-0.7) 1000).
Proof. vm_compute. reflexivity. Qed.

(** C10. The decision of the final system emits "buy", "sell" or "hold" and
    never "watch": whenever it returns, and it returns on every snapshot
    whose moving averages are absent or numbers and whose momentum, nav and
    growth are numbers.  The growth-only decision of the simple system does
    emit "watch". *)
Theorem watch_only_from_growth_path :
  (∀ fund_code realtime_info indicators adv,
     Final.get_trading_advice fund_code realtime_info indicators = Ok adv →
     ∃ signal,
       adv !! "advice" = Some (VStr signal) ∧
       (signal = "buy" ∨ signal = "sell" ∨ signal = "hold") ∧
       signal ≠ "watch") ∧
  (∀ fund_code realtime_info indicators cur r g,
     num_of (dict_get indicators "current_nav" (VNum 0)) = Some cur →
     absent_or_number (dict_get indicators "ma5" VNone) →
     absent_or_number (dict_get indicators "ma10" VNone) →
     num_of (dict_get indicators "rsi" (VNum 50)) = Some r →
     num_of (dict_get realtime_info "estimate_growth" (VNum 0)) = Some g →
     ∃ adv, Final.get_trading_advice fund_code realtime_info indicators = Ok adv) ∧
  (∃ L w fund_code s out s',
     Simple.calculate_technical_indicators L w fund_code s = (Ok out, s') ∧
     out !! "advice" = Some (VStr "watch")).
Proof.
  split; [|split].
  - intros fund_code realtime_info indicators adv Hadv.
    destruct (get_trading_advice_range _ _ _ _ Hadv) as (signal & Hs & Hrange).
    exists signal. split; [exact Hs|]. split; [exact Hrange|].
    destruct Hrange as [-> | [-> | ->]]; discriminate.
  - intros fund_code realtime_info indicators cur r g Hcur H5 H10 Hr Hg.
    destruct (trend_step_total _ _ _ cur Hcur H5 H10) as (base & reason & Htrend).
    destruct (calculate_confidence_num realtime_info indicators g r Hg Hr) as (c & Hc & _).
    unfold Final.get_trading_advice. rewrite Htrend. cbn [mbind result_bind].
    rewrite (rsi_step_num _ r base reason Hr).
    match goal with |- context [Ok ?p ≫= _] => destruct p end.
    cbn [mbind result_bind]. rewrite Hc. eexists. reflexivity.
  - exists sample_library, (sample_env 1000), "519697", empty_state,
      sample_watch_entry, (state_after_fetch "519697" "-0.70" (-0.7) 1000).
    split; [exact sample_watch | reflexivity].
Qed.

Lemma watch_only_from_growth_path_witness :
  ∃ adv signal,
    Final.get_trading_advice "000001" (realtime_with_growth 0.3) (uptrend_snapshot 75)
    = Ok adv ∧
    adv !! "advice" = Some (VStr signal) ∧
    (signal = "buy" ∨ signal = "sell" ∨ signal = "hold") ∧
    signal ≠ "watch".
Proof.
  destruct watch_only_from_growth_path as (Hrange & Htotal & _).
  destruct (Htotal "000001" (realtime_with_growth 0.3) (uptrend_snapshot 75) 1.05 75 0.3)
    as [adv Hadv].
  - vm_compute. reflexivity.
  - right. exists 1.03. vm_compute. reflexivity.
  - right. exists 1.01. vm_compute. reflexivity.
  - vm_compute. reflexivity.
  - vm_compute. reflexivity.
  - destruct (Hrange _ _ _ _ Hadv) as (signal & Hs & Hr & Hw).
    exists adv, signal. repeat split; assumption.
Defined.

(** ** Further properties of the engine *)

(** *** Sums and moving averages *)

Lemma sum_from_num (l : list Q) (acc : Q) :
  sum_from acc (map VNum l) = Ok (fold_left Qplus l acc).
Proof.
  revert acc. induction l as [|x l IH]; intros acc; [reflexivity|].
  cbn [map sum_from as_number num_of mbind result_bind fold_left]. apply IH.
Qed.

Lemma fold_left_Qplus_acc (l : list Q) (acc : Q) :
  fold_left Qplus l acc == acc + fold_left Qplus l 0.
Proof.
  revert acc. induction l as [|x l IH]; intros acc; cbn [fold_left].
  - ring.
  - rewrite (IH (acc + x)), (IH (0 + x)). ring.
Qed.

Lemma qsum_cons (x : Q) (l : list Q) : qsum (x :: l) == x + qsum l.
Proof.
  unfold qsum. cbn [fold_left]. rewrite fold_left_Qplus_acc. ring.
Qed.

Lemma qsum_app (l k : list Q) : qsum (l ++ k) == qsum l + qsum k.
Proof.
  induction l as [|x l IH]; cbn [app].
  - unfold qsum at 2. cbn [fold_left]. ring.
  - rewrite !qsum_cons, IH. ring.
Qed.

Lemma qsum_rev (l : list Q) : qsum (rev l) == qsum l.
Proof.
  induction l as [|x l IH]; [reflexivity|].
  cbn [rev]. rewrite qsum_app, IH, !qsum_cons. unfold qsum at 2. cbn [fold_left]. ring.
Qed.

Lemma window_nonzero (p : nat) : (0 < p)%nat → ¬ inject_Z (Z.of_nat p) == 0.
Proof.
  intros Hp H. unfold Qeq in H. cbn [inject_Z Qnum Qden] in H. lia.
Qed.

Lemma traverse_total {A B} (f : A → result B) (g : A → B) (l : list A) :
  (∀ x, x ∈ l → f x = Ok (g x)) → traverse f l = Ok (map g l).
Proof.
  induction l as [|a l IH]; intros H; [reflexivity|].
  cbn [traverse map]. rewrite (H a) by (left). cbn [mbind result_bind].
  rewrite IH by (intros x Hx; apply H; right; exact Hx). reflexivity.
Qed.

(** The moving averages of a numeric series: one mean per window *)
Lemma calculate_ma_num (navs : list Q) (p : nat) :
  (0 < p ≤ length navs)%nat →
  Final.calculate_ma (map VNum navs) p
  = Ok (map (fun i => qsum (take p (drop i navs)) / inject_Z (Z.of_nat p))
            (seq 0 (length navs - p + 1))).
Proof.
  intros [Hp Hlen]. unfold Final.calculate_ma. rewrite length_map.
  destruct (length navs <? p)%nat eqn:Hlt; [apply Nat.ltb_lt in Hlt; lia|].
  apply traverse_total. intros i _.
  unfold slice, py_sum. replace (i + p - i)%nat with p by lia.
  rewrite skipn_map, firstn_map, sum_from_num. cbn [mbind result_bind].
  apply py_div_ok, window_nonzero, Hp.
Qed.

Lemma last_map {A B} (f : A → B) (l : list A) : last (map f l) = option_map f (last l).
Proof.
  induction l as [|a [|b l] IH]; [reflexivity | reflexivity |].
  exact IH.
Qed.

Lemma calculate_ma_last (navs : list Q) (p : nat) :
  (0 < p ≤ length navs)%nat →
  ∃ l m, Final.calculate_ma (map VNum navs) p = Ok l ∧
         last l = Some m ∧
         m == qsum (last_n p navs) / inject_Z (Z.of_nat p).
Proof.
  intros Hp. rewrite (calculate_ma_num navs p Hp).
  eexists. eexists. split; [reflexivity|].
  replace (length navs - p + 1)%nat with (S (length navs - p)) by lia.
  rewrite seq_S, map_app. cbn [map]. rewrite last_snoc. cbn [Nat.add].
  split; [reflexivity|].
  unfold last_n. destruct (p =? 0)%nat eqn:Hz; [apply Nat.eqb_eq in Hz; lia|].
  rewrite firstn_all2 by (rewrite length_skipn; lia). reflexivity.
Qed.

Lemma calculate_ma_short (values : list pyval) (p : nat) :
  (length values < p)%nat → Final.calculate_ma values p = Ok [].
Proof.
  intros H. unfold Final.calculate_ma. apply Nat.ltb_lt in H. rewrite H. reflexivity.
Qed.

Lemma last_n_rev (p : nat) (navs : list Q) :
  (0 < p ≤ length navs)%nat → last_n p (rev navs) = rev (take p navs).
Proof.
  intros Hp. unfold last_n.
  destruct (p =? 0)%nat eqn:Hz; [apply Nat.eqb_eq in Hz; lia|].
  rewrite length_rev, skipn_rev. f_equal. f_equal. lia.
Qed.

(** The slot of a moving average of window [p], from the chronological
    series [rev navs] *)
Lemma ma_slot (navs : list Q) (p : nat) :
  (0 < p)%nat →
  ∃ l, Final.calculate_ma (map VNum (rev navs)) p = Ok l ∧
       if decide (p ≤ length navs)%nat
       then ∃ m, Final.last_or_None l = VNum m ∧
                 m == qsum (take p navs) / inject_Z (Z.of_nat p)
       else Final.last_or_None l = VNone.
Proof.
  intros Hp. destruct (decide (p ≤ length navs)%nat) as [Hle|Hgt].
  - destruct (calculate_ma_last (rev navs) p) as (l & m & Hl & Hlast & Hm).
    { rewrite length_rev. lia. }
    exists l. split; [exact Hl|]. exists m. unfold Final.last_or_None. rewrite Hlast.
    split; [reflexivity|]. rewrite Hm, last_n_rev by lia. rewrite qsum_rev. reflexivity.
  - exists []. split; [|reflexivity].
    apply calculate_ma_short. rewrite length_map, length_rev. lia.
Qed.

Lemma traverse_rows (navs : list Q) (history_data : list dict) :
  rows_of navs history_data →
  traverse (fun item => dict_item item "nav") history_data = Ok (map VNum navs).
Proof.
  induction 1 as [|row q rows qs Hrow _ IH]; [reflexivity|].
  cbn [traverse map]. cbv beta. unfold dict_item in IH |- *. rewrite Hrow.
  cbn [mbind result_bind]. rewrite IH. reflexivity.
Qed.

(** *** The momentum oscillator on numeric series *)

Lemma calculate_rsi_num (navs : list Q) (p : nat) :
  (0 < p)%nat →
  ∃ rsi, Final.calculate_rsi (map VNum navs) p = Ok rsi ∧ rsi == momentum_spec p navs.
Proof.
  intros Hp. unfold Final.calculate_rsi, momentum_spec. rewrite length_map.
  destruct (length navs <? p + 1)%nat eqn:Hlen.
  { exists 50. split; reflexivity. }
  apply Nat.ltb_ge in Hlen.
  destruct navs as [|a rest]; [simpl in Hlen; lia|].
  cbn [length] in Hlen. cbn [map].
  rewrite gain_loss_loop_num. cbn [app mbind result_bind].
  rewrite length_map, deltas_length.
  destruct (length rest <? p)%nat eqn:Hrest; [apply Nat.ltb_lt in Hrest; lia|].
  rewrite !(py_div_ok _ _ (window_nonzero p Hp)). cbn [mbind result_bind].
  change (qsum (last_n p (map gain (deltas (a :: rest)))) / inject_Z (Z.of_nat p))
    with (avg_gain p (a :: rest)).
  change (qsum (last_n p (map loop_loss (deltas (a :: rest)))) / inject_Z (Z.of_nat p))
    with (mean_last p (map loop_loss (deltas (a :: rest)))).
  pose proof (loop_loss_avg p (a :: rest)) as Hloss.
  pose proof (avg_gain_nonneg p (a :: rest)) as Hg.
  pose proof (avg_loss_nonneg p (a :: rest)) as Hl.
  set (G := avg_gain p (a :: rest)) in *.
  set (S := avg_loss p (a :: rest)) in *.
  set (S' := mean_last p (map loop_loss (deltas (a :: rest)))) in *.
  rewrite <- (Qeqb_comp _ _ Hloss 0 0 (Qeq_refl 0)).
  destruct (Qeq_bool S' 0) eqn:Hz.
  { eexists. split; reflexivity. }
  assert (HS' : ¬ S' == 0).
  { intros E. apply Qeq_bool_iff in E. congruence. }
  rewrite (py_div_ok _ _ HS'). cbn [mbind result_bind].
  assert (Hden : ¬ 1 + G / S' == 0).
  { assert (0 <= G / S') by (apply Qdiv_nonneg; [exact Hg | rewrite Hloss; exact Hl]).
    lra. }
  rewrite (py_div_ok _ _ Hden). cbn [mbind result_bind].
  eexists. split; [reflexivity|]. rewrite Hloss. reflexivity.
Qed.

Lemma momentum_spec_bounds (p : nat) (navs : list Q) :
  0 <= momentum_spec p navs ∧ momentum_spec p navs <= 100.
Proof.
  unfold momentum_spec.
  destruct (length navs <? p + 1)%nat; [split; lra|].
  pose proof (avg_gain_nonneg p navs) as Hg.
  pose proof (avg_loss_nonneg p navs) as Hl.
  destruct (Qeq_bool (avg_loss p navs) 0) eqn:Hz.
  { destruct (Qltb 0 (avg_gain p navs)); split; lra. }
  assert (Hpos : 0 < avg_loss p navs).
  { apply Qeq_bool_neq in Hz. lra. }
  set (G := avg_gain p navs) in *. set (S := avg_loss p navs) in *.
  assert (Hrs : 0 <= G / S) by (apply Qdiv_nonneg; lra).
  assert (Hden : 0 < 1 + G / S) by lra.
  assert (Hq : 0 < 100 / (1 + G / S) ∧ 100 / (1 + G / S) <= 100).
  { split.
    - apply Qlt_shift_div_l; lra.
    - apply Qle_shift_div_r; [exact Hden | lra]. }
  split; lra.
Qed.

(** *** The snapshot of a numeric history *)

Lemma indicators_of_rows (navs : list Q) (history_data : list dict) :
  rows_of navs history_data → (5 ≤ length navs)%nat →
  ∃ l5 l10 l20 rsi,
    Final.calculate_ma (map VNum (rev navs)) 5 = Ok l5 ∧
    Final.calculate_ma (map VNum (rev navs)) 10 = Ok l10 ∧
    Final.calculate_ma (map VNum (rev navs)) 20 = Ok l20 ∧
    Final.calculate_rsi (map VNum (rev navs)) 14 = Ok rsi ∧
    rsi == momentum_spec 14 (rev navs) ∧
    Final.calculate_technical_indicators history_data
    = Ok (<["ma5" := Final.last_or_None l5]>
         (<["ma10" := Final.last_or_None l10]>
         (<["ma20" := Final.last_or_None l20]>
         (<["rsi" := VNum rsi]>
         (<["current_nav" := default (VNum 0) (last (map VNum (rev navs)))]> ∅))))).
Proof.
  intros Hrows Hlen.
  destruct (ma_slot navs 5) as (l5 & H5 & _); [lia|].
  destruct (ma_slot navs 10) as (l10 & H10 & _); [lia|].
  destruct (ma_slot navs 20) as (l20 & H20 & _); [lia|].
  destruct (calculate_rsi_num (rev navs) 14) as (rsi & Hrsi & Hspec); [lia|].
  exists l5, l10, l20, rsi. repeat (split; [assumption|]).
  unfold Final.calculate_technical_indicators.
  rewrite (Forall2_length _ _ _ Hrows).
  destruct (length navs <? 5)%nat eqn:Hlt; [apply Nat.ltb_lt in Hlt; lia|].
  rewrite (traverse_rows navs history_data Hrows). cbn [mbind result_bind].
  rewrite <- map_rev, H5, H10, H20, Hrsi. reflexivity.
Qed.

(** X1. For a history of at least 5 numeric rows the snapshot has the five
    entries: the newest nav, the mean of the 5 newest navs, the means of
    the 10 and of the 20 newest navs when there are that many and [None]
    otherwise, and the momentum. *)
Theorem snapshot_of_numeric_history (navs : list Q) (history_data : list dict) :
  rows_of navs history_data → (5 ≤ length navs)%nat →
  ∃ snapshot newest rsi,
    Final.calculate_technical_indicators history_data = Ok snapshot ∧
    dom snapshot = {[ "ma5"; "ma10"; "ma20"; "rsi"; "current_nav" ]} ∧
    head navs = Some newest ∧
    snapshot !! "current_nav" = Some (VNum newest) ∧
    window_mean_slot snapshot "ma5" 5 navs ∧
    window_mean_slot snapshot "ma10" 10 navs ∧
    window_mean_slot snapshot "ma20" 20 navs ∧
    snapshot !! "rsi" = Some (VNum rsi) ∧
    rsi == momentum_spec 14 (rev navs).
Proof.
  intros Hrows Hlen.
  destruct (indicators_of_rows navs history_data Hrows Hlen)
    as (l5 & l10 & l20 & rsi & H5 & H10 & H20 & Hrsi & Hspec & Hcalc).
  destruct navs as [|newest older] eqn:Hnavs; [simpl in Hlen; lia|]. rewrite <- Hnavs in *.
  assert (Hlast : last (map VNum (rev navs)) = Some (VNum newest)).
  { rewrite Hnavs. cbn [rev]. rewrite map_app. cbn [map]. apply last_snoc. }
  rewrite Hlast in Hcalc. cbn [default] in Hcalc.
  eexists. exists newest, rsi. split; [exact Hcalc|].
  split; [rewrite !dom_insert_L, dom_empty_L; set_solver|].
  split; [rewrite Hnavs; reflexivity|].
  split; [reflexivity|].
  assert (Hslot : ∀ (p : nat) l key (m : dict),
            (0 < p)%nat → Final.calculate_ma (map VNum (rev navs)) p = Ok l →
            window_mean_slot (<[key := Final.last_or_None l]> m) key p navs).
  { intros p l key m Hp Hl. unfold window_mean_slot.
    destruct (ma_slot navs p Hp) as (l' & Hl' & Hcase).
    rewrite Hl in Hl'. injection Hl' as <-.
    destruct (decide (p ≤ length navs)%nat).
    - destruct Hcase as (x & -> & Hx). exists x. split; [apply lookup_insert_eq | exact Hx].
    - rewrite Hcase. apply lookup_insert_eq. }
  split; [apply Hslot; [lia | exact H5]|].
  split.
  { unfold window_mean_slot. rewrite (lookup_insert_ne _ "ma5" "ma10") by discriminate.
    apply (Hslot 10%nat); [lia | exact H10]. }
  split.
  { unfold window_mean_slot.
    rewrite (lookup_insert_ne _ "ma5" "ma20"), (lookup_insert_ne _ "ma10" "ma20")
      by discriminate.
    apply (Hslot 20%nat); [lia | exact H20]. }
  split; [reflexivity | exact Hspec].
Qed.

Lemma snapshot_of_numeric_history_witness :
  ∃ snapshot,
    Final.calculate_technical_indicators rising_history = Ok snapshot ∧
    snapshot !! "current_nav" = Some (VNum 15) ∧
    window_mean_slot snapshot "ma20" 20 rising_navs.
Proof.
  destruct (snapshot_of_numeric_history rising_navs rising_history)
    as (snapshot & newest & rsi & Hcalc & _ & Hhead & Hcur & _ & _ & H20 & _).
  - repeat constructor.
  - simpl. lia.
  - exists snapshot. split; [exact Hcalc|]. split; [|exact H20].
    injection Hhead as <-. exact Hcur.
Defined.

Lemma qsum_zero (l : list Q) : Forall (fun x => x == 0) l → qsum l == 0.
Proof.
  induction 1 as [|x l Hx _ IH]; [reflexivity|].
  rewrite qsum_cons, Hx, IH. reflexivity.
Qed.

Lemma qsum_pos (l : list Q) : l ≠ [] → Forall (fun x => 0 < x) l → 0 < qsum l.
Proof.
  intros Hne H. destruct H as [|x l Hx Hl]; [contradiction|].
  rewrite qsum_cons.
  assert (0 <= qsum l); [|lra].
  apply fold_left_Qplus_nonneg; [|lra].
  eapply Forall_impl; [exact Hl|]. intros y Hy. cbv beta in Hy. lra.
Qed.

Lemma last_n_nonempty {A} (p : nat) (l : list A) :
  (0 < p ≤ length l)%nat → last_n p l ≠ [].
Proof.
  intros Hp H. apply (f_equal length) in H. unfold last_n in H.
  destruct (p =? 0)%nat eqn:Hz; [apply Nat.eqb_eq in Hz; lia|].
  rewrite length_skipn in H. cbn [length] in H. lia.
Qed.

Lemma deltas_rising (navs : list Q) :
  StronglySorted Qlt navs → Forall (fun d => 0 < d) (deltas navs).
Proof.
  induction navs as [|a [|b rest] IH]; intros Hs; [constructor | constructor |].
  change (deltas (a :: b :: rest)) with ((b - a) :: deltas (b :: rest)).
  apply StronglySorted_inv in Hs as [Hrest Ha].
  constructor; [|exact (IH Hrest)].
  apply Forall_inv in Ha. lra.
Qed.

Lemma deltas_falling (navs : list Q) :
  StronglySorted (fun a b => b < a) navs → Forall (fun d => d < 0) (deltas navs).
Proof.
  induction navs as [|a [|b rest] IH]; intros Hs; [constructor | constructor |].
  change (deltas (a :: b :: rest)) with ((b - a) :: deltas (b :: rest)).
  apply StronglySorted_inv in Hs as [Hrest Ha].
  constructor; [|exact (IH Hrest)].
  apply Forall_inv in Ha. lra.
Qed.

Lemma deltas_flat (navs : list Q) (c : Q) :
  Forall (fun x => x == c) navs → Forall (fun d => d == 0) (deltas navs).
Proof.
  induction navs as [|a [|b rest] IH]; intros Hs; [constructor | constructor |].
  change (deltas (a :: b :: rest)) with ((b - a) :: deltas (b :: rest)).
  apply Forall_cons in Hs as [Ha Hrest].
  constructor; [|exact (IH Hrest)].
  apply Forall_inv in Hrest. lra.
Qed.

Lemma deltas_length_pred (navs : list Q) : length (deltas navs) = pred (length navs).
Proof.
  destruct navs as [|a rest]; [reflexivity|]. apply deltas_length.
Qed.

Lemma Forall_map_of {A B} (P : A → Prop) (R : B → Prop) (f : A → B) (l : list A) :
  (∀ x, P x → R (f x)) → Forall P l → Forall R (map f l).
Proof.
  intros Hf. induction 1; cbn [map]; constructor; auto.
Qed.

(** The two averages of a window whose deltas all have one sign *)
Lemma averages_of_signed_deltas (p : nat) (navs : list Q) :
  (0 < p)%nat → (p + 1 ≤ length navs)%nat →
  (Forall (fun d => 0 < d) (deltas navs) →
     0 < avg_gain p navs ∧ avg_loss p navs == 0) ∧
  (Forall (fun d => d < 0) (deltas navs) →
     avg_gain p navs == 0 ∧ 0 < avg_loss p navs) ∧
  (Forall (fun d => d == 0) (deltas navs) →
     avg_gain p navs == 0 ∧ avg_loss p navs == 0).
Proof.
  intros Hp Hlen.
  assert (Hpq : 0 < inject_Z (Z.of_nat p)).
  { change 0 with (inject_Z 0). rewrite <- Zlt_Qlt. lia. }
  assert (Hmean_pos : ∀ l, length l = pred (length navs) →
            Forall (fun x => 0 < x) l → 0 < mean_last p l).
  { intros l Hl Hpos. unfold mean_last. apply Qlt_shift_div_l; [exact Hpq|].
    rewrite Qmult_0_l. apply qsum_pos; [apply last_n_nonempty; lia|].
    apply last_n_Forall, Hpos. }
  assert (Hmean_zero : ∀ l, Forall (fun x => x == 0) l → mean_last p l == 0).
  { intros l Hz. unfold mean_last.
    rewrite (qsum_zero _ (last_n_Forall _ p l Hz)). unfold Qdiv. ring. }
  unfold avg_gain, avg_loss. split; [|split]; intros Hd.
  - split.
    + apply Hmean_pos; [rewrite length_map; apply deltas_length_pred|].
      apply (Forall_map_of (fun d => 0 < d)); [|exact Hd].
      intros d H. unfold gain. apply Qltb_iff in H. rewrite H. apply Qltb_iff, H.
    + apply Hmean_zero. apply (Forall_map_of (fun d => 0 < d)); [|exact Hd].
      intros d H. unfold loss.
      assert (E : Qltb d 0 = false) by (apply Qltb_false_iff; lra).
      rewrite E. reflexivity.
  - split.
    + apply Hmean_zero. apply (Forall_map_of (fun d => d < 0)); [|exact Hd].
      intros d H. unfold gain.
      assert (E : Qltb 0 d = false) by (apply Qltb_false_iff; lra).
      rewrite E. reflexivity.
    + apply Hmean_pos; [rewrite length_map; apply deltas_length_pred|].
      apply (Forall_map_of (fun d => d < 0)); [|exact Hd].
      intros d H. unfold loss. rewrite (proj2 (Qltb_iff d 0) H).
      apply Qabs_case; intros; lra.
  - split; apply Hmean_zero; apply (Forall_map_of (fun d => d == 0)); try exact Hd;
      intros d H.
    + unfold gain. destruct (Qltb 0 d); [exact H | reflexivity].
    + unfold loss. destruct (Qltb d 0); [rewrite H; reflexivity | reflexivity].
Qed.

Lemma momentum_spec_trend (p : nat) (navs : list Q) :
  (0 < p)%nat → (p + 1 ≤ length navs)%nat →
  (StronglySorted Qlt navs → momentum_spec p navs == 100) ∧
  (StronglySorted (fun a b => b < a) navs → momentum_spec p navs == 0) ∧
  (∀ c, Forall (fun x => x == c) navs → momentum_spec p navs == 50).
Proof.
  intros Hp Hlen.
  destruct (averages_of_signed_deltas p navs Hp Hlen) as (Hup & Hdown & Hflat).
  unfold momentum_spec.
  destruct (length navs <? p + 1)%nat eqn:Hlt; [apply Nat.ltb_lt in Hlt; lia|].
  split; [|split].
  - intros Hs. destruct (Hup (deltas_rising navs Hs)) as [Hg Hl].
    rewrite (proj2 (Qeq_bool_iff _ _) Hl), (proj2 (Qltb_iff _ _) Hg). reflexivity.
  - intros Hs. destruct (Hdown (deltas_falling navs Hs)) as [Hg Hl].
    assert (E : Qeq_bool (avg_loss p navs) 0 = false).
    { apply not_true_iff_false. intros E. apply Qeq_bool_iff in E. lra. }
    rewrite E, Hg. unfold Qdiv. rewrite Qmult_0_l, Qplus_0_r. reflexivity.
  - intros c Hc. destruct (Hflat (deltas_flat navs c Hc)) as [Hg Hl].
    rewrite (proj2 (Qeq_bool_iff _ _) Hl).
    assert (E : Qltb 0 (avg_gain p navs) = false) by (apply Qltb_false_iff; lra).
    rewrite E. reflexivity.
Qed.

(** X2. The momentum of a numeric series, for every window, lies between 0
    and 100. *)
Theorem rsi_within_bounds (navs : list Q) (p : nat) :
  (0 < p)%nat →
  ∃ rsi, Final.calculate_rsi (map VNum navs) p = Ok rsi ∧ 0 <= rsi ∧ rsi <= 100.
Proof.
  intros Hp. destruct (calculate_rsi_num navs p Hp) as (rsi & Hrsi & Hspec).
  destruct (momentum_spec_bounds p navs) as [Hlo Hhi].
  exists rsi. split; [exact Hrsi|]. rewrite Hspec. split; assumption.
Qed.

Lemma rsi_within_bounds_witness :
  ∃ rsi, Final.calculate_rsi (map VNum [1; 2; 3; 2; 1; 2; 3; 4; 5; 4; 3; 4; 5; 6; 7; 6]) 14
         = Ok rsi ∧ 0 <= rsi ∧ rsi <= 100.
Proof.
  apply (rsi_within_bounds [1; 2; 3; 2; 1; 2; 3; 4; 5; 4; 3; 4; 5; 6; 7; 6] 14). lia.
Defined.

(** X3. On a series of at least 15 points the momentum is 100 when the
    series is strictly increasing, 0 when it is strictly decreasing and 50
    when it is constant. *)
Theorem momentum_of_trends (navs : list Q) :
  (15 ≤ length navs)%nat →
  ∃ rsi,
    Final.calculate_rsi (map VNum navs) 14 = Ok rsi ∧
    (StronglySorted Qlt navs → rsi == 100) ∧
    (StronglySorted (fun a b => b < a) navs → rsi == 0) ∧
    (∀ c, Forall (fun x => x == c) navs → rsi == 50).
Proof.
  intros Hlen.
  destruct (calculate_rsi_num navs 14) as (rsi & Hrsi & Hspec); [lia|].
  destruct (momentum_spec_trend 14 navs) as (Hup & Hdown & Hflat); [lia | exact Hlen |].
  exists rsi. split; [exact Hrsi|].
  split; [intros H; rewrite Hspec; exact (Hup H)|].
  split; [intros H; rewrite Hspec; exact (Hdown H)|].
  intros c H. rewrite Hspec. exact (Hflat c H).
Qed.

Lemma momentum_of_trends_witness :
  ∃ rsi,
    Final.calculate_rsi
      (map VNum [1; 2; 3; 4; 5; 6; 7; 8; 9; 10; 11; 12; 13; 14; 15]) 14 = Ok rsi ∧
    rsi == 100.
Proof.
  destruct (momentum_of_trends [1; 2; 3; 4; 5; 6; 7; 8; 9; 10; 11; 12; 13; 14; 15])
    as (rsi & Hrsi & Hup & _).
  - simpl. lia.
  - exists rsi. split; [exact Hrsi|]. apply Hup.
    repeat (apply SSorted_cons; [|repeat constructor]). apply SSorted_nil.
Defined.

(** *** The decision on numeric snapshots *)

Lemma trend_step_absent (current_nav ma5 ma10 : pyval) :
  ma5 = VNone ∨ ma10 = VNone →
  Final.trend_step current_nav ma5 ma10 = Ok ("hold", "趋势不明确").
Proof.
  intros [-> | ->]; unfold Final.trend_step; [reflexivity|].
  rewrite andb_false_r. reflexivity.
Qed.

Lemma trend_step_num (cur m5 m10 : Q) :
  (m10 < m5 → m5 < cur →
     Final.trend_step (VNum cur) (VNum m5) (VNum m10)
     = Ok ("buy", "价格在短期和长期均线上方，呈上升趋势")) ∧
  (m5 < m10 → cur < m5 →
     Final.trend_step (VNum cur) (VNum m5) (VNum m10)
     = Ok ("sell", "价格在短期和长期均线下方，呈下降趋势")) ∧
  (¬ (m10 < m5 ∧ m5 < cur) → ¬ (m5 < m10 ∧ cur < m5) →
     Final.trend_step (VNum cur) (VNum m5) (VNum m10) = Ok ("hold", "趋势不明确")).
Proof.
  unfold Final.trend_step, py_gt, py_lt.
  cbn [is_not_None andb num_of mbind result_bind].
  destruct (Qltb m5 cur) eqn:E1, (Qltb m10 m5) eqn:E2,
           (Qltb cur m5) eqn:E3, (Qltb m5 m10) eqn:E4;
    cbn [mbind result_bind];
    repeat match goal with
           | H : Qltb _ _ = true |- _ => apply Qltb_iff in H
           | H : Qltb _ _ = false |- _ => apply Qltb_false_iff in H
           end;
    (split; [|split]); intros; try reflexivity; exfalso; lra || tauto.
Qed.

Lemma trading_advice_assemble (fund_code : string) (realtime_info indicators : dict)
    (base reason0 advice reason : string) (c : Q) :
  Final.trend_step (dict_get indicators "current_nav" (VNum 0))
                   (dict_get indicators "ma5" VNone)
                   (dict_get indicators "ma10" VNone) = Ok (base, reason0) →
  Final.rsi_step (dict_get indicators "rsi" (VNum 50)) base reason0 = Ok (advice, reason) →
  Final._calculate_confidence realtime_info indicators = Ok c →
  Final.get_trading_advice fund_code realtime_info indicators
  = Ok (<["advice" := VStr advice]>
       (<["reason" := VStr reason]>
       (<["confidence" := VNum c]> ∅))).
Proof.
  intros Htrend Hstep Hc. unfold Final.get_trading_advice.
  rewrite Htrend. cbn [mbind result_bind]. rewrite Hstep. cbn [mbind result_bind].
  rewrite Hc. reflexivity.
Qed.

Lemma rsi_step_neutral (rsi : pyval) (r : Q) (advice reason : string) :
  num_of rsi = Some r → 30 <= r → r <= 70 →
  Final.rsi_step rsi advice reason = Ok (advice, reason).
Proof.
  intros Hr Hlo Hhi. rewrite (rsi_step_num rsi r advice reason Hr).
  assert (E1 : Qltb 70 r = false) by (apply Qltb_false_iff; exact Hhi).
  assert (E2 : Qltb r 30 = false) by (apply Qltb_false_iff; exact Hlo).
  rewrite E1, E2. reflexivity.
Qed.

(** X4. On a snapshot whose nav, two moving averages and momentum are
    numbers the decision returns, and its signal is characterised: "buy"
    exactly in an uptrend with momentum at most 70 or without trend with
    momentum below 30; "sell" exactly in a downtrend with momentum at least
    30 or without trend with momentum above 70. *)
Theorem signal_characterisation (fund_code : string) (realtime_info indicators : dict)
    (cur m5 m10 r g : Q) :
  dict_get indicators "current_nav" (VNum 0) = VNum cur →
  dict_get indicators "ma5" VNone = VNum m5 →
  dict_get indicators "ma10" VNone = VNum m10 →
  num_of (dict_get indicators "rsi" (VNum 50)) = Some r →
  num_of (dict_get realtime_info "estimate_growth" (VNum 0)) = Some g →
  let up := m10 < m5 ∧ m5 < cur in
  let down := m5 < m10 ∧ cur < m5 in
  ∃ adv signal,
    Final.get_trading_advice fund_code realtime_info indicators = Ok adv ∧
    adv !! "advice" = Some (VStr signal) ∧
    (signal = "buy" ↔ (up ∧ r <= 70) ∨ (¬ up ∧ ¬ down ∧ r < 30)) ∧
    (signal = "sell" ↔ (down ∧ 30 <= r) ∨ (¬ up ∧ ¬ down ∧ 70 < r)) ∧
    (signal = "hold" ↔
       (up ∧ 70 < r) ∨ (down ∧ r < 30) ∨ (¬ up ∧ ¬ down ∧ 30 <= r ∧ r <= 70)).
Proof.
  intros Hcur H5 H10 Hr Hg up down.
  destruct (calculate_confidence_num realtime_info indicators g r Hg Hr) as (c & Hc & _).
  destruct (trend_step_num cur m5 m10) as (Hbuy & Hsell & Hhold).
  assert (Hcases : (up ∧ ¬ down) ∨ (down ∧ ¬ up) ∨ (¬ up ∧ ¬ down)).
  { unfold up, down.
    destruct (Qlt_le_dec m10 m5), (Qlt_le_dec m5 cur), (Qlt_le_dec m5 m10),
             (Qlt_le_dec cur m5); lra. }
  assert (Hband : (Qltb 70 r = true ∧ Qltb r 30 = false ∧ 70 < r)
                  ∨ (Qltb 70 r = false ∧ Qltb r 30 = true ∧ r < 30)
                  ∨ (Qltb 70 r = false ∧ Qltb r 30 = false ∧ 30 <= r ∧ r <= 70)).
  { destruct (Qltb 70 r) eqn:E1, (Qltb r 30) eqn:E2;
      repeat match goal with
             | H : Qltb _ _ = true |- _ => apply Qltb_iff in H
             | H : Qltb _ _ = false |- _ => apply Qltb_false_iff in H
             end; [exfalso; lra | left | right; left | right; right]; repeat split; lra. }
  assert (Hgo : ∀ base reason0,
            Final.trend_step (VNum cur) (VNum m5) (VNum m10) = Ok (base, reason0) →
            ∃ adv signal reason,
              Final.get_trading_advice fund_code realtime_info indicators = Ok adv ∧
              adv !! "advice" = Some (VStr signal) ∧
              Final.rsi_step (dict_get indicators "rsi" (VNum 50)) base reason0
              = Ok (signal, reason)).
  { intros base reason0 Htrend.
    pose proof (rsi_step_num _ r base reason0 Hr) as Hstep.
    match type of Hstep with _ = Ok ?p => destruct p as [signal reason] eqn:Hp end.
    exists (<["advice" := VStr signal]>
              (<["reason" := VStr reason]> (<["confidence" := VNum c]> ∅))),
           signal, reason.
    split; [|split; [apply lookup_insert_eq | exact Hstep]].
    apply (trading_advice_assemble _ _ _ base reason0); [|exact Hstep | exact Hc].
    rewrite Hcur, H5, H10. exact Htrend. }
  destruct Hcases as [[Hup Hnd] | [[Hdown Hnu] | [Hnu Hnd]]].
  - destruct (Hgo _ _ (Hbuy (proj1 Hup) (proj2 Hup))) as (adv & signal & reason & Hadv & Hs & Hstep).
    exists adv, signal. split; [exact Hadv|]. split; [exact Hs|].
    rewrite (rsi_step_num _ r _ _ Hr) in Hstep.
    destruct Hband as [(E1 & E2 & Hb) | [(E1 & E2 & Hb) | (E1 & E2 & Hb)]];
      rewrite E1, ?E2 in Hstep; cbn in Hstep; injection Hstep as <- _;
      repeat split; intros; try discriminate; try reflexivity; try tauto;
      try (exfalso; intuition lra); intuition lra.
  - destruct (Hgo _ _ (Hsell (proj1 Hdown) (proj2 Hdown)))
      as (adv & signal & reason & Hadv & Hs & Hstep).
    exists adv, signal. split; [exact Hadv|]. split; [exact Hs|].
    rewrite (rsi_step_num _ r _ _ Hr) in Hstep.
    destruct Hband as [(E1 & E2 & Hb) | [(E1 & E2 & Hb) | (E1 & E2 & Hb)]];
      rewrite E1, ?E2 in Hstep; cbn in Hstep; injection Hstep as <- _;
      repeat split; intros; try discriminate; try reflexivity; try tauto;
      try (exfalso; intuition lra); intuition lra.
  - destruct (Hgo _ _ (Hhold Hnu Hnd)) as (adv & signal & reason & Hadv & Hs & Hstep).
    exists adv, signal. split; [exact Hadv|]. split; [exact Hs|].
    rewrite (rsi_step_num _ r _ _ Hr) in Hstep.
    destruct Hband as [(E1 & E2 & Hb) | [(E1 & E2 & Hb) | (E1 & E2 & Hb)]];
      rewrite E1, ?E2 in Hstep; cbn in Hstep; injection Hstep as <- _;
      repeat split; intros; try discriminate; try reflexivity; try tauto;
      try (exfalso; intuition lra); intuition lra.
Qed.

Lemma signal_characterisation_witness :
  ∃ adv,
    Final.get_trading_advice "000001" (realtime_with_growth 0.3) (uptrend_snapshot 75)
    = Ok adv ∧
    adv !! "advice" = Some (VStr "hold").
Proof.
  destruct (signal_characterisation "000001" (realtime_with_growth 0.3)
              (uptrend_snapshot 75) 1.05 1.03 1.01 75 0.3)
    as (adv & signal & Hadv & Hs & _ & _ & Hhold);
    [vm_compute; reflexivity ..|].
  exists adv. split; [exact Hadv|]. rewrite Hs.
  rewrite (proj2 Hhold); [reflexivity|].
  left. repeat split; vm_compute; reflexivity.
Defined.

(** X5. The confidence takes one of the four values 0.5, 0.65, 0.7 and
    0.85: the cap at 0.95 never applies. *)
Theorem confidence_values (realtime_info indicators : dict) (g r : Q) :
  num_of (dict_get realtime_info "estimate_growth" (VNum 0)) = Some g →
  num_of (dict_get indicators "rsi" (VNum 50)) = Some r →
  ∃ c,
    Final._calculate_confidence realtime_info indicators = Ok c ∧
    (c == 0.5 ∨ c == 0.65 ∨ c == 0.7 ∨ c == 0.85) ∧
    (c == 0.85 ↔ 2 < Qabs g ∧ (r < 20 ∨ 80 < r)) ∧
    (c == 0.5 ↔ Qabs g <= 2 ∧ 20 <= r ∧ r <= 80).
Proof.
  intros Hg Hr.
  destruct (calculate_confidence_num realtime_info indicators g r Hg Hr) as (c & Hc & Hspec).
  exists c. split; [exact Hc|]. unfold confidence_spec in Hspec.
  destruct (Qltb 2 (Qabs g)) eqn:E1, (Qltb r 20) eqn:E2, (Qltb 80 r) eqn:E3;
    cbn [orb] in Hspec;
    repeat match goal with
           | H : Qltb _ _ = true |- _ => apply Qltb_iff in H
           | H : Qltb _ _ = false |- _ => apply Qltb_false_iff in H
           end;
    match type of Hspec with
    | c == ?v => let v' := eval vm_compute in v in
                 assert (Hv : c == v') by (rewrite Hspec; vm_compute; reflexivity)
    end;
    clear Hspec;
    (split; [|split]);
    try (split; intros; try (exfalso; lra); try (repeat split; lra); try lra);
    try lra.
Qed.

Lemma confidence_values_witness :
  ∃ c, Final._calculate_confidence (realtime_with_growth 2.5) (uptrend_snapshot 85) = Ok c ∧
       c == 0.85.
Proof.
  destruct (confidence_values (realtime_with_growth 2.5) (uptrend_snapshot 85) 2.5 85)
    as (c & Hc & _ & H85 & _); [vm_compute; reflexivity ..|].
  exists c. split; [exact Hc|]. apply H85.
  split; [|right]; vm_compute; reflexivity.
Defined.

(** *** Short histories and persistent trends *)

Lemma snapshot_lookups (v5 v10 v20 vr vc : pyval) :
  let snapshot : dict :=
    <["ma5" := v5]> (<["ma10" := v10]> (<["ma20" := v20]>
      (<["rsi" := vr]> (<["current_nav" := vc]> ∅)))) in
  dict_get snapshot "current_nav" (VNum 0) = vc ∧
  dict_get snapshot "ma5" VNone = v5 ∧
  dict_get snapshot "ma10" VNone = v10 ∧
  dict_get snapshot "rsi" (VNum 50) = vr.
Proof. repeat split. Qed.

(** X6. A numeric history of fewer than 10 rows always gives "hold" with
    the reason "no clear trend", whatever the navs and the growth; the
    confidence is 0.5, or 0.7 when the absolute growth exceeds 2. *)
Theorem short_history_holds (fund_code : string) (realtime_info : dict)
    (navs : list Q) (history_data : list dict) (g : Q) :
  rows_of navs history_data → (length navs < 10)%nat →
  num_of (dict_get realtime_info "estimate_growth" (VNum 0)) = Some g →
  ∃ snapshot c,
    Final.calculate_technical_indicators history_data = Ok snapshot ∧
    Final.get_trading_advice fund_code realtime_info snapshot = Ok (hold_advice c) ∧
    (2 < Qabs g → c == 0.7) ∧ (Qabs g <= 2 → c == 0.5).
Proof.
  intros Hrows Hlen Hg.
  assert (Hfinish : ∀ snapshot r,
            Final.trend_step (dict_get snapshot "current_nav" (VNum 0))
              (dict_get snapshot "ma5" VNone) (dict_get snapshot "ma10" VNone)
            = Ok ("hold", "趋势不明确") →
            num_of (dict_get snapshot "rsi" (VNum 50)) = Some r → r == 50 →
            ∃ c, Final.get_trading_advice fund_code realtime_info snapshot
                 = Ok (hold_advice c) ∧
                 (2 < Qabs g → c == 0.7) ∧ (Qabs g <= 2 → c == 0.5)).
  { intros snapshot r Htrend Hr Hr50.
    destruct (calculate_confidence_num realtime_info snapshot g r Hg Hr) as (c & Hc & Hspec).
    exists c. split.
    - apply (trading_advice_assemble _ _ _ "hold" "趋势不明确"); [exact Htrend | | exact Hc].
      apply (rsi_step_neutral _ r); [exact Hr | lra | lra].
    - unfold confidence_spec in Hspec.
      assert (E2 : Qltb r 20 = false) by (apply Qltb_false_iff; lra).
      assert (E3 : Qltb 80 r = false) by (apply Qltb_false_iff; lra).
      rewrite E2, E3 in Hspec. cbn [orb] in Hspec.
      destruct (Qltb 2 (Qabs g)) eqn:E1;
        [apply Qltb_iff in E1 | apply Qltb_false_iff in E1];
        (split; intros; [|]); try (exfalso; lra);
        rewrite Hspec; vm_compute; reflexivity. }
  destruct (le_lt_dec 5 (length navs)) as [H5|H5].
  - destruct (indicators_of_rows navs history_data Hrows H5)
      as (l5 & l10 & l20 & rsi & _ & H10 & _ & _ & Hspec & Hcalc).
    destruct (ma_slot navs 10) as (l10' & H10' & Hnone); [lia|].
    rewrite H10 in H10'. injection H10' as <-.
    destruct (decide (10 ≤ length navs)%nat); [lia|].
    match type of Hcalc with _ = Ok ?snap => set (snapshot := snap) in * end.
    destruct (Hfinish snapshot rsi) as (c & Hadv & Hc).
    + apply trend_step_absent. right. exact Hnone.
    + reflexivity.
    + rewrite Hspec. unfold momentum_spec.
      destruct (length (rev navs) <? 14 + 1)%nat eqn:E; [reflexivity|].
      apply Nat.ltb_ge in E. rewrite length_rev in E. lia.
    + exists snapshot, c. split; [exact Hcalc|]. split; [exact Hadv | exact Hc].
  - exists ∅. destruct (Hfinish ∅ 50) as (c & Hadv & Hc); [reflexivity ..|].
    exists c. split; [|split; [exact Hadv | exact Hc]].
    unfold Final.calculate_technical_indicators.
    rewrite (Forall2_length _ _ _ Hrows).
    apply Nat.ltb_lt in H5. rewrite H5. reflexivity.
Qed.

Lemma short_history_holds_witness :
  ∃ snapshot c,
    Final.calculate_technical_indicators five_point_history = Ok snapshot ∧
    Final.get_trading_advice "000001" (realtime_with_growth 0.3) snapshot
    = Ok (hold_advice c) ∧
    c == 0.5.
Proof.
  destruct (short_history_holds "000001" (realtime_with_growth 0.3)
              [1.05; 1.03; 1.02; 1.01; 1.00] five_point_history 0.3)
    as (snapshot & c & Hcalc & Hadv & _ & Hc).
  - repeat constructor.
  - simpl. lia.
  - vm_compute. reflexivity.
  - exists snapshot, c. split; [exact Hcalc|]. split; [exact Hadv|].
    apply Hc. vm_compute. discriminate.
Defined.

Lemma rev_sorted_cons (R : Q → Q → Prop) (a : Q) (l : list Q) :
  StronglySorted R (rev (a :: l)) →
  Forall (fun x => R x a) l ∧ StronglySorted R (rev l).
Proof.
  cbn [rev]. intros H. apply StronglySorted_app in H as (Hcross & Hl & _).
  split; [|exact Hl]. apply Forall_forall. intros x Hx.
  apply Hcross; [|left].
  apply list_elem_of_In, in_rev. rewrite rev_involutive. apply list_elem_of_In, Hx.
Qed.

(** The newest nav and the two averages of a strictly monotone series:
    [R x y] reads "[x] is older and lower than [y]" ([Qlt]) or "older and
    higher" (its converse). *)
Lemma monotone_window_chain (R : Q → Q → Prop) (navs : list Q) :
  StronglySorted R (rev navs) → (10 ≤ length navs)%nat →
  ∃ a0 a1 a2 a3 a4 a5 a6 a7 a8 a9 rest,
    navs = a0 :: a1 :: a2 :: a3 :: a4 :: a5 :: a6 :: a7 :: a8 :: a9 :: rest ∧
    R a1 a0 ∧ R a2 a1 ∧ R a3 a2 ∧ R a4 a3 ∧ R a5 a4 ∧
    R a6 a5 ∧ R a7 a6 ∧ R a8 a7 ∧ R a9 a8.
Proof.
  intros Hs Hlen.
  destruct navs as [|a0 [|a1 [|a2 [|a3 [|a4 [|a5 [|a6 [|a7 [|a8 [|a9 rest]]]]]]]]]];
    try (simpl in Hlen; lia).
  exists a0, a1, a2, a3, a4, a5, a6, a7, a8, a9, rest. split; [reflexivity|].
  repeat match goal with
         | H : StronglySorted R (rev (_ :: _)) |- _ =>
             let F := fresh "F" in
             apply rev_sorted_cons in H as [F H]; try apply Forall_inv in F
         end.
  repeat split; assumption.
Qed.

Lemma monotone_means (navs : list Q) (newest : Q) :
  (10 ≤ length navs)%nat → head navs = Some newest →
  let m5 := qsum (take 5 navs) / inject_Z (Z.of_nat 5) in
  let m10 := qsum (take 10 navs) / inject_Z (Z.of_nat 10) in
  (StronglySorted Qlt (rev navs) → m10 < m5 ∧ m5 < newest) ∧
  (StronglySorted (fun a b => b < a) (rev navs) → m5 < m10 ∧ newest < m5).
Proof.
  intros Hlen Hhead m5 m10. subst m5 m10.
  change (inject_Z (Z.of_nat 5)) with 5. change (inject_Z (Z.of_nat 10)) with 10.
  unfold Qdiv. change (/ 5) with (1 # 5). change (/ 10) with (1 # 10).
  split; intros Hs;
    destruct (monotone_window_chain _ navs Hs Hlen)
      as (a0 & a1 & a2 & a3 & a4 & a5 & a6 & a7 & a8 & a9 & rest & -> & Hc);
    injection Hhead as <-; unfold qsum; cbn [firstn fold_left];
    rewrite ?firstn_O; cbn [fold_left];
    destruct Hc as (H1 & H2 & H3 & H4 & H5 & H6 & H7 & H8 & H9); cbv beta in *;
    split; lra.
Qed.

Lemma advice_after_trend (fund_code : string) (realtime_info indicators : dict)
    (base reason0 signal reason : string) (r g : Q) :
  Final.trend_step (dict_get indicators "current_nav" (VNum 0))
                   (dict_get indicators "ma5" VNone)
                   (dict_get indicators "ma10" VNone) = Ok (base, reason0) →
  num_of (dict_get indicators "rsi" (VNum 50)) = Some r →
  num_of (dict_get realtime_info "estimate_growth" (VNum 0)) = Some g →
  Final.rsi_step (dict_get indicators "rsi" (VNum 50)) base reason0 = Ok (signal, reason) →
  ∃ adv,
    Final.get_trading_advice fund_code realtime_info indicators = Ok adv ∧
    adv !! "advice" = Some (VStr signal) ∧
    adv !! "reason" = Some (VStr reason).
Proof.
  intros Htrend Hr Hg Hstep.
  destruct (calculate_confidence_num realtime_info indicators g r Hg Hr) as (c & Hc & _).
  eexists. split; [exact (trading_advice_assemble _ _ _ _ _ _ _ c Htrend Hstep Hc)|].
  split; reflexivity.
Qed.

Lemma rsi_step_overbought (rsi : pyval) (r : Q) (reason : string) :
  num_of rsi = Some r → 70 < r →
  Final.rsi_step rsi "buy" reason = Ok ("hold", reason ++ "，但RSI超买，建议观望").
Proof.
  intros Hr Hhigh. rewrite (rsi_step_num rsi r "buy" reason Hr).
  apply Qltb_iff in Hhigh. rewrite Hhigh. reflexivity.
Qed.

Lemma rsi_step_oversold (rsi : pyval) (r : Q) (reason : string) :
  num_of rsi = Some r → r < 30 →
  Final.rsi_step rsi "sell" reason = Ok ("hold", reason ++ "，但RSI超卖，建议观望").
Proof.
  intros Hr Hlow. rewrite (rsi_step_num rsi r "sell" reason Hr).
  assert (E : Qltb 70 r = false) by (apply Qltb_false_iff; lra).
  apply Qltb_iff in Hlow. rewrite E, Hlow. reflexivity.
Qed.

(** X7. On a numeric history of at least 10 rows whose navs rise strictly
    over time the advice is "buy" up to 14 rows and, from 15 rows on,
    "hold": the momentum is then 100 and the override cancels the buy.
    Symmetrically a strictly falling history gives "sell" up to 14 rows and
    "hold" from 15 rows on. *)
Theorem persistent_trend_advice (fund_code : string) (realtime_info : dict)
    (navs : list Q) (history_data : list dict) (g : Q) :
  rows_of navs history_data → (10 ≤ length navs)%nat →
  num_of (dict_get realtime_info "estimate_growth" (VNum 0)) = Some g →
  ∃ snapshot adv,
    Final.calculate_technical_indicators history_data = Ok snapshot ∧
    Final.get_trading_advice fund_code realtime_info snapshot = Ok adv ∧
    (StronglySorted Qlt (rev navs) →
       ((length navs < 15)%nat → adv !! "advice" = Some (VStr "buy")) ∧
       ((15 ≤ length navs)%nat →
          adv !! "advice" = Some (VStr "hold") ∧
          adv !! "reason"
          = Some (VStr ("价格在短期和长期均线上方，呈上升趋势" ++ "，但RSI超买，建议观望")))) ∧
    (StronglySorted (fun a b => b < a) (rev navs) →
       ((length navs < 15)%nat → adv !! "advice" = Some (VStr "sell")) ∧
       ((15 ≤ length navs)%nat →
          adv !! "advice" = Some (VStr "hold") ∧
          adv !! "reason"
          = Some (VStr ("价格在短期和长期均线下方，呈下降趋势" ++ "，但RSI超卖，建议观望")))).
Proof.
  intros Hrows Hlen Hg.
  destruct (indicators_of_rows navs history_data Hrows)
    as (l5 & l10 & l20 & rsi & H5 & H10 & _ & _ & Hspec & Hcalc); [lia|].
  destruct (ma_slot navs 5) as (l5' & H5' & Hm5); [lia|].
  rewrite H5 in H5'. injection H5' as <-.
  destruct (ma_slot navs 10) as (l10' & H10' & Hm10); [lia|].
  rewrite H10 in H10'. injection H10' as <-.
  destruct (decide (5 ≤ length navs)%nat); [|lia].
  destruct (decide (10 ≤ length navs)%nat); [|lia].
  destruct Hm5 as (m5 & Hl5 & Hm5). destruct Hm10 as (m10 & Hl10 & Hm10).
  destruct navs as [|newest older] eqn:Hnavs; [simpl in Hlen; lia|]. rewrite <- Hnavs in *.
  assert (Hlast : last (map VNum (rev navs)) = Some (VNum newest)).
  { rewrite Hnavs. cbn [rev]. rewrite map_app. cbn [map]. apply last_snoc. }
  rewrite Hlast, Hl5, Hl10 in Hcalc. cbn [default] in Hcalc.
  match type of Hcalc with _ = Ok ?snap => set (snapshot := snap) in * end.
  destruct (monotone_means navs newest Hlen) as [Hup Hdown]; [rewrite Hnavs; reflexivity|].
  cbv zeta in Hup, Hdown. rewrite <- Hm5, <- Hm10 in Hup, Hdown.
  destruct (trend_step_num newest m5 m10) as (Hbuy & Hsell & Hhold).
  destruct (trend_step_total (VNum newest) (VNum m5) (VNum m10) newest eq_refl)
    as (base & reason0 & Htrend); [right; eexists; reflexivity ..|].
  pose proof (rsi_step_num (VNum rsi) rsi base reason0 eq_refl) as Hstep.
  match type of Hstep with _ = Ok ?p => destruct p as [signal reason] eqn:Hp end.
  destruct (advice_after_trend fund_code realtime_info snapshot base reason0 signal reason
              rsi g Htrend eq_refl Hg Hstep) as (adv & Hadv & Hsig & Hreason).
  exists snapshot, adv. split; [exact Hcalc|]. split; [exact Hadv|].
  rewrite Hsig, Hreason.
  assert (Hshort : (length navs < 15)%nat →
            Qltb 70 rsi = false ∧ Qltb rsi 30 = false).
  { intros Hn. assert (H50 : rsi == 50).
    { rewrite Hspec. unfold momentum_spec.
      destruct (length (rev navs) <? 14 + 1)%nat eqn:E; [reflexivity|].
      apply Nat.ltb_ge in E. rewrite length_rev in E. lia. }
    split; apply Qltb_false_iff; lra. }
  assert (Hlong : (15 ≤ length navs)%nat →
            (StronglySorted Qlt (rev navs) → Qltb 70 rsi = true) ∧
            (StronglySorted (fun a b => b < a) (rev navs) →
               Qltb 70 rsi = false ∧ Qltb rsi 30 = true)).
  { intros Hn.
    destruct (momentum_spec_trend 14 (rev navs)) as (Hr100 & Hr0 & _);
      [lia | rewrite length_rev; lia |].
    split; intros Hs.
    - apply Qltb_iff. rewrite Hspec, (Hr100 Hs). reflexivity.
    - split; [apply Qltb_false_iff | apply Qltb_iff];
        rewrite Hspec, (Hr0 Hs); [discriminate | reflexivity]. }
  split; intros Hs.
  - destruct (Hup Hs) as [Ha Hb]. rewrite (Hbuy Ha Hb) in Htrend.
    injection Htrend as <- <-. split; intros Hn.
    + destruct (Hshort Hn) as [E1 E2]. rewrite E1, E2 in Hp.
      injection Hp as <- _. reflexivity.
    + rewrite (proj1 (Hlong Hn) Hs) in Hp. cbn in Hp.
      injection Hp as <- <-. split; reflexivity.
  - destruct (Hdown Hs) as [Ha Hb]. rewrite (Hsell Ha Hb) in Htrend.
    injection Htrend as <- <-. split; intros Hn.
    + destruct (Hshort Hn) as [E1 E2]. rewrite E1, E2 in Hp.
      injection Hp as <- _. reflexivity.
    + destruct (proj2 (Hlong Hn) Hs) as [E1 E2]. rewrite E1, E2 in Hp. cbn in Hp.
      injection Hp as <- <-. split; reflexivity.
Qed.

Lemma persistent_trend_advice_witness :
  ∃ snapshot adv,
    Final.calculate_technical_indicators rising_history = Ok snapshot ∧
    Final.get_trading_advice "000001" (realtime_with_growth 0.3) snapshot = Ok adv ∧
    adv !! "advice" = Some (VStr "hold").
Proof.
  destruct (persistent_trend_advice "000001" (realtime_with_growth 0.3)
              rising_navs rising_history 0.3)
    as (snapshot & adv & Hcalc & Hadv & Hup & _).
  - repeat constructor.
  - simpl. lia.
  - vm_compute. reflexivity.
  - exists snapshot, adv. split; [exact Hcalc|]. split; [exact Hadv|].
    apply Hup; [|simpl; lia].
    cbn [rev rising_navs app].
    repeat (apply SSorted_cons; [|repeat constructor]). apply SSorted_nil.
Defined.

(** *** Histories that cannot be analysed *)

Lemma traverse_raise {A B} (f : A → result B) (l : list A) (E : exn) :
  (∀ x e, x ∈ l → f x = Raise e → e = E) →
  (∃ x, x ∈ l ∧ ∃ e, f x = Raise e) →
  traverse f l = Raise E.
Proof.
  induction l as [|a l IH]; intros Hall (x & Hx & e & He).
  - apply elem_of_nil in Hx. contradiction.
  - cbn [traverse]. destruct (f a) as [y|e'] eqn:Hfa; cbn [mbind result_bind].
    + rewrite IH; [reflexivity | |].
      * intros x' e' Hx'. apply Hall. right. exact Hx'.
      * apply elem_of_cons in Hx as [-> | Hx]; [congruence|]. eauto.
    + f_equal. apply (Hall a e'); [left | exact Hfa].
Qed.

Lemma traverse_values (navs : list pyval) (history_data : list dict) :
  Forall2 (fun row v => row !! "nav" = Some v) history_data navs →
  traverse (fun item => dict_item item "nav") history_data = Ok navs.
Proof.
  induction 1 as [|row v rows vs Hrow _ IH]; [reflexivity|].
  cbn [traverse]. cbv beta. unfold dict_item in IH |- *. rewrite Hrow.
  cbn [mbind result_bind]. rewrite IH. reflexivity.
Qed.

Lemma sum_from_raise (vs : list pyval) : ∀ (acc : Q),
  (∀ e, sum_from acc vs = Raise e → e = TypeError) ∧
  ((∃ v, v ∈ vs ∧ num_of v = None) → ∃ e, sum_from acc vs = Raise e).
Proof.
  induction vs as [|v vs IH]; intros acc.
  - split; [discriminate|]. intros (v & Hv & _). apply elem_of_nil in Hv. contradiction.
  - cbn [sum_from]. unfold as_number. destruct (num_of v) as [x|] eqn:Hv;
      cbn [mbind result_bind].
    + destruct (IH (acc + x)) as [Herr Hbad]. split; [exact Herr|].
      intros (v' & Hin & Hnone). apply Hbad.
      apply elem_of_cons in Hin as [-> | Hin]; [congruence | eauto].
    + split; [intros e [= <-]; reflexivity | eauto].
Qed.

Lemma calculate_ma_raises (values : list pyval) (p : nat) (v : pyval) :
  (0 < p ≤ length values)%nat → v ∈ values → num_of v = None →
  Final.calculate_ma values p = Raise TypeError.
Proof.
  intros [Hp Hlen] Hin Hnone. unfold Final.calculate_ma.
  destruct (length values <? p)%nat eqn:Hlt; [apply Nat.ltb_lt in Hlt; lia|].
  apply list_elem_of_lookup in Hin as [j Hj].
  pose proof (lookup_lt_Some _ _ _ Hj) as Hjlt.
  apply traverse_raise.
  - intros i e _. destruct (py_sum _) as [s|e'] eqn:Hsum; cbn [mbind result_bind].
    + rewrite py_div_ok by (apply window_nonzero, Hp). discriminate.
    + intros [= <-]. apply (proj1 (sum_from_raise _ 0) e' Hsum).
  - exists (Nat.min j (length values - p)). split; [apply elem_of_seq; lia|].
    destruct (proj2 (sum_from_raise (slice values (Nat.min j (length values - p))
                                       (Nat.min j (length values - p) + p)) 0))
      as [e He].
    + exists v. split; [|exact Hnone]. apply list_elem_of_lookup.
      exists (j - Nat.min j (length values - p))%nat. unfold slice.
      rewrite lookup_take_lt by lia. rewrite lookup_drop. rewrite <- Hj. f_equal. lia.
    + exists e. unfold py_sum. rewrite He. reflexivity.
Qed.

(** X8. A history of at least 5 rows cannot be analysed when a row has no
    nav, which raises [KeyError], or when every row has one and one of
    them is not a number, which raises [TypeError]. *)
Theorem unusable_history_raises (history_data : list dict) :
  (5 ≤ length history_data)%nat →
  ((∃ row, row ∈ history_data ∧ row !! "nav" = None) →
     Final.calculate_technical_indicators history_data = Raise (KeyError "nav")) ∧
  (∀ navs,
     Forall2 (fun row v => row !! "nav" = Some v) history_data navs →
     (∃ v, v ∈ navs ∧ num_of v = None) →
     Final.calculate_technical_indicators history_data = Raise TypeError).
Proof.
  intros Hlen. unfold Final.calculate_technical_indicators.
  destruct (length history_data <? 5)%nat eqn:Hlt; [apply Nat.ltb_lt in Hlt; lia|].
  split.
  - intros (row & Hin & Hnone).
    rewrite (traverse_raise _ history_data (KeyError "nav")); [reflexivity | |].
    + intros x e _. unfold dict_item. destruct (x !! "nav"); [discriminate|].
      intros [= <-]. reflexivity.
    + exists row. split; [exact Hin|]. unfold dict_item. rewrite Hnone. eauto.
  - intros navs Hrows (v & Hin & Hnone).
    rewrite (traverse_values navs history_data Hrows). cbn [mbind result_bind].
    rewrite (calculate_ma_raises (rev navs) 5 v); [reflexivity | | | exact Hnone].
    + rewrite length_rev, <- (Forall2_length _ _ _ Hrows). lia.
    + apply list_elem_of_In, in_rev. rewrite rev_involutive.
      apply list_elem_of_In, Hin.
Qed.

Lemma unusable_history_raises_witness :
  Final.calculate_technical_indicators null_nav_history = Raise TypeError.
Proof.
  destruct (unusable_history_raises null_nav_history) as [_ Hraise].
  - simpl. lia.
  - apply (Hraise [VNum 1.05; VNum 1.03; VNone; VNum 1.01; VNum 1.00]).
    + repeat constructor.
    + exists VNone. split; [|reflexivity]. do 2 right. left.
Defined.

(** *** The reports of the final system *)

Lemma traverse_error {A B} (f : A → result B) (l : list A) (e : exn) :
  traverse f l = Raise e → ∃ x, x ∈ l ∧ f x = Raise e.
Proof.
  induction l as [|a l IH]; [discriminate|].
  cbn [traverse]. destruct (f a) as [y|e'] eqn:Hfa; cbn [mbind result_bind].
  - destruct (traverse f l) as [ys|e'] eqn:Htl; [discriminate|].
    cbn [mbind result_bind]. intros [= <-].
    destruct (IH eq_refl) as (x & Hx & He). exists x. split; [right; exact Hx | exact He].
  - intros [= <-]. exists a. split; [left | exact Hfa].
Qed.

Lemma calculate_ma_error (values : list pyval) (p : nat) (e : exn) :
  (0 < p)%nat → Final.calculate_ma values p = Raise e → e = TypeError.
Proof.
  intros Hp. unfold Final.calculate_ma.
  destruct (length values <? p)%nat; [discriminate|].
  intros H. apply traverse_error in H as (i & _ & Hi).
  destruct (py_sum _) as [s|e'] eqn:Hsum; cbn [mbind result_bind] in Hi.
  - rewrite py_div_ok in Hi by (apply window_nonzero, Hp). discriminate Hi.
  - injection Hi as <-. apply (proj1 (sum_from_raise _ 0) e' Hsum).
Qed.

Lemma numbers_of_values (values : list pyval) :
  Forall (fun v => is_Some (num_of v)) values →
  ∃ navs, Forall2 (fun v q => num_of v = Some q) values navs.
Proof.
  induction 1 as [|v vs [q Hq] _ [qs IH]]; [exists []; constructor|].
  exists (q :: qs). constructor; assumption.
Qed.

Lemma gain_loss_loop_numbers (rest : list pyval) (qs : list Q) :
  Forall2 (fun v q => num_of v = Some q) rest qs →
  ∀ prev a gains losses, num_of prev = Some a →
    Final.gain_loss_loop prev rest gains losses
    = Final.gain_loss_loop (VNum a) (map VNum qs) gains losses.
Proof.
  induction 1 as [|v q vs qs Hv _ IH]; intros prev a gains losses Hprev; [reflexivity|].
  cbn [map Final.gain_loss_loop]. unfold py_sub, as_number. rewrite Hv, Hprev.
  cbn [num_of mbind result_bind].
  destruct (Qltb 0 (q - a)); apply IH; exact Hv.
Qed.

Lemma calculate_rsi_numbers (values : list pyval) (navs : list Q) (p : nat) :
  Forall2 (fun v q => num_of v = Some q) values navs →
  Final.calculate_rsi values p = Final.calculate_rsi (map VNum navs) p.
Proof.
  intros H. unfold Final.calculate_rsi.
  rewrite length_map, (Forall2_length _ _ _ H).
  destruct (length navs <? p + 1)%nat; [reflexivity|].
  destruct H as [|v q vs qs Hv Hrest]; [reflexivity|].
  cbn [map]. rewrite (gain_loss_loop_numbers vs qs Hrest v q [] [] Hv). reflexivity.
Qed.

Lemma calculate_rsi_no_error (values : list pyval) :
  Forall (fun v => is_Some (num_of v)) values →
  ∃ rsi, Final.calculate_rsi values 14 = Ok rsi.
Proof.
  intros H. destruct (numbers_of_values values H) as [navs Hnavs].
  rewrite (calculate_rsi_numbers values navs 14 Hnavs).
  destruct (calculate_rsi_num navs 14) as (rsi & Hrsi & _); [lia | eauto].
Qed.

Lemma all_numeric_or_bad (values : list pyval) :
  Forall (fun v => is_Some (num_of v)) values ∨ ∃ v, v ∈ values ∧ num_of v = None.
Proof.
  induction values as [|v vs IH]; [left; constructor|].
  destruct (num_of v) as [q|] eqn:Hv.
  - destruct IH as [IH | (v' & Hin & Hnone)].
    + left. constructor; [rewrite Hv; eauto | exact IH].
    + right. exists v'. split; [right; exact Hin | exact Hnone].
  - right. exists v. split; [left | exact Hv].
Qed.

(** The only exception of the indicator computation on rows that all have
    a nav is [TypeError]. *)
Lemma indicators_error (history_data : list dict) (e : exn) :
  Forall (fun row => is_Some (row !! "nav")) history_data →
  Final.calculate_technical_indicators history_data = Raise e → e = TypeError.
Proof.
  intros Hrows. unfold Final.calculate_technical_indicators.
  destruct (length history_data <? 5)%nat eqn:Hlt; [discriminate|].
  apply Nat.ltb_ge in Hlt.
  assert (Hnavs : ∃ navs, Forall2 (fun row v => row !! "nav" = Some v) history_data navs).
  { clear Hlt. induction Hrows as [|row rows [v Hv] _ [vs IH]]; [exists []; constructor|].
    exists (v :: vs). constructor; assumption. }
  destruct Hnavs as [navs Hnavs].
  rewrite (traverse_values navs history_data Hnavs). cbn [mbind result_bind].
  destruct (Final.calculate_ma (rev navs) 5) as [l5|e5] eqn:H5; cbn [mbind result_bind];
    [|intros [= <-]; apply (calculate_ma_error (rev navs) 5 e5); [lia | exact H5]].
  destruct (Final.calculate_ma (rev navs) 10) as [l10|e10] eqn:H10;
    cbn [mbind result_bind];
    [|intros [= <-]; apply (calculate_ma_error (rev navs) 10 e10); [lia | exact H10]].
  destruct (Final.calculate_ma (rev navs) 20) as [l20|e20] eqn:H20;
    cbn [mbind result_bind];
    [|intros [= <-]; apply (calculate_ma_error (rev navs) 20 e20); [lia | exact H20]].
  destruct (all_numeric_or_bad (rev navs)) as [Hnum | (v & Hin & Hnone)].
  - destruct (calculate_rsi_no_error (rev navs) Hnum) as [rsi ->]. discriminate.
  - rewrite (calculate_ma_raises (rev navs) 5 v) in H5; [discriminate H5 | | exact Hin | exact Hnone].
    rewrite length_rev, <- (Forall2_length _ _ _ Hnavs). lia.
Qed.

Lemma history_rows_have_nav (L : library) (w : env) (fund_code : string) (days : nat)
    (history_data : list dict) :
  Final.get_fund_history_nav L w fund_code days = Ok history_data →
  Forall (fun row => is_Some (row !! "nav") ∧ is_Some (row !! "date")) history_data.
Proof.
  unfold Final.get_fund_history_nav.
  destruct (session_get w _) as [resp|e]; cbn [mbind result_bind try_except];
    [|intros [= <-]; constructor].
  destruct (status_code resp =? 200)%Z; cbn [try_except]; [|intros [= <-]; constructor].
  destruct (nav_history L _ _ _) as [rows|]; cbn [try_except];
    intros [= <-]; [|constructor].
  induction rows as [|[d v] rows IH]; cbn [map]; constructor; [|exact IH].
  split; eexists; reflexivity.
Qed.

(** X9. The report of [analyze_fund] never carries an exception other than
    [TypeError]: an error marker is the no-data message or a [TypeError]
    raised on a nav that is not a number. *)
Theorem analyze_fund_error_kinds (L : library) (w : env) (fund_code : string) :
  ∃ r,
    Final.analyze_fund L w fund_code = Ok r ∧
    ∀ err t, r = Final.Error err t →
      t = now_iso w ∧
      (err = Final.NoData fund_code ∨ err = Final.OfException TypeError).
Proof.
  unfold Final.analyze_fund.
  destruct (realtime_info_total L w fund_code) as [info Hinfo]. rewrite Hinfo.
  destruct (realtime_info_shape L w fund_code info Hinfo) as [[name Hname] _].
  cbn [mbind result_bind]. unfold dict_item. rewrite Hname. cbn [mbind result_bind].
  destruct (negb (truthy name)); cbn [try_except].
  { eexists. split; [reflexivity|]. intros err t [= <- <-]. auto. }
  destruct (history_total L w fund_code 180) as [history_data Hhist]. rewrite Hhist.
  cbn [mbind result_bind].
  destruct (Final.calculate_technical_indicators history_data) as [ind|e] eqn:Hind;
    cbn [mbind result_bind try_except].
  - destruct (advice_total_on_engine_outputs L w fund_code info history_data ind Hinfo Hind)
      as [adv Hadv].
    rewrite Hadv. cbn [mbind result_bind try_except].
    eexists. split; [reflexivity|]. intros err t H. discriminate H.
  - eexists. split; [reflexivity|]. intros err t [= <- <-]. split; [reflexivity|].
    right. f_equal. apply (indicators_error history_data e); [|exact Hind].
    eapply Forall_impl; [exact (history_rows_have_nav L w fund_code 180 _ Hhist)|].
    intros row [H _]. exact H.
Qed.

Lemma classic_fetch (L : library) (w : env) (fund_code : string) :
  realtime_fetch_fails L w fund_code ∨
  ∃ resp data nav ev eg,
    session_get w (realtime_url fund_code) = Ok resp ∧
    (status_code resp =? 200)%Z = true ∧
    _parse_jsonp L (text resp) = Ok data ∧
    is_Some (data !! "fundcode") ∧
    py_float L (dict_get data "dwjz" (VNum 0)) = Ok nav ∧
    py_float L (dict_get data "gsz" (VNum 0)) = Ok ev ∧
    py_float L (dict_get data "gszzl" (VNum 0)) = Ok eg.
Proof.
  unfold realtime_fetch_fails.
  destruct (session_get w (realtime_url fund_code)) as [resp|e]; [|left; exact I].
  destruct (Z.eqb_spec (status_code resp) 200) as [Hs|Hs]; [|left; left; exact Hs].
  assert (Hparse : ∃ data, _parse_jsonp L (text resp) = Ok data).
  { unfold _parse_jsonp. apply try_except_total. intros e. eexists. reflexivity. }
  destruct Hparse as [data Hparse].
  destruct (data !! "fundcode") as [code|] eqn:Hcode;
    [|left; right; exists data; split; [exact Hparse | left; exact Hcode]].
  destruct (py_float L (dict_get data "dwjz" (VNum 0))) as [nav|e] eqn:Hnav;
    [|left; right; exists data; split; [exact Hparse | right; left; eauto]].
  destruct (py_float L (dict_get data "gsz" (VNum 0))) as [ev|e] eqn:Hev;
    [|left; right; exists data; split; [exact Hparse | right; right; left; eauto]].
  destruct (py_float L (dict_get data "gszzl" (VNum 0))) as [eg|e] eqn:Heg;
    [|left; right; exists data; split; [exact Hparse | right; right; right; eauto]].
  right. exists resp, data, nav, ev, eg.
  split; [reflexivity|]. split; [apply Z.eqb_eq, Hs|]. split; [exact Hparse|].
  split; [eauto|]. auto.
Qed.

(** X10. [get_fund_realtime_info] of the final system never raises and
    always returns the same eight entries, whose nav, estimate value and
    estimate growth are numbers; when the fetch fails the entries are the
    placeholders, with an empty name. *)
Theorem realtime_info_well_formed (L : library) (w : env) (fund_code : string) :
  ∃ info nav estimate_value estimate_growth,
    Final.get_fund_realtime_info L w fund_code = Ok info ∧
    dom info = {[ "fund_code"; "name"; "nav_date"; "nav"; "estimate_value";
                  "estimate_growth"; "estimate_time"; "last_update" ]} ∧
    info !! "nav" = Some (VNum nav) ∧
    info !! "estimate_value" = Some (VNum estimate_value) ∧
    info !! "estimate_growth" = Some (VNum estimate_growth) ∧
    info !! "last_update" = Some (VStr (now_iso w)) ∧
    (realtime_fetch_fails L w fund_code → info = no_data_info w fund_code).
Proof.
  assert (Hdefault : ∃ info nav estimate_value estimate_growth,
            Ok (no_data_info w fund_code) = Ok info ∧
            dom info = {[ "fund_code"; "name"; "nav_date"; "nav"; "estimate_value";
                          "estimate_growth"; "estimate_time"; "last_update" ]} ∧
            info !! "nav" = Some (VNum nav) ∧
            info !! "estimate_value" = Some (VNum estimate_value) ∧
            info !! "estimate_growth" = Some (VNum estimate_growth) ∧
            info !! "last_update" = Some (VStr (now_iso w)) ∧
            (realtime_fetch_fails L w fund_code → info = no_data_info w fund_code)).
  { exists (no_data_info w fund_code), 0, 0, 0. split; [reflexivity|].
    split; [unfold no_data_info; rewrite !dom_insert_L, dom_empty_L; set_solver|].
    repeat split. }
  destruct (classic_fetch L w fund_code) as [Hfail | Hok].
  - rewrite (realtime_failure_no_data L w fund_code Hfail). exact Hdefault.
  - destruct Hok as (resp & data & nav & ev & eg & Hget & Hstatus & Hparse & Hcode
                     & Hnav & Hev & Heg).
    unfold Final.get_fund_realtime_info. rewrite Hget. cbn [mbind result_bind].
    rewrite Hstatus, Hparse. cbn [mbind result_bind].
    assert (Hcond : dict_truthy data && dict_has data "fundcode" = true).
    { apply andb_true_iff. split; apply bool_decide_eq_true; [|exact Hcode].
      intros ->. destruct Hcode as [? Hc]. rewrite lookup_empty in Hc. discriminate Hc. }
    rewrite Hcond, Hnav, Hev, Heg. cbn [mbind result_bind try_except].
    eexists. exists nav, ev, eg. split; [reflexivity|].
    split; [rewrite !dom_insert_L, dom_empty_L; set_solver|].
    repeat split.
    intros Hfail. exfalso. unfold realtime_fetch_fails in Hfail. rewrite Hget in Hfail.
    destruct Hfail as [Hbad | (data' & Hparse' & Hdata)].
    + apply Z.eqb_eq in Hstatus. contradiction.
    + rewrite Hparse in Hparse'. injection Hparse' as <-.
      destruct Hdata as [Hnone | [[e He] | [[e He] | [e He]]]];
        [destruct Hcode as [? Hc]; congruence | congruence ..].
Qed.

Lemma analyze_fund_error_kinds_witness :
  Final.analyze_fund sample_library (offline_env 1000) "000001"
  = Ok (Final.Error (Final.NoData "000001") "2024-01-05T15:00:00").
Proof.
  destruct (analyze_fund_error_kinds sample_library (offline_env 1000) "000001")
    as (r & Hr & Hkinds).
  rewrite Hr. f_equal.
  assert (Hshape : ∃ err t, r = Final.Error err t).
  { assert (E : Final.analyze_fund sample_library (offline_env 1000) "000001"
                = Ok (Final.Error (Final.NoData "000001") "2024-01-05T15:00:00"))
      by (vm_compute; reflexivity).
    rewrite E in Hr. injection Hr as <-. eauto. }
  destruct Hshape as (err & t & ->).
  destruct (Hkinds err t eq_refl) as [-> [-> | ->]]; [reflexivity|].
  assert (E : Final.analyze_fund sample_library (offline_env 1000) "000001"
              = Ok (Final.Error (Final.NoData "000001") "2024-01-05T15:00:00"))
    by (vm_compute; reflexivity).
  rewrite E in Hr. discriminate Hr.
Defined.

Lemma realtime_info_well_formed_witness :
  Final.get_fund_realtime_info sample_library (offline_env 1000) "000001"
  = Ok (no_data_info (offline_env 1000) "000001").
Proof.
  destruct (realtime_info_well_formed sample_library (offline_env 1000) "000001")
    as (info & nav & ev & eg & Hget & _ & _ & _ & _ & _ & Hfail).
  rewrite Hget. f_equal. apply Hfail. exact I.
Defined.

(** *** The cache of the simple system *)

Lemma lookup_outcome (L : library) (w : env) (fund_code : string) (s : Simple.state) :
  (∃ cached timestamp,
     Simple.fund_cache s !! ("realtime_" ++ fund_code) = Some (cached, timestamp) ∧
     time_time w - timestamp < Simple.cache_timeout ∧
     Simple.get_fund_realtime_info L w fund_code s = (Ok cached, s)) ∨
  (¬ cache_fresh w s ("realtime_" ++ fund_code) ∧
   ∃ data,
     Simple.fetch L w (realtime_url fund_code) = Ok data ∧
     Simple.get_fund_realtime_info L w fund_code s
     = (Ok data,
        {| Simple.fund_cache :=
             <["realtime_" ++ fund_code := (data, time_time w)]> (Simple.fund_cache s);
           Simple.requests := (Simple.requests s ++ [realtime_url fund_code])%list |})) ∨
  (¬ cache_fresh w s ("realtime_" ++ fund_code) ∧
   ∃ e,
     Simple.fetch L w (realtime_url fund_code) = Raise e ∧
     Simple.get_fund_realtime_info L w fund_code s
     = (Ok ∅,
        {| Simple.fund_cache := Simple.fund_cache s;
           Simple.requests := (Simple.requests s ++ [realtime_url fund_code])%list |})).
Proof.
  destruct (Simple.fund_cache s !! ("realtime_" ++ fund_code)) as [[cached ts]|] eqn:Hlook.
  - destruct (Qlt_le_dec (time_time w - ts) Simple.cache_timeout) as [Hage|Hage].
    + left. exists cached, ts. split; [reflexivity|]. split; [exact Hage|].
      exact (cache_hit L w fund_code s cached ts Hlook Hage).
    + assert (Hstale : ¬ cache_fresh w s ("realtime_" ++ fund_code)).
      { intros (c & t & Hl & Hlt). rewrite Hlook in Hl. injection Hl as _ <-.
        apply Qle_not_lt in Hage. contradiction. }
      pose proof (cache_miss L w fund_code s Hstale) as Hcall. cbv zeta in Hcall.
      right. destruct (Simple.fetch L w (realtime_url fund_code)) as [data|e];
        [left | right]; (split; [exact Hstale|]); eexists; (split; [reflexivity|]);
        exact Hcall.
  - assert (Hstale : ¬ cache_fresh w s ("realtime_" ++ fund_code)).
    { intros (c & t & Hl & _). rewrite Hlook in Hl. discriminate Hl. }
    pose proof (cache_miss L w fund_code s Hstale) as Hcall. cbv zeta in Hcall.
    right. destruct (Simple.fetch L w (realtime_url fund_code)) as [data|e];
      [left | right]; (split; [exact Hstale|]); eexists; (split; [reflexivity|]);
      exact Hcall.
Qed.

(** X11. A lookup of the simple system never raises, touches no cache
    entry of another fund, makes at most one request, and never serves a
    payload older than the time-to-live: what it returns is empty or is the
    entry the cache now holds for the fund, whose age is below the
    time-to-live. *)
Theorem lookup_frame (L : library) (w : env) (fund_code : string) (s : Simple.state) :
  ∃ data s',
    Simple.get_fund_realtime_info L w fund_code s = (Ok data, s') ∧
    (∀ key, key ≠ "realtime_" ++ fund_code →
       Simple.fund_cache s' !! key = Simple.fund_cache s !! key) ∧
    (Simple.requests s' = Simple.requests s ∨
     Simple.requests s' = (Simple.requests s ++ [realtime_url fund_code])%list) ∧
    (data = ∅ ∨
     ∃ timestamp,
       Simple.fund_cache s' !! ("realtime_" ++ fund_code) = Some (data, timestamp) ∧
       time_time w - timestamp < Simple.cache_timeout).
Proof.
  destruct (lookup_outcome L w fund_code s)
    as [(cached & ts & Hlook & Hage & Hcall)
       | [(Hstale & data & Hfetch & Hcall) | (Hstale & e & Hfetch & Hcall)]].
  - exists cached, s. split; [exact Hcall|]. split; [reflexivity|].
    split; [left; reflexivity|]. right. exists ts. split; assumption.
  - eexists. eexists. split; [exact Hcall|]. cbn [Simple.fund_cache Simple.requests].
    split; [intros key Hkey; apply lookup_insert_ne; congruence|].
    split; [right; reflexivity|]. right. exists (time_time w).
    split; [apply lookup_insert_eq|].
    unfold Simple.cache_timeout. assert (time_time w - time_time w == 0) by ring.
    lra.
  - eexists. eexists. split; [exact Hcall|]. cbn [Simple.fund_cache Simple.requests].
    split; [reflexivity|]. split; [right; reflexivity | left; reflexivity].
Qed.

Lemma convert_field_converted (L : library) (key : string) (data data' : dict) :
  Simple.convert_field L key data = Ok data' →
  (∀ v, data' !! key = Some v → ∃ q, v = VNum q) ∧
  (∀ k, k ≠ key → data' !! k = data !! k).
Proof.
  unfold Simple.convert_field. destruct (data !! key) as [v|] eqn:Hv.
  - destruct (py_float L v) as [x|e]; [|discriminate]. cbn [mbind result_bind].
    intros [= <-]. split.
    + intros v'. rewrite lookup_insert_eq. intros [= <-]. eauto.
    + intros k Hk. apply lookup_insert_ne. congruence.
  - intros [= <-]. split; [|reflexivity]. intros v'. rewrite Hv. discriminate.
Qed.

Lemma fetch_converted (L : library) (w : env) (url : string) (data : dict) :
  Simple.fetch L w url = Ok data → converted data.
Proof.
  unfold Simple.fetch.
  destruct (session_get w url) as [resp|e]; [|discriminate]. cbn [mbind result_bind].
  destruct (Simple.raise_for_status resp) as [[]|e]; [|discriminate].
  cbn [mbind result_bind].
  destruct (_parse_jsonp L (text resp)) as [d0|e]; [|discriminate].
  cbn [mbind result_bind].
  destruct (Simple.convert_field L "gszzl" d0) as [d1|e] eqn:H1; [|discriminate].
  cbn [mbind result_bind]. intros H2.
  destruct (convert_field_converted L "gszzl" d0 d1 H1) as [Hg _].
  destruct (convert_field_converted L "dwjz" d1 data H2) as [Hd Hsame].
  split; [|exact Hd]. intros v. rewrite Hsame by discriminate. apply Hg.
Qed.

Lemma empty_converted : converted ∅.
Proof. split; intros v H; rewrite lookup_empty in H; discriminate H. Qed.

Lemma lookup_converted (L : library) (w : env) (fund_code : string) (s : Simple.state) :
  cache_converted s →
  ∃ data s',
    Simple.get_fund_realtime_info L w fund_code s = (Ok data, s') ∧
    converted data ∧ cache_converted s' ∧
    (length (Simple.requests s') ≤ S (length (Simple.requests s)))%nat.
Proof.
  intros Hinv.
  destruct (lookup_outcome L w fund_code s)
    as [(cached & ts & Hlook & Hage & Hcall)
       | [(Hstale & data & Hfetch & Hcall) | (Hstale & e & Hfetch & Hcall)]].
  - exists cached, s. split; [exact Hcall|]. split; [exact (Hinv _ _ _ Hlook)|].
    split; [exact Hinv | lia].
  - pose proof (fetch_converted L w _ data Hfetch) as Hdata.
    eexists. eexists. split; [exact Hcall|]. split; [exact Hdata|]. split.
    + intros key d t. cbn [Simple.fund_cache].
      destruct (decide ("realtime_" ++ fund_code = key)) as [<-|Hne].
      * rewrite lookup_insert_eq. intros [= <- _]. exact Hdata.
      * rewrite lookup_insert_ne by exact Hne. apply Hinv.
    + cbn [Simple.requests]. rewrite length_app. cbn [length]. lia.
  - eexists. eexists. split; [exact Hcall|]. split; [exact empty_converted|]. split.
    + exact Hinv.
    + cbn [Simple.requests]. rewrite length_app. cbn [length]. lia.
Qed.

Lemma growth_of_converted (data : dict) :
  converted data → ∃ g, dict_get data "gszzl" (VNum 0) = VNum g.
Proof.
  intros [Hg _]. unfold dict_get. destruct (data !! "gszzl") as [v|] eqn:Hv.
  - destruct (Hg v eq_refl) as [q ->]. exists q. reflexivity.
  - exists 0. reflexivity.
Qed.

(** The entry that the growth-only decision builds from a payload *)
Lemma simple_entry (L : library) (w : env) (fund_code : string) (s s' : Simple.state)
    (data : dict) (g : Q) :
  Simple.get_fund_realtime_info L w fund_code s = (Ok data, s') →
  data ≠ ∅ → dict_get data "gszzl" (VNum 0) = VNum g →
  ∃ advice reason,
    simple_signal advice ∧
    Simple.calculate_technical_indicators L w fund_code s
    = (Ok (<["advice" := VStr advice]>
          (<["reason" := VStr reason]>
          (<["growth_rate" := VNum g]>
          (<["fund_name" := dict_get data "name" (VStr fund_code)]>
          (<["current_value" := dict_get data "gsz" (VStr "N/A")]>
          (<["last_nav" := dict_get data "dwjz" (VStr "N/A")]>
          (<["update_time" := dict_get data "gztime" (VStr "N/A")]> ∅))))))), s').
Proof.
  intros Hget Hne Hg. unfold Simple.calculate_technical_indicators. rewrite Hget.
  cbn [mbind result_bind].
  assert (Htruthy : dict_truthy data = true) by (apply bool_decide_eq_true; exact Hne).
  rewrite Htruthy, Hg. cbn [negb].
  unfold py_gt, py_lt, as_number. cbn [num_of mbind result_bind].
  unfold simple_signal.
  destruct (Qltb 1.0 g); cbn [mbind result_bind]; [eauto 10|].
  destruct (Qltb g (-1.0)); cbn [mbind result_bind]; [eauto 10|].
  destruct (Qltb 0.5 g); cbn [mbind result_bind]; [eauto 10|].
  destruct (Qltb g (-0.5)); cbn [mbind result_bind]; eauto 10.
Qed.

(** X12. Started on a cache that holds converted payloads only (the empty
    cache is one), the growth-only analysis of the simple system never
    raises and keeps the cache so; its result is the error entry or an
    entry of seven keys whose advice is one of the four signals and whose
    growth rate is a number. *)
Theorem simple_analysis_total (L : library) (w : env) (fund_code : string)
    (s : Simple.state) :
  cache_converted s →
  ∃ out s',
    Simple.calculate_technical_indicators L w fund_code s = (Ok out, s') ∧
    cache_converted s' ∧
    (out = {[ "error" := VStr "无法获取基金数据" ]} ∨
     (dom out = {[ "advice"; "reason"; "growth_rate"; "fund_name"; "current_value";
                   "last_nav"; "update_time" ]} ∧
      ∃ advice g,
        out !! "advice" = Some (VStr advice) ∧ simple_signal advice ∧
        out !! "growth_rate" = Some (VNum g))).
Proof.
  intros Hinv.
  destruct (lookup_converted L w fund_code s Hinv) as (data & s' & Hget & Hdata & Hinv' & _).
  destruct (decide (data = ∅)) as [-> | Hne].
  - exists {[ "error" := VStr "无法获取基金数据" ]}, s'. split; [|split; [exact Hinv'|left; reflexivity]].
    unfold Simple.calculate_technical_indicators. rewrite Hget.
    cbn [mbind result_bind].
    assert (Hempty : dict_truthy ∅ = false).
    { apply bool_decide_eq_false. intros H. apply H. reflexivity. }
    rewrite Hempty. reflexivity.
  - destruct (growth_of_converted data Hdata) as [g Hg].
    destruct (simple_entry L w fund_code s s' data g Hget Hne Hg)
      as (advice & reason & Hsig & Hcalc).
    eexists. exists s'. split; [exact Hcalc|]. split; [exact Hinv'|]. right.
    split; [rewrite !dom_insert_L, dom_empty_L; set_solver|].
    exists advice, g. repeat split; [exact Hsig].
Qed.

Lemma empty_cache_converted : cache_converted empty_state.
Proof. intros key data ts H. cbn in H. rewrite lookup_empty in H. discriminate H. Qed.

Lemma simple_analysis_total_witness :
  ∃ out s',
    Simple.calculate_technical_indicators sample_library (offline_env 1000) "000001"
      empty_state = (Ok out, s') ∧
    cache_converted s'.
Proof.
  destruct (simple_analysis_total sample_library (offline_env 1000) "000001" empty_state
              empty_cache_converted) as (out & s' & Hcalc & Hinv & _).
  exists out, s'. split; assumption.
Defined.

(** *** The batch of the simple system *)

Lemma simple_analysis_total_aux (L : library) (w : env) (fund_code : string)
    (s : Simple.state) :
  cache_converted s →
  ∃ out s',
    Simple.calculate_technical_indicators L w fund_code s = (Ok out, s') ∧
    cache_converted s' ∧
    s' = snd (Simple.get_fund_realtime_info L w fund_code s).
Proof.
  intros Hinv.
  destruct (lookup_converted L w fund_code s Hinv) as (data & s' & Hget & Hdata & Hinv' & _).
  rewrite Hget. cbn [snd].
  destruct (decide (data = ∅)) as [-> | Hne].
  - eexists. exists s'. split; [|split; [exact Hinv' | reflexivity]].
    unfold Simple.calculate_technical_indicators. rewrite Hget.
    cbn [mbind result_bind].
    assert (Hempty : dict_truthy ∅ = false).
    { apply bool_decide_eq_false. intros H. apply H. reflexivity. }
    rewrite Hempty. reflexivity.
  - destruct (growth_of_converted data Hdata) as [g Hg].
    destruct (simple_entry L w fund_code s s' data g Hget Hne Hg)
      as (advice & reason & Hsig & Hcalc).
    eexists. exists s'. split; [exact Hcalc|]. split; [exact Hinv' | reflexivity].
Qed.



Lemma odict_set_keys {A} (k : string) (v : A) (d : list (string * A)) :
  (k ∈ map fst d → map fst (odict_set k v d) = map fst d) ∧
  (k ∉ map fst d → map fst (odict_set k v d) = (map fst d ++ [k])%list).
Proof.
  induction d as [|[k' v'] d [IHin IHout]]; cbn [odict_set map fst app].
  - split; [intros H; apply elem_of_nil in H; contradiction | reflexivity].
  - destruct (String.eqb_spec k' k) as [-> | Hne]; cbn [map fst].
    + split; [reflexivity|]. intros H. exfalso. apply H. left.
    + split.
      * intros H. apply elem_of_cons in H as [-> | H]; [contradiction|].
        rewrite (IHin H). reflexivity.
      * intros H. apply not_elem_of_cons in H as [_ H]. rewrite (IHout H). reflexivity.
Qed.

Lemma odict_set_NoDup {A} (k : string) (v : A) (d : list (string * A)) :
  NoDup (map fst d) →
  NoDup (map fst (odict_set k v d)) ∧
  (∀ c, c ∈ map fst (odict_set k v d) ↔ c = k ∨ c ∈ map fst d).
Proof.
  intros Hnd. destruct (odict_set_keys k v d) as [Hin Hout].
  destruct (decide (k ∈ map fst d)) as [H | H].
  - rewrite (Hin H). split; [exact Hnd|]. intros c. split; [auto|].
    intros [-> | Hc]; assumption.
  - rewrite (Hout H). split.
    + apply NoDup_app. split; [exact Hnd|]. split; [|apply NoDup_singleton].
      intros x Hx Hk. apply list_elem_of_singleton in Hk as ->. contradiction.
    + intros c. rewrite elem_of_app, list_elem_of_singleton. tauto.
Qed.

Lemma simple_loop_spec (L : library) (world : nat → env) (fund_codes : list string) :
  ∀ (i : nat) (results : list (string * dict)) (s : Simple.state),
  cache_converted s → NoDup (map fst results) →
  ∃ results' s',
    Simple.analyze_loop L world i fund_codes results s = (Ok results', s') ∧
    cache_converted s' ∧
    NoDup (map fst results') ∧
    (∀ c, c ∈ map fst results' ↔ c ∈ fund_codes ∨ c ∈ map fst results) ∧
    (length (Simple.requests s') ≤ length (Simple.requests s) + length fund_codes)%nat.
Proof.
  induction fund_codes as [|c0 rest IH]; intros i results s Hinv Hnd.
  - exists results, s. split; [reflexivity|]. split; [exact Hinv|]. split; [exact Hnd|].
    split; [|cbn [length]; lia]. intros c. rewrite elem_of_nil. tauto.
  - destruct (lookup_converted L (world i) c0 s Hinv) as (data & s1 & Hget & _ & _ & Hreq).
    destruct (simple_analysis_total_aux L (world i) c0 s Hinv) as (out & s1' & Hcalc & Hinv1 & Hsame).
    destruct (odict_set_NoDup c0 out results Hnd) as [Hnd1 Hkeys].
    destruct (IH (S i) (odict_set c0 out results) s1' Hinv1 Hnd1)
      as (results' & s' & Hloop & Hinv' & Hnd' & Hdom & Hlen).
    exists results', s'. split; [|split; [exact Hinv'|split; [exact Hnd'|split]]].
    + cbn [Simple.analyze_loop]. rewrite Hcalc. exact Hloop.
    + intros c. rewrite Hdom, Hkeys, elem_of_cons. tauto.
    + cbn [length]. rewrite Hget in Hsame. cbn [snd] in Hsame. subst s1'. lia.
Qed.

(** X13. Started on a cache of converted payloads, the batch of the simple
    system never raises: it returns one entry per distinct fund code of the
    batch and makes at most one request per code in the batch. *)
Theorem simple_batch (L : library) (world : nat → env) (fund_codes : list string)
    (s : Simple.state) :
  cache_converted s →
  ∃ results s',
    Simple.analyze_multiple_funds L world fund_codes s = (Ok results, s') ∧
    cache_converted s' ∧
    NoDup (map fst results) ∧
    (∀ c, c ∈ map fst results ↔ c ∈ fund_codes) ∧
    (length (Simple.requests s') ≤ length (Simple.requests s) + length fund_codes)%nat.
Proof.
  intros Hinv.
  destruct (simple_loop_spec L world fund_codes 0 [] s Hinv NoDup_nil_2)
    as (results & s' & Hloop & Hinv' & Hnd & Hdom & Hlen).
  exists results, s'. split; [exact Hloop|]. split; [exact Hinv'|]. split; [exact Hnd|].
  split; [|exact Hlen]. intros c. rewrite Hdom. cbn [map]. rewrite elem_of_nil. tauto.
Qed.

Lemma simple_batch_witness :
  ∃ results s',
    Simple.analyze_multiple_funds sample_library (fun _ => sample_env 1000)
      [ "000001"; "519697"; "000001" ] empty_state = (Ok results, s') ∧
    NoDup (map fst results) ∧
    (length (Simple.requests s') ≤ 3)%nat.
Proof.
  destruct (simple_batch sample_library (fun _ => sample_env 1000)
              [ "000001"; "519697"; "000001" ] empty_state empty_cache_converted)
    as (results & s' & Hrun & _ & Hnd & _ & Hlen).
  exists results, s'. split; [exact Hrun|]. split; [exact Hnd | exact Hlen].
Defined.

(** X14. A page without a JSON object is cached as an empty payload: until
    the time-to-live has passed, later lookups of the fund return the empty
    payload from the cache without a request, whatever the network would
    answer, and the analysis of the fund reports the error entry. *)
Theorem empty_payload_is_served_from_cache (L : library) (w1 w2 : env)
    (fund_code : string) (s : Simple.state) (resp : response) :
  ¬ cache_fresh w1 s ("realtime_" ++ fund_code) →
  session_get w1 (realtime_url fund_code) = Ok resp →
  Simple.raise_for_status resp = Ok tt →
  re_match_object L (text resp) = None →
  time_time w2 - time_time w1 < Simple.cache_timeout →
  ∃ s1,
    Simple.get_fund_realtime_info L w1 fund_code s = (Ok ∅, s1) ∧
    Simple.requests s1 = (Simple.requests s ++ [realtime_url fund_code])%list ∧
    Simple.get_fund_realtime_info L w2 fund_code s1 = (Ok ∅, s1) ∧
    Simple.calculate_technical_indicators L w2 fund_code s1
    = (Ok {[ "error" := VStr "无法获取基金数据" ]}, s1).
Proof.
  intros Hstale Hget Hstatus Hmatch Hwindow.
  assert (Hfetch : Simple.fetch L w1 (realtime_url fund_code) = Ok ∅).
  { unfold Simple.fetch. rewrite Hget. cbn [mbind result_bind].
    rewrite Hstatus. cbn [mbind result_bind].
    unfold _parse_jsonp. rewrite Hmatch. reflexivity. }
  pose proof (cache_miss L w1 fund_code s Hstale) as Hfirst.
  rewrite Hfetch in Hfirst. cbv zeta in Hfirst.
  eexists. split; [exact Hfirst|]. split; [reflexivity|].
  assert (Hsecond : ∀ s1,
            Simple.fund_cache s1 !! ("realtime_" ++ fund_code) = Some (∅, time_time w1) →
            Simple.get_fund_realtime_info L w2 fund_code s1 = (Ok ∅, s1)).
  { intros s1 Hlook. exact (cache_hit L w2 fund_code s1 ∅ (time_time w1) Hlook Hwindow). }
  split.
  - apply Hsecond. cbn [Simple.fund_cache]. apply lookup_insert_eq.
  - unfold Simple.calculate_technical_indicators. rewrite Hsecond.
    + cbn [mbind result_bind].
      assert (Hempty : dict_truthy ∅ = false).
      { apply bool_decide_eq_false. intros H. apply H. reflexivity. }
      rewrite Hempty. reflexivity.
    + cbn [Simple.fund_cache]. apply lookup_insert_eq.
Qed.

Lemma empty_payload_is_served_from_cache_witness :
  ∃ s1,
    Simple.get_fund_realtime_info sample_library (garbled_env 1000) "000001" empty_state
    = (Ok ∅, s1) ∧
    Simple.get_fund_realtime_info sample_library (sample_env 1200) "000001" s1
    = (Ok ∅, s1).
Proof.
  destruct (empty_payload_is_served_from_cache sample_library (garbled_env 1000)
              (sample_env 1200) "000001" empty_state
              {| status_code := 200; text := "<html>busy</html>" |})
    as (s1 & Hfirst & _ & Hsecond & _).
  - intros (c & ts & H & _). cbn in H. rewrite lookup_empty in H. discriminate H.
  - reflexivity.
  - reflexivity.
  - vm_compute. reflexivity.
  - vm_compute. reflexivity.
  - exists s1. split; assumption.
Defined.


(** *** The moving-average rule of the base system *)

Lemma Qltb_irrefl (a : Q) : Qltb a a = false.
Proof. apply Qltb_false_iff, Qle_refl. Qed.

Lemma Qltb_true (a b : Q) : a < b → Qltb a b = true.
Proof. apply Qltb_iff. Qed.

Lemma Qltb_false (a b : Q) : b <= a → Qltb a b = false.
Proof. apply Qltb_false_iff. Qed.

(** X15. On a history of fewer than 10 values the base system always
    answers "hold": with the data-shortage reason below 5 values, and with
    the no-clear-trend reason from 5 to 9 values, where the 10-value average
    falls back to the 5-value average and neither trend test can pass. *)
Theorem base_short_history_holds (fund_code : string) (current_valuation : Q)
    (historical_data : list Q) :
  (length historical_data < 10)%nat →
  Base.get_trading_advice fund_code current_valuation (Some historical_data)
  = base_advice "hold"
      (if (length historical_data <? 5)%nat then "历史数据不足" else "趋势不明确").
Proof.
  intros Hlen. unfold Base.get_trading_advice. cbv beta iota zeta.
  destruct (length historical_data <? 5)%nat; [reflexivity|].
  assert (H10 : (10 <=? length historical_data)%nat = false)
    by (apply Nat.leb_gt; exact Hlen).
  rewrite H10, !Qltb_irrefl, !andb_false_r. reflexivity.
Qed.

Lemma base_short_history_holds_witness :
  Base.get_trading_advice "000001" 2 (Some [1; 1.1; 1.2; 1.3; 1.4; 1.5])
  = base_advice "hold" "趋势不明确".
Proof.
  apply (base_short_history_holds "000001" 2 [1; 1.1; 1.2; 1.3; 1.4; 1.5]).
  simpl. lia.
Defined.

(** X16. On a chronological history of at least 10 values that rises
    strictly, a valuation at or above the latest value gives "buy"; on one
    that falls strictly, a valuation at or below the latest value gives
    "sell". *)
Theorem base_trend_advice (fund_code : string) (current_valuation latest : Q)
    (historical_data : list Q) :
  (10 ≤ length historical_data)%nat → last historical_data = Some latest →
  (StronglySorted Qlt historical_data → latest <= current_valuation →
   Base.get_trading_advice fund_code current_valuation (Some historical_data)
   = base_advice "buy" "价格处于上升趋势") ∧
  (StronglySorted (fun a b => b < a) historical_data → current_valuation <= latest →
   Base.get_trading_advice fund_code current_valuation (Some historical_data)
   = base_advice "sell" "价格处于下降趋势").
Proof.
  intros Hlen Hlast.
  set (navs := rev historical_data).
  assert (Hh : historical_data = rev navs) by (subst navs; symmetry; apply rev_involutive).
  assert (Hlen' : (10 ≤ length navs)%nat) by (subst navs; rewrite length_rev; exact Hlen).
  assert (Hhead : head navs = Some latest).
  { subst navs. destruct (rev historical_data) as [|a l] eqn:Hr.
    - apply (f_equal (@length Q)) in Hr. rewrite length_rev in Hr. simpl in Hr. lia.
    - apply (f_equal (@rev Q)) in Hr. rewrite rev_involutive in Hr. cbn [rev] in Hr.
      rewrite Hr, last_snoc in Hlast. exact Hlast. }
  destruct (monotone_means navs latest Hlen' Hhead) as [Hup Hdown].
  unfold Base.get_trading_advice. cbv beta iota zeta.
  assert (H5 : (length historical_data <? 5)%nat = false) by (apply Nat.ltb_ge; lia).
  assert (H10 : (10 <=? length historical_data)%nat = true) by (apply Nat.leb_le; lia).
  rewrite H5, H10.
  assert (E5 : qsum (last_n 5 historical_data) / 5
               == qsum (take 5 navs) / inject_Z (Z.of_nat 5)).
  { rewrite Hh, last_n_rev by lia. rewrite qsum_rev. reflexivity. }
  assert (E10 : qsum (last_n 10 historical_data) / 10
                == qsum (take 10 navs) / inject_Z (Z.of_nat 10)).
  { rewrite Hh, last_n_rev by lia. rewrite qsum_rev. reflexivity. }
  split; intros Hs Hcur.
  - destruct Hup as [Hm Hn]; [rewrite <- Hh; exact Hs|].
    rewrite <- E5, <- E10 in Hm. rewrite <- E5 in Hn.
    rewrite (Qltb_true _ _ Hm).
    rewrite (Qltb_true (qsum (last_n 5 historical_data) / 5) current_valuation)
      by (eapply Qlt_le_trans; [exact Hn | exact Hcur]).
    reflexivity.
  - destruct Hdown as [Hm Hn]; [rewrite <- Hh; exact Hs|].
    rewrite <- E5, <- E10 in Hm. rewrite <- E5 in Hn.
    rewrite (Qltb_false (qsum (last_n 5 historical_data) / 5) current_valuation)
      by (apply Qlt_le_weak; eapply Qle_lt_trans; [exact Hcur | exact Hn]).
    rewrite (Qltb_true _ _ Hm).
    rewrite (Qltb_true current_valuation (qsum (last_n 5 historical_data) / 5))
      by (eapply Qle_lt_trans; [exact Hcur | exact Hn]).
    reflexivity.
Qed.

Lemma base_trend_advice_witness :
  Base.get_trading_advice "000001" 11 (Some [1; 2; 3; 4; 5; 6; 7; 8; 9; 10])
  = base_advice "buy" "价格处于上升趋势".
Proof.
  destruct (base_trend_advice "000001" 11 10 [1; 2; 3; 4; 5; 6; 7; 8; 9; 10])
    as [Hup _].
  - simpl. lia.
  - reflexivity.
  - apply Hup.
    + repeat (apply SSorted_cons; [|repeat constructor]). apply SSorted_nil.
    + discriminate.
Defined.

Lemma mock_history_values (v : Q) :
  Base.mock_history v
  = [ v * (0.95 + 0 * 0.01); v * (0.95 + 1 * 0.01); v * (0.95 + 2 * 0.01);
      v * (0.95 + 3 * 0.01); v * (0.95 + 4 * 0.01); v * (0.95 + 5 * 0.01);
      v * (0.95 + 6 * 0.01); v * (0.95 + 7 * 0.01); v * (0.95 + 8 * 0.01);
      v * (0.95 + 9 * 0.01) ].
Proof. reflexivity. Qed.

Lemma analysis_history_tail (v : Q) :
  last_n 10 (Base.analysis_history v)
  = [ v * (0.98 + 10 * 0.005); v * (0.98 + 11 * 0.005); v * (0.98 + 12 * 0.005);
      v * (0.98 + 13 * 0.005); v * (0.98 + 14 * 0.005); v * (0.98 + 15 * 0.005);
      v * (0.98 + 16 * 0.005); v * (0.98 + 17 * 0.005); v * (0.98 + 18 * 0.005);
      v * (0.98 + 19 * 0.005) ] ∧
  last_n 5 (Base.analysis_history v)
  = [ v * (0.98 + 15 * 0.005); v * (0.98 + 16 * 0.005); v * (0.98 + 17 * 0.005);
      v * (0.98 + 18 * 0.005); v * (0.98 + 19 * 0.005) ] ∧
  length (Base.analysis_history v) = 20%nat.
Proof. repeat split. Qed.

(** X17. The two histories that the base system makes up from the valuation
    itself never show a trend: with no history given, and with the history
    that [analyze_fund] builds, the advice is "hold" with the no-clear-trend
    reason for every valuation (in exact arithmetic). *)
Theorem base_synthetic_histories_hold (fund_code : string) (valuation : Q) :
  Base.get_trading_advice fund_code valuation None
  = base_advice "hold" "趋势不明确" ∧
  Base.get_trading_advice fund_code valuation (Some (Base.analysis_history valuation))
  = base_advice "hold" "趋势不明确".
Proof.
  split; unfold Base.get_trading_advice; cbv beta iota zeta.
  - rewrite mock_history_values.
    change (length _ <? 5)%nat with false. change (10 <=? length _)%nat with true.
    cbv iota. unfold last_n. cbn [Nat.eqb length Nat.sub drop skipn].
    unfold qsum. cbn [fold_left].
    match goal with
    | |- (if Qltb ?m5 ?v && Qltb ?m10 ?m5' then _ else _) = _ =>
        destruct (Qltb m5 v) eqn:A; destruct (Qltb m10 m5) eqn:B;
        destruct (Qltb v m5) eqn:C; destruct (Qltb m5 m10) eqn:D
    end; cbn [andb]; try reflexivity; exfalso;
      rewrite ?Qltb_iff, ?Qltb_false_iff in *;
      unfold Qdiv in *; change (/ 5) with (1 # 5) in *; change (/ 10) with (1 # 10) in *; lra.
  - destruct (analysis_history_tail valuation) as (T10 & T5 & Tlen).
    rewrite Tlen, T10, T5.
    change (20 <? 5)%nat with false. change (10 <=? 20)%nat with true.
    cbv iota. unfold qsum. cbn [fold_left].
    match goal with
    | |- (if Qltb ?m5 ?v && Qltb ?m10 ?m5' then _ else _) = _ =>
        destruct (Qltb m5 v) eqn:A; destruct (Qltb m10 m5) eqn:B;
        destruct (Qltb v m5) eqn:C; destruct (Qltb m5 m10) eqn:D
    end; cbn [andb]; try reflexivity; exfalso;
      rewrite ?Qltb_iff, ?Qltb_false_iff in *;
      unfold Qdiv in *; change (/ 5) with (1 # 5) in *; change (/ 10) with (1 # 10) in *; lra.
Qed.

(** *** The series of moving averages *)

(** X18. For a numeric series and a window [p > 0], [calculate_ma] does
    not raise and returns one average per window position ([len - p + 1] of
    them, none when the series is shorter than the window); in exact
    arithmetic the average at position [i] is the sum of the [p] values from
    [i] on, divided by [p]. *)
Theorem moving_average_series (navs : list Q) (p : nat) :
  (0 < p)%nat →
  ∃ l,
    Final.calculate_ma (map VNum navs) p = Ok l ∧
    length l = (length navs + 1 - p)%nat ∧
    (∀ i m, l !! i = Some m →
            (i + p ≤ length navs)%nat ∧
            m == qsum (take p (drop i navs)) / inject_Z (Z.of_nat p)).
Proof.
  intros Hp. destruct (le_lt_dec p (length navs)) as [Hle|Hgt].
  - rewrite (calculate_ma_num navs p (conj Hp Hle)).
    eexists. split; [reflexivity|].
    split; [rewrite length_map, length_seq; lia|].
    intros i m Him. rewrite list_lookup_fmap in Him.
    destruct (seq 0 (length navs - p + 1) !! i) as [j|] eqn:Hj; [|discriminate].
    apply lookup_seq in Hj as [-> Hlt]. cbn in Him. injection Him as <-.
    split; [lia | reflexivity].
  - exists []. split; [apply calculate_ma_short; rewrite length_map; exact Hgt|].
    split; [simpl; lia|].
    intros i m Him. rewrite lookup_nil in Him. discriminate.
Qed.

Lemma moving_average_series_witness :
  ∃ l, Final.calculate_ma (map VNum [1; 3; 2; 4; 6; 5; 7]) 5 = Ok l ∧
       length l = 3%nat.
Proof.
  destruct (moving_average_series [1; 3; 2; 4; 6; 5; 7] 5) as (l & Hl & Hlen & _).
  - lia.
  - exists l. split; [exact Hl | exact Hlen].
Defined.
